(** * Permission-aware project and task services

    A shallow embedding of [server/services/projectService.js] and
    [server/services/taskService.js].  The relational store behind the
    Prisma client is a record of tables (lists of rows, oldest first);
    every service method is a computation in a state-and-error monad
    over that store.

    Conventions of the embedding:
    - identifiers ([cuid()] strings in the store) are natural numbers
      drawn from the store's [nextId] counter;
    - dates are integers (milliseconds), [new Date()] reads [clock];
    - a JS value that may be [undefined] or [null] is an [option];
    - a method that throws returns [Err]; the source performs its
      writes after its last check or inside [$transaction], so a failed
      call leaves the store as it was and [Err] carries no store
      ([addMember] reads the project once more after its insert; that
      read cannot fail, see [addMember_run]);
    - referential and uniqueness constraints of the schema are not
      enforced by the table primitives: they could only turn a write
      that succeeds here into a failure.  Where a statement says that
      a write naming a user succeeds, it assumes that the user is a row
      of the user table, and the handlers that answer on such a write
      check it;
    - the schema file (prisma/schema.prisma) is not among the sources.
      Its datasource is a parameter, [Provider]: the string filter
      [mode: 'insensitive'] of the two listings is known to one
      provider and refused by the other. *)

From Stdlib Require Import List String Ascii ZArith Bool Arith Lia Sorted Permutation.
Import ListNotations.
Open Scope string_scope.

(** ** JavaScript values *)

Module JS.

(** [if (x)] on a string that may be undefined: [undefined] and the
    empty string are falsy. *)
Definition truthy (x : option string) : bool :=
  match x with
  | Some EmptyString => false
  | Some _ => true
  | None => false
  end.

(** [x || d] on such a string. *)
Definition or_else (x : option string) (d : string) : string :=
  match x with
  | Some (String a r) => String a r
  | _ => d
  end.

(** [x || null]. *)
Definition or_null (x : option string) : option string :=
  if truthy x then x else None.

Definition upper_ascii (c : ascii) : ascii :=
  let n := nat_of_ascii c in
  if ((97 <=? n) && (n <=? 122))%nat then ascii_of_nat (n - 32) else c.

Definition lower_ascii (c : ascii) : ascii :=
  let n := nat_of_ascii c in
  if ((65 <=? n) && (n <=? 90))%nat then ascii_of_nat (n + 32) else c.

Fixpoint map_string (f : ascii -> ascii) (s : string) : string :=
  match s with
  | EmptyString => EmptyString
  | String c r => String (f c) (map_string f r)
  end.

(** A string of ASCII characters. *)
Fixpoint isAscii (s : string) : bool :=
  match s with
  | EmptyString => true
  | String c r => (nat_of_ascii c <? 128)%nat && isAscii r
  end.

(** [String.prototype.toUpperCase] and [toLowerCase] on a string of
    ASCII characters.  JavaScript maps letters outside ASCII as well
    (['ZOË'.toLowerCase()] is ['zoë']); these two leave every other
    character as it is, so they are the JavaScript functions on the
    strings that [isAscii] admits and on no others.  A statement that
    reads a result of [toUpperCase] or [toLowerCase] off an arbitrary
    input carries [isAscii] of that input as a hypothesis. *)
Definition toUpperCase : string -> string := map_string upper_ascii.
Definition toLowerCase : string -> string := map_string lower_ascii.

(** [hay.includes(needle)]. *)
Fixpoint includes (needle hay : string) : bool :=
  prefix needle hay ||
  match hay with
  | EmptyString => false
  | String _ r => includes needle r
  end.

(** [Array.prototype.find]. *)
Definition find {A} (f : A -> bool) (l : list A) : option A := List.find f l.

(** [Math.ceil(a / b)] for a positive [b]. *)
Definition ceil_div (a b : nat) : nat := (a + b - 1) / b.

End JS.

(** ** The relational store *)

Definition Id := nat.
Definition Date := Z.

Definition eqb_opt_id (a : option Id) (b : Id) : bool :=
  match a with
  | Some x => (x =? b)%nat
  | None => false
  end.

Record User := mkUser {
  u_id : Id;
  u_name : string;
  u_email : string;
  u_avatar : option string
}.

Record Project := mkProject {
  p_id : Id;
  p_name : string;
  p_description : option string;
  p_status : string;
  p_priority : string;
  p_color : string;
  p_dueDate : option Date;
  p_ownerId : Id;
  p_updatedAt : Date
}.

Record ProjectMember := mkMember {
  m_userId : Id;
  m_projectId : Id;
  m_role : string
}.

Record ProjectColumn := mkColumn {
  c_name : string;
  c_order : Z;
  c_color : string;
  c_projectId : Id
}.

Record ProjectTag := mkTag {
  tag_id : Id;
  tag_name : string;
  tag_projectId : Id
}.

Record Task := mkTask {
  t_id : Id;
  t_title : string;
  t_description : option string;
  t_projectId : Id;
  t_creatorId : Id;
  t_assigneeId : option Id;
  t_status : string;
  t_priority : string;
  t_dueDate : option Date;
  t_completedDate : option Date;
  t_estimatedHours : option Z;
  t_actualHours : option Z;
  t_position : Z;
  t_isArchived : bool;
  t_createdAt : Date
}.

Record TaskWatcher := mkWatcher {
  w_userId : Id;
  w_taskId : Id
}.

Record TaskTag := mkTaskTag {
  tt_taskId : Id;
  tt_tagId : Id
}.

Record Comment := mkComment {
  cm_id : Id;
  cm_content : string;
  cm_authorId : Id;
  cm_taskId : Id;
  cm_isEdited : bool;
  cm_createdAt : Date;
  cm_updatedAt : Date
}.

Record Store := mkStore {
  users : list User;
  projects : list Project;
  members : list ProjectMember;
  columns : list ProjectColumn;
  projectTags : list ProjectTag;
  tasks : list Task;
  watchers : list TaskWatcher;
  taskTags : list TaskTag;
  comments : list Comment;
  nextId : Id;
  clock : Date
}.

Definition set_projects (s : Store) (x : list Project) : Store :=
  mkStore (users s) x (members s) (columns s) (projectTags s) (tasks s)
          (watchers s) (taskTags s) (comments s) (nextId s) (clock s).
Definition set_members (s : Store) (x : list ProjectMember) : Store :=
  mkStore (users s) (projects s) x (columns s) (projectTags s) (tasks s)
          (watchers s) (taskTags s) (comments s) (nextId s) (clock s).
Definition set_columns (s : Store) (x : list ProjectColumn) : Store :=
  mkStore (users s) (projects s) (members s) x (projectTags s) (tasks s)
          (watchers s) (taskTags s) (comments s) (nextId s) (clock s).
Definition set_projectTags (s : Store) (x : list ProjectTag) : Store :=
  mkStore (users s) (projects s) (members s) (columns s) x (tasks s)
          (watchers s) (taskTags s) (comments s) (nextId s) (clock s).
Definition set_tasks (s : Store) (x : list Task) : Store :=
  mkStore (users s) (projects s) (members s) (columns s) (projectTags s) x
          (watchers s) (taskTags s) (comments s) (nextId s) (clock s).
Definition set_watchers (s : Store) (x : list TaskWatcher) : Store :=
  mkStore (users s) (projects s) (members s) (columns s) (projectTags s) (tasks s)
          x (taskTags s) (comments s) (nextId s) (clock s).
Definition set_taskTags (s : Store) (x : list TaskTag) : Store :=
  mkStore (users s) (projects s) (members s) (columns s) (projectTags s) (tasks s)
          (watchers s) x (comments s) (nextId s) (clock s).
Definition set_comments (s : Store) (x : list Comment) : Store :=
  mkStore (users s) (projects s) (members s) (columns s) (projectTags s) (tasks s)
          (watchers s) (taskTags s) x (nextId s) (clock s).
Definition set_nextId (s : Store) (x : Id) : Store :=
  mkStore (users s) (projects s) (members s) (columns s) (projectTags s) (tasks s)
          (watchers s) (taskTags s) (comments s) x (clock s).

(** ** Errors and the service monad *)

(** One constructor per message the two services throw; the
    "Insufficient permissions to ..." messages differ in the action
    they name.  [RecordNotFound] is the store's own failure when
    [delete] or [update] addresses a row that is absent,
    [QueryRejected] the client's when a query carries an argument
    that the datasource does not know. *)
Inductive Error :=
| NotFoundOrDenied                      (* Project not found or access denied *)
| InsufficientPermissions (action : string)
| UserNotFound                          (* User not found *)
| AlreadyMember                         (* User is already a member of this project *)
| CannotRemoveOwner                     (* Cannot remove project owner *)
| AccessDenied                          (* Access denied - not a project member *)
| InvalidAssignee                       (* Assignee must be a project member *)
| TaskNotFound                          (* Task not found *)
| CommentNotFound                       (* Comment not found *)
| NotCommentAuthor                      (* You can only edit your own comments *)
| RecordNotFound
| QueryRejected.

Inductive Result (A : Type) :=
| Ok (a : A)
| Err (e : Error).
Arguments Ok {A} a.
Arguments Err {A} e.

Definition M (A : Type) : Type := Store -> Result (A * Store).

Definition ret {A} (a : A) : M A := fun s => Ok (a, s).
Definition throw {A} (e : Error) : M A := fun _ => Err e.
Definition bind {A B} (m : M A) (k : A -> M B) : M B :=
  fun s => match m s with
           | Ok (a, s') => k a s'
           | Err e => Err e
           end.
Definition gets {A} (f : Store -> A) : M A := fun s => Ok (f s, s).
Definition modify (f : Store -> Store) : M unit := fun s => Ok (tt, f s).
Definition when (b : bool) (m : M unit) : M unit := if b then m else ret tt.

(** [prisma.$transaction]: all writes of the body or none.  A failing
    body yields [Err], which carries no store. *)
Definition transaction {A} (body : M A) : M A := body.

Declare Scope service_scope.
Delimit Scope service_scope with service.
Notation "x <- c ;; k" := (bind c (fun x => k))
  (at level 61, c at next level, right associativity) : service_scope.
Notation "c ;;; k" := (bind c (fun _ => k))
  (at level 61, right associativity) : service_scope.
Open Scope service_scope.

Fixpoint forEach {A} (l : list A) (body : A -> M unit) : M unit :=
  match l with
  | [] => ret tt
  | x :: r => body x ;;; forEach r body
  end.

(** [orderBy]: a stable insertion sort; [le a b] says that [a] may
    come before [b]. *)
Fixpoint insert_by {A} (le : A -> A -> bool) (x : A) (l : list A) : list A :=
  match l with
  | [] => [x]
  | y :: r => if le x y then x :: l else y :: insert_by le x r
  end.

Fixpoint orderBy {A} (le : A -> A -> bool) (l : list A) : list A :=
  match l with
  | [] => []
  | x :: r => insert_by le x (orderBy le r)
  end.

(** A fresh identifier, as [@default(cuid())] supplies on [create]. *)
Definition freshId : M Id :=
  fun s => Ok (nextId s, set_nextId s (S (nextId s))).

Definition orElse {A} (x : option A) (d : A) : A :=
  match x with
  | Some v => v
  | None => d
  end.

Definition isSome {A} (x : option A) : bool :=
  match x with
  | Some _ => true
  | None => false
  end.

(** ** Queries on the project tables *)

(** One alternative of the [OR] list of a project [where] object. *)
Inductive ProjectCond :=
| OwnerIdIs (userId : Id)
| MembersSome (userId : Id)
| NameContains (search : string)
| DescriptionContains (search : string).

(** A [where] object of [prisma.project]: the keys the service sets.
    Keys of one object are conjoined; [OR] holds when one of its
    alternatives does. *)
Record ProjectWhere := mkProjectWhere {
  pw_id : option Id;
  pw_OR : list ProjectCond;
  pw_status : option string
}.

Definition set_pw_status (w : ProjectWhere) (x : option string) : ProjectWhere :=
  mkProjectWhere (pw_id w) (pw_OR w) x.
Definition set_pw_OR (w : ProjectWhere) (x : list ProjectCond) : ProjectWhere :=
  mkProjectWhere (pw_id w) x (pw_status w).

(** Whether the object carries a filter with [mode]. *)
Definition projectWhere_usesMode (w : ProjectWhere) : bool :=
  existsb (fun c => match c with
                    | NameContains _ | DescriptionContains _ => true
                    | _ => false
                    end) (pw_OR w).

(** The provider of the schema's datasource.  The repository's notes
    on its database (the file headed "SQLite Implementation") give
    [provider = "sqlite"] and name [provider = "postgresql"] as the
    way to a larger installation; the server logs "Connected to SQLite
    database". *)
Inductive Provider :=
| Sqlite
| Postgresql.

(** Whether the string filters of the provider take [mode]: the
    client knows [mode: 'insensitive'] for PostgreSQL and refuses the
    argument for SQLite. *)
Definition knowsMode (provider : Provider) : bool :=
  match provider with
  | Postgresql => true
  | Sqlite => false
  end.

(** A read of the store through the client.  The client validates the
    arguments first: a query whose [where] uses [mode] throws on a
    provider that does not know it. *)
Definition query {A} (provider : Provider) (usesMode : bool)
                 (read : Store -> A) : M A :=
  if usesMode && negb (knowsMode provider) then throw QueryRejected else gets read.

(** [{ contains: search, mode: 'insensitive' }] on a nullable column,
    where the provider takes the filter: the meaning Prisma documents
    for it, a substring test that ignores case; a null column matches
    nothing. *)
Definition containsInsensitive (search : string) (field : option string) : bool :=
  match field with
  | Some v => JS.includes (JS.toLowerCase search) (JS.toLowerCase v)
  | None => false
  end.

Definition projectMember_findUnique (userId projectId : Id) (s : Store)
  : option ProjectMember :=
  List.find (fun m => (m_userId m =? userId)%nat && (m_projectId m =? projectId)%nat)
            (members s).

Definition holds_cond (s : Store) (p : Project) (c : ProjectCond) : bool :=
  match c with
  | OwnerIdIs userId => (p_ownerId p =? userId)%nat
  | MembersSome userId =>
      existsb (fun m => (m_projectId m =? p_id p)%nat && (m_userId m =? userId)%nat)
              (members s)
  | NameContains search => containsInsensitive search (Some (p_name p))
  | DescriptionContains search => containsInsensitive search (p_description p)
  end.

Definition project_matches (s : Store) (w : ProjectWhere) (p : Project) : bool :=
  match pw_id w with
  | Some i => (p_id p =? i)%nat
  | None => true
  end
  && existsb (holds_cond s p) (pw_OR w)
  && match pw_status w with
     | Some st => (p_status p =? st)%string
     | None => true
     end.

Definition project_findMany (w : ProjectWhere) (s : Store) : list Project :=
  filter (project_matches s w) (projects s).

Definition project_findFirst (w : ProjectWhere) (s : Store) : option Project :=
  List.find (project_matches s w) (projects s).

Definition members_of (projectId : Id) (s : Store) : list ProjectMember :=
  filter (fun m => (m_projectId m =? projectId)%nat) (members s).

Definition columns_of (projectId : Id) (s : Store) : list ProjectColumn :=
  filter (fun c => (c_projectId c =? projectId)%nat) (columns s).

Definition tags_of (projectId : Id) (s : Store) : list ProjectTag :=
  filter (fun t => (tag_projectId t =? projectId)%nat) (projectTags s).

Definition tasks_of (projectId : Id) (s : Store) : list Task :=
  filter (fun t => (t_projectId t =? projectId)%nat) (tasks s).

(** A project with the relations [include] loads: member rows, columns,
    tags and the task count.  The joined user projections ([owner],
    [members.user]) carry no information the services branch on and
    are left out. *)
Record ProjectDetails := mkProjectDetails {
  pd_project : Project;
  pd_members : list ProjectMember;
  pd_columns : list ProjectColumn;
  pd_tags : list ProjectTag;
  pd_taskCount : nat
}.

Record Pagination := mkPagination {
  pg_current : nat;
  pg_pages : nat;
  pg_total : nat
}.

Record ProjectPage := mkProjectPage {
  pp_projects : list ProjectDetails;
  pp_pagination : Pagination
}.

(** ** projectService.js *)

Module ProjectService.

Record ProjectData := mkProjectData {
  data_name : string;
  data_description : option string;
  data_dueDate : option Date;
  data_priority : option string;
  data_color : option string;
  data_tags : option (list string)
}.

(** The [filters] argument of [getUserProjects]; [page] and [limit]
    are positive, as the pagination arithmetic presumes. *)
Record Filters := mkFilters {
  f_status : option string;
  f_search : option string;
  f_page : option positive;
  f_limit : option positive
}.

(** Modelled from the spec: the schema (prisma/schema.prisma) gives
    [Project.status] its default; the spec lists the statuses
    active, completed, archived and on-hold, stored in upper case. *)
Definition defaultProjectStatus : string := "ACTIVE".

Definition defaultColumns : list (string * Z * string) :=
  [ ("To Do", 0%Z, "#EF4444");
    ("In Progress", 1%Z, "#F59E0B");
    ("Review", 2%Z, "#8B5CF6");
    ("Done", 3%Z, "#10B981") ].

(** [createProject(projectData, ownerId)].  The result is the project
    row as [tx.project.create] returns it, before the owner's member
    row and the columns are inserted. *)
Definition createProject (projectData : ProjectData) (ownerId : Id) : M Project :=
  transaction (
    id <- freshId ;;
    now <- gets clock ;;
    let project :=
      mkProject id (data_name projectData) (data_description projectData)
                defaultProjectStatus
                (JS.or_else (data_priority projectData) "MEDIUM")
                (JS.or_else (data_color projectData) "#3B82F6")
                (data_dueDate projectData) ownerId now in
    modify (fun s => set_projects s (projects s ++ [project])) ;;;
    modify (fun s => set_members s (members s ++ [mkMember ownerId id "OWNER"])) ;;;
    modify (fun s => set_columns s
      (columns s ++ map (fun col => match col with
                                    | (n, o, c) => mkColumn n o c id
                                    end) defaultColumns)) ;;;
    when (match data_tags projectData with
          | Some (_ :: _) => true
          | _ => false
          end)
      (forEach (orElse (data_tags projectData) [])
         (fun tag => tid <- freshId ;;
                     modify (fun s => set_projectTags s (projectTags s ++ [mkTag tid tag id])))) ;;;
    ret project).

(** The [where] object of [getUserProjects], built by the same three
    assignments: the initial object, then [where.status], then
    [where.OR]. *)
Definition userProjectsWhere (userId : Id) (filters : Filters) : ProjectWhere :=
  let where_ := mkProjectWhere None [OwnerIdIs userId; MembersSome userId] None in
  let where_ :=
    if JS.truthy (f_status filters)
    then set_pw_status where_ (Some (JS.toUpperCase (orElse (f_status filters) "")))
    else where_ in
  let where_ :=
    if JS.truthy (f_search filters)
    then set_pw_OR where_ [NameContains (orElse (f_search filters) "");
                          DescriptionContains (orElse (f_search filters) "")]
    else where_ in
  where_.

(** The relations [getUserProjects] includes: members and task count. *)
Definition summary (s : Store) (p : Project) : ProjectDetails :=
  mkProjectDetails p (members_of (p_id p) s) [] []
                   (List.length (tasks_of (p_id p) s)).

(** [getUserProjects(userId, filters)]: [findMany] ordered by
    [updatedAt] descending with [skip] and [take], and [count], both on
    the same [where]. *)
Definition getUserProjects (provider : Provider) (userId : Id) (filters : Filters)
  : M ProjectPage :=
  let page := Pos.to_nat (orElse (f_page filters) 1%positive) in
  let limit := Pos.to_nat (orElse (f_limit filters) 10%positive) in
  let where_ := userProjectsWhere userId filters in
  let skip := ((page - 1) * limit)%nat in
  projects <- query provider (projectWhere_usesMode where_) (fun s =>
    map (summary s)
        (firstn limit (skipn skip
           (orderBy (fun a b => (p_updatedAt b <=? p_updatedAt a)%Z)
                    (project_findMany where_ s))))) ;;
  total <- query provider (projectWhere_usesMode where_)
                 (fun s => List.length (project_findMany where_ s)) ;;
  ret (mkProjectPage projects
         (mkPagination page (JS.ceil_div total limit) total)).

(** [getProjectById(id, userId)]: one [findFirst] on the id and the
    access condition together. *)
Definition getProjectById (id userId : Id) : M ProjectDetails :=
  project <- gets (project_findFirst
                     (mkProjectWhere (Some id)
                        [OwnerIdIs userId; MembersSome userId] None)) ;;
  match project with
  | None => throw NotFoundOrDenied
  | Some p =>
      gets (fun s =>
        mkProjectDetails p (members_of (p_id p) s)
          (orderBy (fun a b => (c_order a <=? c_order b)%Z) (columns_of (p_id p) s))
          (tags_of (p_id p) s)
          (List.length (tasks_of (p_id p) s)))
  end.

(** [!userMember || (userMember.role !== 'OWNER' && userMember.role !== 'ADMIN')] *)
Definition notEditor (userMember : option ProjectMember) : bool :=
  match userMember with
  | None => true
  | Some m => negb (m_role m =? "OWNER")%string && negb (m_role m =? "ADMIN")%string
  end.

(** [addMember(projectId, email, role = 'MEMBER', userId)]. *)
Definition addMember (projectId : Id) (email : string) (role : option string)
                     (userId : Id) : M ProjectDetails :=
  let role := orElse role "MEMBER" in
  project <- getProjectById projectId userId ;;
  let userMember := JS.find (fun m => (m_userId m =? userId)%nat) (pd_members project) in
  if notEditor userMember then throw (InsufficientPermissions "add members") else
  user <- gets (fun s =>
    List.find (fun u => (u_email u =? JS.toLowerCase email)%string) (users s)) ;;
  match user with
  | None => throw UserNotFound
  | Some user =>
      existingMember <- gets (projectMember_findUnique (u_id user) projectId) ;;
      if isSome existingMember then throw AlreadyMember else
      modify (fun s => set_members s
        (members s ++ [mkMember (u_id user) projectId (JS.toUpperCase role)])) ;;;
      getProjectById projectId userId
  end.

(** [prisma.projectMember.delete] on the composite key. *)
Definition projectMember_delete (userId projectId : Id) : M unit :=
  existing <- gets (projectMember_findUnique userId projectId) ;;
  if isSome existing
  then modify (fun s => set_members s
         (filter (fun m => negb ((m_userId m =? userId)%nat
                                 && (m_projectId m =? projectId)%nat))
                 (members s)))
  else throw RecordNotFound.

(** [removeMember(projectId, memberUserId, userId)]. *)
Definition removeMember (projectId memberUserId userId : Id) : M unit :=
  project <- getProjectById projectId userId ;;
  let userMember := JS.find (fun m => (m_userId m =? userId)%nat) (pd_members project) in
  if notEditor userMember then throw (InsufficientPermissions "remove members") else
  if (p_ownerId (pd_project project) =? memberUserId)%nat then throw CannotRemoveOwner else
  projectMember_delete memberUserId projectId.

(** [isProjectMember]: [!!member]. *)
Definition isProjectMember (projectId userId : Id) : M bool :=
  member <- gets (projectMember_findUnique userId projectId) ;;
  ret (isSome member).

(** [getUserRole]: [member?.role || null]. *)
Definition getUserRole (projectId userId : Id) : M (option string) :=
  member <- gets (projectMember_findUnique userId projectId) ;;
  ret (JS.or_null (option_map m_role member)).

(** The [updateData] argument of [updateProject]: the keys the route
    forwards.  [None] is a key that is absent or [undefined]; on a
    nullable column [Some None] is [null]. *)
Record UpdateData := mkUpdateData {
  up_name : option string;
  up_description : option (option string);
  up_status : option string;
  up_dueDate : option (option Date);
  up_priority : option string;
  up_color : option string;
  up_tags : option (list string);
  up_columns : option (list (string * Z * string))
}.

(** What [updateProject] returns: the row as [tx.project.update] leaves
    it with the relations its [include] loads at that moment. *)
Record UpdatedProject := mkUpdatedProject {
  upd_project : Project;
  upd_members : list ProjectMember;
  upd_columns : list ProjectColumn;
  upd_tags : list ProjectTag
}.

(** The row [tx.project.update({ data })] leaves: every key present
    overwrites its column, a [dueDate] that is not truthy is left out,
    and the store stamps [updatedAt]. *)
Definition applyProjectUpdate (d : UpdateData) (now : Date) (p : Project) : Project :=
  mkProject (p_id p)
            (orElse (up_name d) (p_name p))
            (orElse (up_description d) (p_description p))
            (orElse (up_status d) (p_status p))
            (orElse (up_priority d) (p_priority p))
            (orElse (up_color d) (p_color p))
            match up_dueDate d with
            | Some (Some x) => Some x
            | _ => p_dueDate p
            end
            (p_ownerId p)
            now.

Definition project_update (id : Id) (d : UpdateData) : M UpdatedProject :=
  old <- gets (fun s => List.find (fun p => (p_id p =? id)%nat) (projects s)) ;;
  match old with
  | None => throw RecordNotFound
  | Some p =>
      now <- gets clock ;;
      modify (fun s => set_projects s
        (map (fun x => if (p_id x =? id)%nat then applyProjectUpdate d now x else x)
             (projects s))) ;;;
      gets (fun s =>
        mkUpdatedProject (applyProjectUpdate d now p)
          (members_of id s)
          (orderBy (fun a b => (c_order a <=? c_order b)%Z) (columns_of id s))
          (tags_of id s))
  end.

(** [updateProject(id, updateData, userId)]: columns and tags, when
    given, replace the ones the project has; an empty array is given
    too. *)
Definition updateProject (id : Id) (updateData : UpdateData) (userId : Id)
  : M UpdatedProject :=
  project <- getProjectById id userId ;;
  let userMember := JS.find (fun m => (m_userId m =? userId)%nat) (pd_members project) in
  if notEditor userMember
  then throw (InsufficientPermissions "update this project") else
  transaction (
    updatedProject <- project_update id updateData ;;
    match up_columns updateData with
    | Some newColumns =>
        modify (fun s => set_columns s
          (filter (fun c => negb (c_projectId c =? id)%nat) (columns s))) ;;;
        modify (fun s => set_columns s
          (columns s ++ map (fun col => match col with
                                        | (n, o, c) => mkColumn n o c id
                                        end) newColumns))
    | None => ret tt
    end ;;;
    match up_tags updateData with
    | Some newTags =>
        modify (fun s => set_projectTags s
          (filter (fun t => negb (tag_projectId t =? id)%nat) (projectTags s))) ;;;
        when (match newTags with
              | _ :: _ => true
              | [] => false
              end)
          (forEach newTags
             (fun tag => tid <- freshId ;;
                         modify (fun s => set_projectTags s
                                   (projectTags s ++ [mkTag tid tag id]))))
    | None => ret tt
    end ;;;
    ret updatedProject).

(** Modelled from the spec: the schema (prisma/schema.prisma) declares
    the cascade; by the spec deleting a project cascades to its
    memberships, columns, tags and tasks, and a task owns its Comment,
    TaskWatcher and TaskTag rows. *)
Definition project_delete (id : Id) : M unit :=
  old <- gets (fun s => List.find (fun p => (p_id p =? id)%nat) (projects s)) ;;
  match old with
  | None => throw RecordNotFound
  | Some _ =>
      modify (fun s =>
        let gone := fun taskId =>
          existsb (fun t => (t_id t =? taskId)%nat && (t_projectId t =? id)%nat)
                  (tasks s) in
        mkStore (users s)
          (filter (fun p => negb (p_id p =? id)%nat) (projects s))
          (filter (fun m => negb (m_projectId m =? id)%nat) (members s))
          (filter (fun c => negb (c_projectId c =? id)%nat) (columns s))
          (filter (fun t => negb (tag_projectId t =? id)%nat) (projectTags s))
          (filter (fun t => negb (t_projectId t =? id)%nat) (tasks s))
          (filter (fun w => negb (gone (w_taskId w))) (watchers s))
          (filter (fun x => negb (gone (tt_taskId x))) (taskTags s))
          (filter (fun c => negb (gone (cm_taskId c))) (comments s))
          (nextId s) (clock s))
  end.

(** What [deleteProject] throws: an error of [getProjectById] or of the
    store, or its own refusal, "Only project owner can delete the
    project". *)
Inductive DeleteError :=
| Thrown (e : Error)
| OnlyOwnerCanDelete.

Inductive DeleteResult :=
| Deleted (s : Store)
| Refused (e : DeleteError).

(** [deleteProject(id, userId)]. *)
Definition deleteProject (id userId : Id) (s : Store) : DeleteResult :=
  match getProjectById id userId s with
  | Err e => Refused (Thrown e)
  | Ok (project, s1) =>
      if negb (p_ownerId (pd_project project) =? userId)%nat
      then Refused OnlyOwnerCanDelete
      else match project_delete id s1 with
           | Ok (_, s2) => Deleted s2
           | Err e => Refused (Thrown e)
           end
  end.

End ProjectService.

(** ** Queries on the task tables *)

Inductive TaskCond :=
| TitleContains (search : string)
| TaskDescriptionContains (search : string).

(** The [where] object of [getProjectTasks]; an absent key puts no
    constraint. *)
Record TaskWhere := mkTaskWhere {
  tw_projectId : Id;
  tw_isArchived : bool;
  tw_status : option string;
  tw_assigneeId : option Id;
  tw_priority : option string;
  tw_OR : option (list TaskCond)
}.

Definition set_tw_status (w : TaskWhere) (x : option string) : TaskWhere :=
  mkTaskWhere (tw_projectId w) (tw_isArchived w) x (tw_assigneeId w)
              (tw_priority w) (tw_OR w).
Definition set_tw_assigneeId (w : TaskWhere) (x : option Id) : TaskWhere :=
  mkTaskWhere (tw_projectId w) (tw_isArchived w) (tw_status w) x
              (tw_priority w) (tw_OR w).
Definition set_tw_priority (w : TaskWhere) (x : option string) : TaskWhere :=
  mkTaskWhere (tw_projectId w) (tw_isArchived w) (tw_status w) (tw_assigneeId w)
              x (tw_OR w).
Definition set_tw_OR (w : TaskWhere) (x : option (list TaskCond)) : TaskWhere :=
  mkTaskWhere (tw_projectId w) (tw_isArchived w) (tw_status w) (tw_assigneeId w)
              (tw_priority w) x.

(** Whether the object carries a filter with [mode]: both alternatives
    of the search do. *)
Definition taskWhere_usesMode (w : TaskWhere) : bool :=
  match tw_OR w with
  | Some (_ :: _) => true
  | _ => false
  end.

Definition holds_task_cond (t : Task) (c : TaskCond) : bool :=
  match c with
  | TitleContains search => containsInsensitive search (Some (t_title t))
  | TaskDescriptionContains search => containsInsensitive search (t_description t)
  end.

Definition task_matches (w : TaskWhere) (t : Task) : bool :=
  (t_projectId t =? tw_projectId w)%nat
  && Bool.eqb (t_isArchived t) (tw_isArchived w)
  && match tw_status w with
     | Some st => (t_status t =? st)%string
     | None => true
     end
  && match tw_assigneeId w with
     | Some a => eqb_opt_id (t_assigneeId t) a
     | None => true
     end
  && match tw_priority w with
     | Some pr => (t_priority t =? pr)%string
     | None => true
     end
  && match tw_OR w with
     | Some alts => existsb (holds_task_cond t) alts
     | None => true
     end.

Definition task_findUnique (id : Id) (s : Store) : option Task :=
  List.find (fun t => (t_id t =? id)%nat) (tasks s).

Definition comment_findUnique (id : Id) (s : Store) : option Comment :=
  List.find (fun c => (cm_id c =? id)%nat) (comments s).

Definition taskWatcher_findUnique (userId taskId : Id) (s : Store)
  : option TaskWatcher :=
  List.find (fun w => (w_userId w =? userId)%nat && (w_taskId w =? taskId)%nat)
            (watchers s).

(** A task with the relations [getTaskById] loads.  [task.project.id]
    is the task's [projectId]; attachments and checklist items belong
    to tables no service method writes and are left out. *)
Record TaskDetails := mkTaskDetails {
  td_task : Task;
  td_comments : list Comment;
  td_watchers : list TaskWatcher;
  td_tags : list TaskTag
}.

(** ** taskService.js *)

Module TaskService.

Record TaskData := mkTaskData {
  title : string;
  description : option string;
  assigneeId : option Id;
  status : option string;
  priority : option string;
  dueDate : option Date;
  estimatedHours : option Z;
  tags : option (list string)
}.

Record Filters := mkFilters {
  f_status : option string;
  f_assigneeId : option Id;
  f_priority : option string;
  f_search : option string
}.

(** The [updateData] argument of [updateTask]: [None] is a key that is
    absent (or [undefined]); on a nullable column [Some None] is
    [null].  Besides the keys the route forwards it has [completedDate]
    and [isArchived], which the spread [...taskData] would pass on. *)
Record UpdateData := mkUpdateData {
  ud_title : option string;
  ud_description : option (option string);
  ud_assigneeId : option (option Id);
  ud_status : option string;
  ud_priority : option string;
  ud_dueDate : option (option Date);
  ud_completedDate : option (option Date);
  ud_estimatedHours : option (option Z);
  ud_actualHours : option (option Z);
  ud_position : option Z;
  ud_isArchived : option bool;
  ud_tags : option (list string)
}.

Definition set_ud_dueDate (d : UpdateData) (x : option (option Date)) : UpdateData :=
  mkUpdateData (ud_title d) (ud_description d) (ud_assigneeId d) (ud_status d)
               (ud_priority d) x (ud_completedDate d) (ud_estimatedHours d)
               (ud_actualHours d) (ud_position d) (ud_isArchived d) (ud_tags d).
Definition set_ud_completedDate (d : UpdateData) (x : option (option Date)) : UpdateData :=
  mkUpdateData (ud_title d) (ud_description d) (ud_assigneeId d) (ud_status d)
               (ud_priority d) (ud_dueDate d) x (ud_estimatedHours d)
               (ud_actualHours d) (ud_position d) (ud_isArchived d) (ud_tags d).
Definition set_ud_tags (d : UpdateData) (x : option (list string)) : UpdateData :=
  mkUpdateData (ud_title d) (ud_description d) (ud_assigneeId d) (ud_status d)
               (ud_priority d) (ud_dueDate d) (ud_completedDate d)
               (ud_estimatedHours d) (ud_actualHours d) (ud_position d)
               (ud_isArchived d) x.

(** The row [tx.task.update({ data })] leaves: every key present in
    [data] overwrites its column. *)
Definition applyUpdate (d : UpdateData) (t : Task) : Task :=
  mkTask (t_id t)
         (orElse (ud_title d) (t_title t))
         (orElse (ud_description d) (t_description t))
         (t_projectId t)
         (t_creatorId t)
         (orElse (ud_assigneeId d) (t_assigneeId t))
         (orElse (ud_status d) (t_status t))
         (orElse (ud_priority d) (t_priority t))
         (orElse (ud_dueDate d) (t_dueDate t))
         (orElse (ud_completedDate d) (t_completedDate t))
         (orElse (ud_estimatedHours d) (t_estimatedHours t))
         (orElse (ud_actualHours d) (t_actualHours t))
         (orElse (ud_position d) (t_position t))
         (orElse (ud_isArchived d) (t_isArchived t))
         (t_createdAt t).

(** [tx.task.update({ where: { id }, data })].  The store also checks
    an [assigneeId] against the user table, [Task.assignee] being a
    relation; like the other table primitives this one leaves the
    reference unchecked. *)
Definition task_update (id : Id) (d : UpdateData) : M Task :=
  old <- gets (task_findUnique id) ;;
  match old with
  | None => throw RecordNotFound
  | Some t =>
      modify (fun s => set_tasks s
        (map (fun x => if (t_id x =? id)%nat then applyUpdate d x else x) (tasks s))) ;;;
      ret (applyUpdate d t)
  end.

(** Modelled from the spec: the schema (prisma/schema.prisma) declares
    the cascade; by the spec a task owns its Comment, TaskWatcher and
    TaskTag rows, which are deleted with it. *)
Definition task_delete (id : Id) : M unit :=
  old <- gets (task_findUnique id) ;;
  match old with
  | None => throw RecordNotFound
  | Some _ =>
      modify (fun s =>
        set_comments
          (set_taskTags
             (set_watchers
                (set_tasks s (filter (fun t => negb (t_id t =? id)%nat) (tasks s)))
                (filter (fun w => negb (w_taskId w =? id)%nat) (watchers s)))
             (filter (fun x => negb (tt_taskId x =? id)%nat) (taskTags s)))
          (filter (fun c => negb (cm_taskId c =? id)%nat) (comments s)))
  end.

Definition taskWatcher_create (userId taskId : Id) : M unit :=
  modify (fun s => set_watchers s (watchers s ++ [mkWatcher userId taskId])).

(** [findFirst({ where: { projectId, status }, orderBy: { position: 'desc' } })] *)
Definition lastTaskOf (projectId : Id) (status : string) (s : Store) : option Task :=
  hd_error
    (orderBy (fun a b => (t_position b <=? t_position a)%Z)
       (filter (fun t => (t_projectId t =? projectId)%nat
                         && (t_status t =? status)%string)
               (tasks s))).

(** [createTask(taskData, projectId, creatorId)]: the two membership
    checks, the position from the last task of the lane, then the
    transaction that inserts the task, its watchers and its tags. *)
Definition createTask (taskData : TaskData) (projectId creatorId : Id) : M Task :=
  isMember <- ProjectService.isProjectMember projectId creatorId ;;
  if negb isMember then throw AccessDenied else
  match assigneeId taskData with
  | Some a =>
      assigneeIsMember <- ProjectService.isProjectMember projectId a ;;
      if negb assigneeIsMember then throw InvalidAssignee else ret tt
  | None => ret tt
  end ;;;
  lastTask <- gets (lastTaskOf projectId (JS.or_else (status taskData) "To Do")) ;;
  let position :=
    match lastTask with
    | Some t => (t_position t + 1)%Z
    | None => 0%Z
    end in
  transaction (
    id <- freshId ;;
    now <- gets clock ;;
    let task :=
      mkTask id (title taskData) (description taskData) projectId creatorId
             (assigneeId taskData)
             (JS.or_else (status taskData) "To Do")
             (JS.or_else (priority taskData) "MEDIUM")
             (dueDate taskData) None (estimatedHours taskData) None
             position false now in
    modify (fun s => set_tasks s (tasks s ++ [task])) ;;;
    taskWatcher_create creatorId id ;;;
    when (match assigneeId taskData with
          | Some a => negb (a =? creatorId)%nat
          | None => false
          end)
      (taskWatcher_create (orElse (assigneeId taskData) creatorId) id) ;;;
    when (match tags taskData with
          | Some (_ :: _) => true
          | _ => false
          end)
      (forEach (orElse (tags taskData) [])
         (fun tagName =>
            found <- gets (fun s =>
              List.find (fun g => (tag_name g =? tagName)%string
                                  && (tag_projectId g =? projectId)%nat)
                        (projectTags s)) ;;
            tag <- match found with
                   | Some g => ret g
                   | None =>
                       tid <- freshId ;;
                       modify (fun s => set_projectTags s
                         (projectTags s ++ [mkTag tid tagName projectId])) ;;;
                       ret (mkTag tid tagName projectId)
                   end ;;
            modify (fun s => set_taskTags s
              (taskTags s ++ [mkTaskTag id (tag_id tag)])))) ;;;
    ret task).

(** The [where] object of [getProjectTasks]; here the search adds an
    [OR] key next to the others. *)
Definition projectTasksWhere (projectId : Id) (filters : Filters) : TaskWhere :=
  let where_ := mkTaskWhere projectId false None None None None in
  let where_ :=
    if JS.truthy (f_status filters)
    then set_tw_status where_ (f_status filters) else where_ in
  let where_ :=
    if isSome (f_assigneeId filters)
    then set_tw_assigneeId where_ (f_assigneeId filters) else where_ in
  let where_ :=
    if JS.truthy (f_priority filters)
    then set_tw_priority where_
           (Some (JS.toUpperCase (orElse (f_priority filters) "")))
    else where_ in
  let where_ :=
    if JS.truthy (f_search filters)
    then set_tw_OR where_
           (Some [TitleContains (orElse (f_search filters) "");
                  TaskDescriptionContains (orElse (f_search filters) "")])
    else where_ in
  where_.

(** [orderBy: [{ position: 'asc' }, { createdAt: 'desc' }]] *)
Definition byPositionThenNewest (a b : Task) : bool :=
  (t_position a <? t_position b)%Z
  || ((t_position a =? t_position b)%Z && (t_createdAt b <=? t_createdAt a)%Z).

(** [getProjectTasks(projectId, userId, filters)]; the rows are
    returned without the relations the query includes. *)
Definition getProjectTasks (provider : Provider) (projectId userId : Id)
                           (filters : Filters) : M (list Task) :=
  isMember <- ProjectService.isProjectMember projectId userId ;;
  if negb isMember then throw AccessDenied else
  let where_ := projectTasksWhere projectId filters in
  query provider (taskWhere_usesMode where_) (fun s =>
    orderBy byPositionThenNewest (filter (task_matches where_) (tasks s))).

(** [getTaskById(id, userId)]: [findUnique] on the id alone, then the
    membership check on the task's project. *)
Definition getTaskById (id userId : Id) : M TaskDetails :=
  task <- gets (task_findUnique id) ;;
  match task with
  | None => throw TaskNotFound
  | Some t =>
      isMember <- ProjectService.isProjectMember (t_projectId t) userId ;;
      if negb isMember then throw AccessDenied else
      gets (fun s =>
        mkTaskDetails t
          (orderBy (fun a b => (cm_createdAt a <=? cm_createdAt b)%Z)
             (filter (fun c => (cm_taskId c =? id)%nat) (comments s)))
          (filter (fun w => (w_taskId w =? id)%nat) (watchers s))
          (filter (fun x => (tt_taskId x =? id)%nat) (taskTags s)))
  end.

(** [userRole === r] *)
Definition roleIs (userRole : option string) (r : string) : bool :=
  match userRole with
  | Some x => (x =? r)%string
  | None => false
  end.

(** [status === 'Done' || status === 'Completed'] *)
Definition isDone (status : option string) : bool :=
  match status with
  | Some st => (st =? "Done")%string || (st =? "Completed")%string
  | None => false
  end.

(** The [completedDate] key of the update: a date, [null], or
    [undefined]. *)
Definition completedDateFor (status : option string) (now : Date)
  : option (option Date) :=
  if isDone status then Some (Some now)
  else if JS.truthy status && negb (isDone status) then Some None
  else None.

(** The [data] object of the update: the keys of [updateData] but
    [tags], then [dueDate] and [completedDate], which replace any key
    of that name spread before them. *)
Definition updateInput (updateData : UpdateData) (now : Date) : UpdateData :=
  let taskData := set_ud_tags updateData None in
  set_ud_completedDate
    (set_ud_dueDate taskData
       (match ud_dueDate taskData with
        | Some (Some d) => Some (Some d)
        | _ => None
        end))
    (completedDateFor (ud_status taskData) now).

(** [updateTask(id, updateData, userId)]. *)
Definition updateTask (id : Id) (updateData : UpdateData) (userId : Id) : M Task :=
  task <- getTaskById id userId ;;
  let task := td_task task in
  userRole <- ProjectService.getUserRole (t_projectId task) userId ;;
  let canEdit :=
    (t_creatorId task =? userId)%nat
    || eqb_opt_id (t_assigneeId task) userId
    || roleIs userRole "OWNER"
    || roleIs userRole "ADMIN" in
  if negb canEdit then throw (InsufficientPermissions "edit this task") else
  transaction (
    now <- gets clock ;;
    updatedTask <- task_update id (updateInput updateData now) ;;
    match ud_assigneeId updateData with
    | Some (Some a) =>
        if negb (eqb_opt_id (t_assigneeId task) a)
        then
          existingWatcher <- gets (taskWatcher_findUnique a id) ;;
          when (negb (isSome existingWatcher)) (taskWatcher_create a id)
        else ret tt
    | _ => ret tt
    end ;;;
    ret updatedTask).

(** [deleteTask(id, userId)]. *)
Definition deleteTask (id userId : Id) : M unit :=
  task <- getTaskById id userId ;;
  let task := td_task task in
  userRole <- ProjectService.getUserRole (t_projectId task) userId ;;
  let canDelete :=
    (t_creatorId task =? userId)%nat
    || roleIs userRole "OWNER"
    || roleIs userRole "ADMIN" in
  if negb canDelete then throw (InsufficientPermissions "delete this task") else
  task_delete id.

(** [addComment(taskId, content, authorId)]. *)
Definition addComment (taskId : Id) (content : string) (authorId : Id) : M Comment :=
  task <- getTaskById taskId authorId ;;
  transaction (
    id <- freshId ;;
    now <- gets clock ;;
    let comment := mkComment id content authorId taskId false now now in
    modify (fun s => set_comments s (comments s ++ [comment])) ;;;
    existingWatcher <- gets (taskWatcher_findUnique authorId taskId) ;;
    when (negb (isSome existingWatcher)) (taskWatcher_create authorId taskId) ;;;
    ret comment).

Definition comment_update (id : Id) (f : Comment -> Comment) : M Comment :=
  old <- gets (comment_findUnique id) ;;
  match old with
  | None => throw RecordNotFound
  | Some c =>
      modify (fun s => set_comments s
        (map (fun x => if (cm_id x =? id)%nat then f x else x) (comments s))) ;;;
      ret (f c)
  end.

Definition comment_delete (id : Id) : M unit :=
  old <- gets (comment_findUnique id) ;;
  match old with
  | None => throw RecordNotFound
  | Some _ =>
      modify (fun s => set_comments s
        (filter (fun c => negb (cm_id c =? id)%nat) (comments s)))
  end.

(** [updateComment(taskId, commentId, content, userId)]; the comment
    is looked up by its id alone. *)
Definition updateComment (taskId commentId : Id) (content : string) (userId : Id)
  : M Comment :=
  getTaskById taskId userId ;;;
  comment <- gets (comment_findUnique commentId) ;;
  match comment with
  | None => throw CommentNotFound
  | Some c =>
      if negb (cm_authorId c =? userId)%nat then throw NotCommentAuthor else
      now <- gets clock ;;
      comment_update commentId
        (fun x => mkComment (cm_id x) content (cm_authorId x) (cm_taskId x)
                            true (cm_createdAt x) now)
  end.

(** [deleteComment(taskId, commentId, userId)]. *)
Definition deleteComment (taskId commentId userId : Id) : M unit :=
  getTaskById taskId userId ;;;
  comment <- gets (comment_findUnique commentId) ;;
  match comment with
  | None => throw CommentNotFound
  | Some c =>
      task <- getTaskById taskId userId ;;
      userRole <- ProjectService.getUserRole (t_projectId (td_task task)) userId ;;
      let canDelete :=
        (cm_authorId c =? userId)%nat
        || roleIs userRole "OWNER"
        || roleIs userRole "ADMIN" in
      if negb canDelete
      then throw (InsufficientPermissions "delete this comment")
      else comment_delete commentId
  end.

End TaskService.

(** ** userService.js: the queries on tasks *)

Module UserService.

(** One row of [prisma.task.groupBy({ by: ['status'], _count })]. *)
Fixpoint bump (status : string) (groups : list (string * nat))
  : list (string * nat) :=
  match groups with
  | [] => [(status, 1)]
  | (k, n) :: r =>
      if (k =? status)%string then (k, S n) :: r else (k, n) :: bump status r
  end.

Definition groupByStatus (l : list Task) : list (string * nat) :=
  fold_left (fun groups t => bump (t_status t) groups) l [].

(** [status: { notIn: ['Done', 'Completed'] }] *)
Definition notDone (t : Task) : bool :=
  negb ((t_status t =? "Done")%string || (t_status t =? "Completed")%string).

(** [dueDate: { lt: now }]; a null date matches no comparison. *)
Definition dueBefore (now : Date) (t : Task) : bool :=
  match t_dueDate t with
  | Some d => (d <? now)%Z
  | None => false
  end.

Definition assignedOpen (userId : Id) (t : Task) : bool :=
  eqb_opt_id (t_assigneeId t) userId && negb (t_isArchived t).

Record TaskStats := mkTaskStats {
  stats : list (string * nat);
  overdue : nat
}.

(** [getUserTaskStats(userId)]. *)
Definition getUserTaskStats (userId : Id) : M TaskStats :=
  stats <- gets (fun s => groupByStatus (filter (assignedOpen userId) (tasks s))) ;;
  now <- gets clock ;;
  overdueTasks <- gets (fun s =>
    List.length
      (filter (fun t => assignedOpen userId t && dueBefore now t && notDone t)
              (tasks s))) ;;
  ret (mkTaskStats stats overdueTasks).

Record Filters := mkFilters {
  f_status : option string;
  f_priority : option string;
  f_project : option Id;
  f_page : option positive;
  f_limit : option positive
}.



Section Ordering.

(** The store's order for
    [orderBy: [{ dueDate: 'asc' }, { priority: 'desc' }, { createdAt: 'desc' }]];
    where null dates go and how priorities compare is the provider's
    business. *)
Variable byDueDate : Task -> Task -> bool.


End Ordering.

(** The [formattedStats] object of the dashboard route
    (GET /api/users/me/dashboard), built from the groups by the same
    loop. *)
Record FormattedStats := mkFormattedStats {
  fs_total : nat;
  fs_todo : nat;
  fs_inProgress : nat;
  fs_review : nat;
  fs_done : nat;
  fs_overdue : nat
}.

Definition addStat (f : FormattedStats) (stat : string * nat) : FormattedStats :=
  let (status, n) := stat in
  let total := fs_total f + n in
  if (status =? "To Do")%string
  then mkFormattedStats total n (fs_inProgress f) (fs_review f) (fs_done f)
                        (fs_overdue f)
  else if (status =? "In Progress")%string
  then mkFormattedStats total (fs_todo f) n (fs_review f) (fs_done f)
                        (fs_overdue f)
  else if (status =? "Review")%string
  then mkFormattedStats total (fs_todo f) (fs_inProgress f) n (fs_done f)
                        (fs_overdue f)
  else if (status =? "Done")%string
  then mkFormattedStats total (fs_todo f) (fs_inProgress f) (fs_review f) n
                        (fs_overdue f)
  else mkFormattedStats total (fs_todo f) (fs_inProgress f) (fs_review f)
                        (fs_done f) (fs_overdue f).

Definition formatStats (s : TaskStats) : FormattedStats :=
  fold_left addStat (stats s) (mkFormattedStats 0 0 0 0 0 (overdue s)).

End UserService.

(** ** HTTP responses and realtime events *)

Inductive Payload :=
| NoData
| ValidationErrors
| OneProject (project : Project)
| ProjectWithRelations (project : ProjectDetails)
| ProjectAfterUpdate (project : ProjectService.UpdatedProject)
| TaskList (tasks : list Task)
| OneTask (task : Task)
| TaskWithRelations (task : TaskDetails)
| OneComment (comment : Comment).

(** [res.status(n).json({ success, message, data })]; [res.json] alone
    answers 200. *)
Record Response := mkResponse {
  rs_status : nat;
  rs_success : bool;
  rs_message : option string;
  rs_data : Payload
}.

Definition failure (status : nat) (message : string) : Response :=
  mkResponse status false (Some message) NoData.

(** The events the routes emit, each with the fields of its payload. *)
Inductive Event :=
| ProjectCreated (project : Project) (userId : Id)
| ProjectUpdated (project : ProjectService.UpdatedProject) (updatedBy : Id)
| ProjectDeleted (projectId deletedBy : Id)
| MemberAdded (project : ProjectDetails) (email : string) (addedBy : Id)
| MemberRemoved (projectId removedUserId removedBy : Id)
| TaskCreated (task : Task) (projectId createdBy : Id)
| TaskUpdated (task : Task) (projectId updatedBy : Id)
| TaskDeleted (taskId projectId deletedBy : Id)
| CommentAdded (taskId projectId : Id) (comment : Comment) (addedBy : Id)
| CommentUpdated (taskId projectId : Id) (comment : Comment) (updatedBy : Id)
| CommentDeleted (taskId projectId commentId deletedBy : Id).

(** [req.io.to(`project-${id}`).emit(...)], or [req.io.emit(...)] to
    every connected client when there is no room. *)
Record Emit := mkEmit {
  em_room : option Id;
  em_event : Event
}.

(** What a route handler does: its response, the store it leaves and
    the events it emits. *)
Record Handled := mkHandled {
  h_response : Response;
  h_store : Store;
  h_emitted : list Emit
}.

Definition answer (r : Response) (s : Store) : Handled := mkHandled r s [].

(** The body of a write request as its handler receives it, once the
    validators in front of the handler have passed it.  The validators
    check some keys and leave others alone; the handler forwards both
    kinds to the service.  [Typed data]: every forwarded key is absent
    or carries a value the service can use, and [data] is what the
    service is given.  [Malformed]: a key that no validator checks
    carries a value on which the write of the service throws: a string
    for [tags] or [columns], on which [tags.map] is not a function; a
    [status] or [position] that is not of its column's type, which the
    client refuses.  The write is inside [$transaction], so a body of
    this kind leaves the store as it was. *)
Inductive Body (A : Type) :=
| Typed (data : A)
| Malformed.
Arguments Typed {A} data.
Arguments Malformed {A}.

(** ** middleware/auth.js *)

Module Middleware.

Inductive Passed (A : Type) :=
| Stop (r : Response)
| Next (a : A).
Arguments Stop {A} r.
Arguments Next {A} a.

(** [checkProjectMembership]: on success it attaches [req.projectId]
    and [req.userRole]. *)
Definition checkProjectMembership (userId : Id) (projectIdParam idParam : option Id)
                                  (s : Store) : Passed (Id * option string) :=
  match (match projectIdParam with
         | Some x => Some x
         | None => idParam
         end) with
  | None => Stop (failure 400 "Project ID is required")
  | Some projectId =>
      match ProjectService.isProjectMember projectId userId s with
      | Err _ => Stop (failure 500 "Server error checking project membership")
      | Ok (isMember, s1) =>
          if negb isMember
          then Stop (failure 403 "Access denied - not a project member")
          else match ProjectService.getUserRole projectId userId s1 with
               | Err _ =>
                   Stop (failure 500 "Server error checking project membership")
               | Ok (userRole, _) => Next (projectId, userRole)
               end
      end
  end.

(** [checkProjectEditPermission], on the [req.userRole] attached
    before. *)
Definition checkProjectEditPermission (userRole : option string) : Passed unit :=
  if negb (TaskService.roleIs userRole "OWNER")
     && negb (TaskService.roleIs userRole "ADMIN")
  then Stop (failure 403 "Insufficient permissions to edit this project")
  else Next tt.

(** [checkTaskPermission]: on success it attaches [req.task] and
    [req.userRole]. *)
Definition checkTaskPermission (userId : Id) (taskIdParam idParam : option Id)
                               (s : Store) : Passed (TaskDetails * option string) :=
  match (match taskIdParam with
         | Some x => Some x
         | None => idParam
         end) with
  | None => Stop (failure 400 "Task ID is required")
  | Some taskId =>
      match TaskService.getTaskById taskId userId s with
      | Err TaskNotFound => Stop (failure 404 "Task not found")
      | Err AccessDenied => Stop (failure 404 "Access denied - not a project member")
      | Err _ => Stop (failure 500 "Server error checking task permissions")
      | Ok (task, s1) =>
          match ProjectService.getUserRole (t_projectId (td_task task)) userId s1 with
          | Err _ => Stop (failure 500 "Server error checking task permissions")
          | Ok (userRole, _) => Next (task, userRole)
          end
      end
  end.

End Middleware.

(** ** routes/projects.js *)

Module ProjectRoutes.

(** [validationFailed] is the verdict of the express-validator chain
    on the request ([!errors.isEmpty()]); the chains themselves belong
    to that library. *)
Definition validationFailure : Response :=
  mkResponse 400 false (Some "Validation failed") ValidationErrors.

(** POST /api/projects.  [validateProject] checks name, description,
    dueDate, priority and color; [tags] is forwarded unchecked. *)
Definition createProject (validationFailed : bool)
                         (body : Body ProjectService.ProjectData) (userId : Id)
                         (s : Store) : Handled :=
  if validationFailed then answer validationFailure s else
  match body with
  | Malformed => answer (failure 500 "Server error creating project") s
  | Typed data =>
      match ProjectService.createProject data userId s with
      | Ok (project, s') =>
          mkHandled (mkResponse 201 true (Some "Project created successfully")
                                (OneProject project))
                    s' [mkEmit None (ProjectCreated project userId)]
      | Err _ => answer (failure 500 "Server error creating project") s
      end
  end.

(** GET /api/projects/:id *)
Definition getProject (id userId : Id) (s : Store) : Handled :=
  match ProjectService.getProjectById id userId s with
  | Ok (project, s') =>
      answer (mkResponse 200 true None (ProjectWithRelations project)) s'
  | Err NotFoundOrDenied =>
      answer (failure 404 "Project not found or access denied") s
  | Err _ => answer (failure 500 "Server error getting project") s
  end.

(** PUT /api/projects/:id, behind [checkProjectMembership] and
    [checkProjectEditPermission].  [validateProject] leaves [status],
    [tags] and [columns] unchecked; every error of the service, thrown
    before its write or by it, gets the same answer. *)
Definition updateProject (validationFailed : bool) (id : Id)
                         (body : Body ProjectService.UpdateData) (userId : Id)
                         (s : Store) : Handled :=
  match Middleware.checkProjectMembership userId None (Some id) s with
  | Middleware.Stop r => answer r s
  | Middleware.Next (_, userRole) =>
      match Middleware.checkProjectEditPermission userRole with
      | Middleware.Stop r => answer r s
      | Middleware.Next _ =>
          if validationFailed then answer validationFailure s else
          match body with
          | Malformed => answer (failure 500 "Server error updating project") s
          | Typed data =>
              match ProjectService.updateProject id data userId s with
              | Ok (project, s') =>
                  mkHandled (mkResponse 200 true
                                        (Some "Project updated successfully")
                                        (ProjectAfterUpdate project))
                            s'
                            [mkEmit (Some (p_id (ProjectService.upd_project project)))
                                    (ProjectUpdated project userId)]
              | Err _ => answer (failure 500 "Server error updating project") s
              end
          end
      end
  end.

(** DELETE /api/projects/:id *)
Definition deleteProject (id userId : Id) (s : Store) : Handled :=
  match ProjectService.deleteProject id userId s with
  | ProjectService.Deleted s' =>
      mkHandled (mkResponse 200 true (Some "Project deleted successfully") NoData)
                s' [mkEmit None (ProjectDeleted id userId)]
  | ProjectService.Refused ProjectService.OnlyOwnerCanDelete =>
      answer (failure 403 "Only project owner can delete the project") s
  | ProjectService.Refused (ProjectService.Thrown NotFoundOrDenied) =>
      answer (failure 403 "Project not found or access denied") s
  | ProjectService.Refused _ =>
      answer (failure 500 "Server error deleting project") s
  end.

(** [body('role').optional().isIn(['ADMIN', 'MEMBER'])] *)
Definition roleAccepted (role : option string) : bool :=
  match role with
  | None => true
  | Some r => (r =? "ADMIN")%string || (r =? "MEMBER")%string
  end.

Section Members.

(** [body('email').isEmail().normalizeEmail()]: the test and the
    sanitizer of the validator library. *)
Variable isEmail : string -> bool.
Variable normalizeEmail : string -> string.

(** POST /api/projects/:id/members, behind the two checks. *)
Definition addMember (id : Id) (email : string) (role : option string)
                     (userId : Id) (s : Store) : Handled :=
  match Middleware.checkProjectMembership userId None (Some id) s with
  | Middleware.Stop r => answer r s
  | Middleware.Next (_, userRole) =>
      match Middleware.checkProjectEditPermission userRole with
      | Middleware.Stop r => answer r s
      | Middleware.Next _ =>
          if negb (isEmail email && roleAccepted role)
          then answer validationFailure s else
          let email := normalizeEmail email in
          let role := orElse role "MEMBER" in
          match ProjectService.addMember id email (Some role) userId s with
          | Ok (project, s') =>
              mkHandled (mkResponse 200 true (Some "Member added successfully")
                                    (ProjectWithRelations project))
                        s'
                        [mkEmit (Some (p_id (pd_project project)))
                                (MemberAdded project email userId)]
          | Err UserNotFound => answer (failure 400 "User not found") s
          | Err AlreadyMember =>
              answer (failure 400 "User is already a member of this project") s
          | Err (InsufficientPermissions "add members") =>
              answer (failure 400 "Insufficient permissions to add members") s
          | Err _ => answer (failure 500 "Server error adding member") s
          end
      end
  end.

End Members.

(** DELETE /api/projects/:id/members/:userId, behind the two checks. *)
Definition removeMember (id memberUserId userId : Id) (s : Store) : Handled :=
  match Middleware.checkProjectMembership userId None (Some id) s with
  | Middleware.Stop r => answer r s
  | Middleware.Next (_, userRole) =>
      match Middleware.checkProjectEditPermission userRole with
      | Middleware.Stop r => answer r s
      | Middleware.Next _ =>
          match ProjectService.removeMember id memberUserId userId s with
          | Ok (_, s') =>
              mkHandled (mkResponse 200 true (Some "Member removed successfully")
                                    NoData)
                        s' [mkEmit (Some id) (MemberRemoved id memberUserId userId)]
          | Err CannotRemoveOwner =>
              answer (failure 400 "Cannot remove project owner") s
          | Err (InsufficientPermissions "remove members") =>
              answer (failure 400 "Insufficient permissions to remove members") s
          | Err _ => answer (failure 500 "Server error removing member") s
          end
      end
  end.

End ProjectRoutes.

(** ** routes/tasks.js *)

Module TaskRoutes.

(** GET /api/tasks/project/:projectId *)
Definition getProjectTasks (provider : Provider) (projectId userId : Id)
                           (filters : TaskService.Filters) (s : Store) : Handled :=
  match TaskService.getProjectTasks provider projectId userId filters s with
  | Ok (found, s') => answer (mkResponse 200 true None (TaskList found)) s'
  | Err AccessDenied =>
      answer (failure 403 "Access denied - not a project member") s
  | Err _ => answer (failure 500 "Server error getting tasks") s
  end.

(** POST /api/tasks/project/:projectId *)
Definition createTask (validationFailed : bool) (projectId : Id)
                      (body : TaskService.TaskData) (userId : Id)
                      (s : Store) : Handled :=
  if validationFailed then answer ProjectRoutes.validationFailure s else
  match TaskService.createTask body projectId userId s with
  | Ok (task, s') =>
      mkHandled (mkResponse 201 true (Some "Task created successfully")
                            (OneTask task))
                s' [mkEmit (Some projectId) (TaskCreated task projectId userId)]
  | Err AccessDenied =>
      answer (failure 400 "Access denied - not a project member") s
  | Err InvalidAssignee =>
      answer (failure 400 "Assignee must be a project member") s
  | Err _ => answer (failure 500 "Server error creating task") s
  end.

(** GET /api/tasks/:id *)
Definition getTask (id userId : Id) (s : Store) : Handled :=
  match TaskService.getTaskById id userId s with
  | Ok (task, s') => answer (mkResponse 200 true None (TaskWithRelations task)) s'
  | Err TaskNotFound => answer (failure 404 "Task not found") s
  | Err AccessDenied =>
      answer (failure 404 "Access denied - not a project member") s
  | Err _ => answer (failure 500 "Server error getting task") s
  end.

(** The object the update route passes to [updateTask]: the ten keys
    it reads from the body, and no other. *)
Definition forwarded (body : TaskService.UpdateData) : TaskService.UpdateData :=
  TaskService.mkUpdateData
    (TaskService.ud_title body) (TaskService.ud_description body)
    (TaskService.ud_assigneeId body) (TaskService.ud_status body)
    (TaskService.ud_priority body) (TaskService.ud_dueDate body)
    None
    (TaskService.ud_estimatedHours body) (TaskService.ud_actualHours body)
    (TaskService.ud_position body)
    None
    (TaskService.ud_tags body).

(** An update that sets no key. *)
Definition noChange : TaskService.UpdateData :=
  TaskService.mkUpdateData None None None None None None None None None None
                           None None.

(** What the service is given; its checks (the task, the membership,
    the permission) do not look at it. *)
Definition received (body : Body TaskService.UpdateData) : TaskService.UpdateData :=
  match body with
  | Typed data => forwarded data
  | Malformed => noChange
  end.

(** Whether [tx.task.update] takes the data.  It throws on a
    malformed body, and on an [assigneeId] that names no user:
    [Task.assignee] is a relation.  The table primitives leave
    references unchecked, so the reference is checked here, where the
    answer depends on it. *)
Definition writable (body : Body TaskService.UpdateData) (s : Store) : bool :=
  match body with
  | Typed data =>
      match TaskService.ud_assigneeId data with
      | Some (Some a) => existsb (fun u => (u_id u =? a)%nat) (users s)
      | _ => true
      end
  | Malformed => false
  end.

(** PUT /api/tasks/:id.  [validateTask] checks title, description,
    dueDate, priority and estimatedHours; [status], [assigneeId],
    [actualHours], [position] and [tags] are forwarded unchecked.  When
    the checks of the service have passed and its write throws, the
    transaction leaves the store as it was and the error is none of
    those the handler reports by name. *)
Definition updateTask (validationFailed : bool) (id : Id)
                      (body : Body TaskService.UpdateData) (userId : Id)
                      (s : Store) : Handled :=
  if validationFailed then answer ProjectRoutes.validationFailure s else
  match TaskService.updateTask id (received body) userId s with
  | Ok (task, s') =>
      if writable body s
      then mkHandled (mkResponse 200 true (Some "Task updated successfully")
                                 (OneTask task))
                     s'
                     [mkEmit (Some (t_projectId task))
                             (TaskUpdated task (t_projectId task) userId)]
      else answer (failure 500 "Server error updating task") s
  | Err (InsufficientPermissions "edit this task") =>
      answer (failure 403 "Insufficient permissions to edit this task") s
  | Err InvalidAssignee =>
      answer (failure 403 "Assignee must be a project member") s
  | Err TaskNotFound => answer (failure 403 "Task not found") s
  | Err _ => answer (failure 500 "Server error updating task") s
  end.

(** DELETE /api/tasks/:id: the task is read first, for the event. *)
Definition deleteTask (id userId : Id) (s : Store) : Handled :=
  let refuse (e : Error) :=
    match e with
    | InsufficientPermissions "delete this task" =>
        answer (failure 403 "Insufficient permissions to delete this task") s
    | TaskNotFound => answer (failure 403 "Task not found") s
    | _ => answer (failure 500 "Server error deleting task") s
    end in
  match TaskService.getTaskById id userId s with
  | Err e => refuse e
  | Ok (task, s1) =>
      match TaskService.deleteTask id userId s1 with
      | Err e => refuse e
      | Ok (_, s') =>
          mkHandled (mkResponse 200 true (Some "Task deleted successfully") NoData)
                    s'
                    [mkEmit (Some (t_projectId (td_task task)))
                            (TaskDeleted id (t_projectId (td_task task)) userId)]
      end
  end.

(** POST /api/tasks/:id/comments: every error answers 500. *)
Definition addComment (validationFailed : bool) (id : Id) (content : string)
                      (userId : Id) (s : Store) : Handled :=
  if validationFailed then answer ProjectRoutes.validationFailure s else
  match TaskService.addComment id content userId s with
  | Err _ => answer (failure 500 "Server error adding comment") s
  | Ok (comment, s1) =>
      match TaskService.getTaskById id userId s1 with
      | Err _ => answer (failure 500 "Server error adding comment") s1
      | Ok (task, s') =>
          mkHandled (mkResponse 201 true (Some "Comment added successfully")
                                (OneComment comment))
                    s'
                    [mkEmit (Some (t_projectId (td_task task)))
                            (CommentAdded id (t_projectId (td_task task))
                                          comment userId)]
      end
  end.

(** PUT /api/tasks/:id/comments/:commentId *)
Definition updateComment (validationFailed : bool) (id commentId : Id)
                         (content : string) (userId : Id) (s : Store) : Handled :=
  let refuse (e : Error) (now : Store) :=
    match e with
    | CommentNotFound => answer (failure 403 "Comment not found") now
    | NotCommentAuthor =>
        answer (failure 403 "You can only edit your own comments") now
    | _ => answer (failure 500 "Server error updating comment") now
    end in
  if validationFailed then answer ProjectRoutes.validationFailure s else
  match TaskService.updateComment id commentId content userId s with
  | Err e => refuse e s
  | Ok (comment, s1) =>
      match TaskService.getTaskById id userId s1 with
      | Err e => refuse e s1
      | Ok (task, s') =>
          mkHandled (mkResponse 200 true (Some "Comment updated successfully")
                                (OneComment comment))
                    s'
                    [mkEmit (Some (t_projectId (td_task task)))
                            (CommentUpdated id (t_projectId (td_task task))
                                            comment userId)]
      end
  end.

(** DELETE /api/tasks/:id/comments/:commentId: the task is read first,
    for the event. *)
Definition deleteComment (id commentId userId : Id) (s : Store) : Handled :=
  let refuse (e : Error) :=
    match e with
    | CommentNotFound => answer (failure 403 "Comment not found") s
    | InsufficientPermissions "delete this comment" =>
        answer (failure 403 "Insufficient permissions to delete this comment") s
    | _ => answer (failure 500 "Server error deleting comment") s
    end in
  match TaskService.getTaskById id userId s with
  | Err e => refuse e
  | Ok (task, s1) =>
      match TaskService.deleteComment id commentId userId s1 with
      | Err e => refuse e
      | Ok (_, s') =>
          mkHandled (mkResponse 200 true (Some "Comment deleted successfully")
                                NoData)
                    s'
                    [mkEmit (Some (t_projectId (td_task task)))
                            (CommentDeleted id (t_projectId (td_task task))
                                            commentId userId)]
      end
  end.

End TaskRoutes.

(** ** Specification vocabulary *)

(** [userId] is the owner of [p] or has a ProjectMember row for it. *)
Definition canAccess (s : Store) (userId : Id) (p : Project) : bool :=
  (p_ownerId p =? userId)%nat
  || isSome (projectMember_findUnique userId (p_id p) s).

(** [Project.id] is the primary key of its table. *)
Definition uniqueProjectIds (s : Store) : Prop :=
  NoDup (map p_id (projects s)).

(** What [getProjectById] returns for a row it has found. *)
Definition detailsOf (s : Store) (p : Project) : ProjectDetails :=
  mkProjectDetails p (members_of (p_id p) s)
    (orderBy (fun a b => (c_order a <=? c_order b)%Z) (columns_of (p_id p) s))
    (tags_of (p_id p) s)
    (List.length (tasks_of (p_id p) s)).

(** The role a user holds on a project, as [getUserRole] reads it. *)
Definition roleOf (s : Store) (projectId userId : Id) : option string :=
  JS.or_null (option_map m_role (projectMember_findUnique userId projectId s)).

Definition holdsRole (s : Store) (projectId userId : Id) (r : string) : Prop :=
  roleOf s projectId userId = Some r.

Definition isMemberOf (s : Store) (projectId userId : Id) : Prop :=
  exists m, projectMember_findUnique userId projectId s = Some m.

(** The listing the specification describes for [listForUser]:
    projects the user owns or is a member of, narrowed by the status
    filter and by the search term when they are given. *)
Definition statusFilter (status : option string) (p : Project) : bool :=
  if JS.truthy status
  then (p_status p =? JS.toUpperCase (orElse status ""))%string
  else true.

Definition searchFilter (search : option string) (p : Project) : bool :=
  if JS.truthy search
  then containsInsensitive (orElse search "") (Some (p_name p))
       || containsInsensitive (orElse search "") (p_description p)
  else true.

Definition listedFor (s : Store) (userId : Id) (filters : ProjectService.Filters)
                     (p : Project) : bool :=
  canAccess s userId p
  && statusFilter (ProjectService.f_status filters) p
  && searchFilter (ProjectService.f_search filters) p.

(** What [getTaskById] returns for a row it has found. *)
Definition taskDetailsOf (s : Store) (t : Task) : TaskDetails :=
  mkTaskDetails t
    (orderBy (fun a b => (cm_createdAt a <=? cm_createdAt b)%Z)
       (filter (fun c => (cm_taskId c =? t_id t)%nat) (comments s)))
    (filter (fun w => (w_taskId w =? t_id t)%nat) (watchers s))
    (filter (fun x => (tt_taskId x =? t_id t)%nat) (taskTags s)).

(** Who may edit and who may delete a task, in the specification's
    words. *)
Definition mayEdit (s : Store) (t : Task) (userId : Id) : Prop :=
  t_creatorId t = userId
  \/ t_assigneeId t = Some userId
  \/ holdsRole s (t_projectId t) userId "OWNER"
  \/ holdsRole s (t_projectId t) userId "ADMIN".

Definition mayDelete (s : Store) (t : Task) (userId : Id) : Prop :=
  t_creatorId t = userId
  \/ holdsRole s (t_projectId t) userId "OWNER"
  \/ holdsRole s (t_projectId t) userId "ADMIN".

(** The lane of a status: the tasks of a project that carry it. *)
Definition laneOf (s : Store) (projectId : Id) (status : string) : list Task :=
  filter (fun t => (t_projectId t =? projectId)%nat
                   && (t_status t =? status)%string) (tasks s).

(** A step that succeeds on every store and leaves the task table as
    it is. *)
Definition keepsTasks (m : M unit) : Prop :=
  forall s, exists s', m s = Ok (tt, s') /\ tasks s' = tasks s.

(** The row [createTask] inserts. *)
Definition newTask (s : Store) (taskData : TaskService.TaskData)
                   (projectId creatorId : Id) : Task :=
  let status := JS.or_else (TaskService.status taskData) "To Do" in
  mkTask (nextId s) (TaskService.title taskData)
         (TaskService.description taskData) projectId creatorId
         (TaskService.assigneeId taskData) status
         (JS.or_else (TaskService.priority taskData) "MEDIUM")
         (TaskService.dueDate taskData) None
         (TaskService.estimatedHours taskData) None
         match TaskService.lastTaskOf projectId status s with
         | Some t => (t_position t + 1)%Z
         | None => 0%Z
         end
         false (clock s).

(** Every project id in use was issued by the id generator: the ids
    of the project rows and the project ids that member and column rows
    refer to lie below [nextId], and project ids are unique. *)
Definition wellFormed (s : Store) : Prop :=
  uniqueProjectIds s
  /\ (forall p, In p (projects s) -> p_id p < nextId s)
  /\ (forall m, In m (members s) -> m_projectId m < nextId s)
  /\ (forall c, In c (columns s) -> c_projectId c < nextId s).

(** The row [createProject] inserts. *)
Definition newProject (s : Store) (projectData : ProjectService.ProjectData)
                      (ownerId : Id) : Project :=
  mkProject (nextId s) (ProjectService.data_name projectData)
            (ProjectService.data_description projectData)
            ProjectService.defaultProjectStatus
            (JS.or_else (ProjectService.data_priority projectData) "MEDIUM")
            (JS.or_else (ProjectService.data_color projectData) "#3B82F6")
            (ProjectService.data_dueDate projectData) ownerId (clock s).

(** The four default columns of project [projectId]. *)
Definition seededColumns (projectId : Id) : list ProjectColumn :=
  [ mkColumn "To Do" 0%Z "#EF4444" projectId;
    mkColumn "In Progress" 1%Z "#F59E0B" projectId;
    mkColumn "Review" 2%Z "#8B5CF6" projectId;
    mkColumn "Done" 3%Z "#10B981" projectId ].

(** A step that succeeds on every store, leaves the project, member,
    column and task tables as they are and only moves the id generator
    forward. *)
Definition keepsProjects (m : M unit) : Prop :=
  forall s, exists s',
    m s = Ok (tt, s')
    /\ projects s' = projects s /\ members s' = members s
    /\ columns s' = columns s /\ tasks s' = tasks s
    /\ nextId s <= nextId s'.

(** The OWNER rows of a project, and the invariant: there is one, and
    it is the row of the project's owner. *)
Definition ownerRows (s : Store) (projectId : Id) : list ProjectMember :=
  filter (fun m => (m_projectId m =? projectId)%nat
                   && (m_role m =? "OWNER")%string) (members s).

Definition oneOwner (s : Store) (p : Project) : Prop :=
  ownerRows s (p_id p) = [mkMember (p_ownerId p) (p_id p) "OWNER"].

Definition ownerInvariant (s : Store) : Prop :=
  forall p, In p (projects s) -> oneOwner s p.

(** A write that leaves the project, member and column tables alone and
    does not move the id generator back; every method of the task
    service is one. *)
Definition elsewhere (s s' : Store) : Prop :=
  projects s' = projects s /\ members s' = members s
  /\ columns s' = columns s /\ nextId s <= nextId s'.

Definition writesElsewhere {A} (m : M A) : Prop :=
  forall s a s', m s = Ok (a, s') -> elsewhere s s'.

(** One write to the store: a call of [createProject], a successful
    [addMember] whose role, in upper case, is not OWNER (the route
    admits ADMIN and MEMBER only), a successful [removeMember], or a
    write elsewhere. *)
Inductive memberStep (s s' : Store) : Prop :=
| step_createProject (projectData : ProjectService.ProjectData)
                     (ownerId : Id) (p : Project) :
    ProjectService.createProject projectData ownerId s = Ok (p, s') ->
    memberStep s s'
| step_addMember (projectId : Id) (email : string) (role : option string)
                 (userId : Id) (d : ProjectDetails) :
    JS.toUpperCase (orElse role "MEMBER") <> "OWNER" ->
    ProjectService.addMember projectId email role userId s = Ok (d, s') ->
    memberStep s s'
| step_removeMember (projectId memberUserId userId : Id) :
    ProjectService.removeMember projectId memberUserId userId s = Ok (tt, s') ->
    memberStep s s'
| step_elsewhere :
    elsewhere s s' ->
    memberStep s s'.

(** The stores that such writes build from a store without projects. *)
Inductive reachable : Store -> Prop :=
| reach_start (s : Store) :
    projects s = [] -> members s = [] -> columns s = [] -> reachable s
| reach_step (s s' : Store) :
    reachable s -> memberStep s s' -> reachable s'.

(** The column rows [updateProject] inserts for the columns it is
    given. *)
Definition columnRows (projectId : Id) (given : list (string * Z * string))
  : list ProjectColumn :=
  map (fun col => match col with
                  | (n, o, c) => mkColumn n o c projectId
                  end) given.

(** The project table after [tx.project.update] on [projectId]. *)
Definition projectsAfterUpdate (s : Store) (projectId : Id)
                               (d : ProjectService.UpdateData) : list Project :=
  map (fun x => if (p_id x =? projectId)%nat
                then ProjectService.applyProjectUpdate d (clock s) x else x)
      (projects s).

(** The columns of a project once [updateProject] is through. *)
Definition columnsAfterUpdate (s : Store) (projectId : Id)
                              (d : ProjectService.UpdateData)
  : list ProjectColumn :=
  match ProjectService.up_columns d with
  | Some given =>
      (filter (fun c => negb (c_projectId c =? projectId)%nat) (columns s)
       ++ columnRows projectId given)%list
  | None => columns s
  end.

(** A step that succeeds on every store and writes to the tag tables
    only, moving the id generator forward. *)
Definition onlyTagTables (m : M unit) : Prop :=
  forall s, exists s',
    m s = Ok (tt, s')
    /\ users s' = users s /\ projects s' = projects s
    /\ members s' = members s /\ columns s' = columns s
    /\ tasks s' = tasks s /\ watchers s' = watchers s
    /\ comments s' = comments s /\ clock s' = clock s
    /\ nextId s <= nextId s'.

(** The watcher rows [createTask] inserts for a new task. *)
Definition newWatchers (taskId creatorId : Id) (assigneeId : option Id)
  : list TaskWatcher :=
  mkWatcher creatorId taskId
  :: match assigneeId with
     | Some a => if (a =? creatorId)%nat then [] else [mkWatcher a taskId]
     | None => []
     end.

(** Task and watcher rows carry issued ids, and no user watches a task
    twice. *)
Definition watchersWellFormed (s : Store) : Prop :=
  NoDup (map (fun w => (w_userId w, w_taskId w)) (watchers s))
  /\ (forall t, In t (tasks s) -> t_id t < nextId s)
  /\ (forall w, In w (watchers s) -> w_taskId w < nextId s).

(** One successful write of the task service. *)
Inductive taskStep (s s' : Store) : Prop :=
| step_createTask (taskData : TaskService.TaskData) (projectId creatorId : Id)
                  (t : Task) :
    TaskService.createTask taskData projectId creatorId s = Ok (t, s') ->
    taskStep s s'
| step_updateTask (id : Id) (updateData : TaskService.UpdateData) (userId : Id)
                  (t : Task) :
    TaskService.updateTask id updateData userId s = Ok (t, s') ->
    taskStep s s'
| step_deleteTask (id userId : Id) :
    TaskService.deleteTask id userId s = Ok (tt, s') ->
    taskStep s s'
| step_addComment (taskId : Id) (content : string) (authorId : Id) (c : Comment) :
    TaskService.addComment taskId content authorId s = Ok (c, s') ->
    taskStep s s'.

(** Who may delete a comment on a task, as [deleteComment] decides it;
    [updateComment] admits the author alone. *)
Definition mayDeleteComment (s : Store) (t : Task) (c : Comment) (userId : Id)
  : Prop :=
  cm_authorId c = userId
  \/ holdsRole s (t_projectId t) userId "OWNER"
  \/ holdsRole s (t_projectId t) userId "ADMIN".

(** The row [updateComment] writes over a comment. *)
Definition editedComment (content : string) (now : Z) (c : Comment) : Comment :=
  mkComment (cm_id c) content (cm_authorId c) (cm_taskId c) true
            (cm_createdAt c) now.


(** How a write request ends.  Refused: a response without success,
    the store as it was, no event.  Served: a response with success and
    one event, sent to the room of a project the user is a member of. *)
Definition refusedQuietly (s : Store) (h : Handled) : Prop :=
  rs_success (h_response h) = false /\ h_store h = s /\ h_emitted h = [].

Definition servedInOwnProject (s : Store) (userId : Id) (h : Handled) : Prop :=
  rs_success (h_response h) = true
  /\ exists projectId event,
       h_emitted h = [mkEmit (Some projectId) event]
       /\ isMemberOf s projectId userId.


(** A user of the system: the id of a row of the user table. *)
Definition isUser (s : Store) (userId : Id) : Prop :=
  exists u, In u (users s) /\ u_id u = userId.

(** An editor of a project: a user whose member row on it carries the
    role OWNER or ADMIN. *)
Definition isEditor (s : Store) (projectId userId : Id) : Prop :=
  holdsRole s projectId userId "OWNER" \/ holdsRole s projectId userId "ADMIN".




(** Counting the tasks of a list by status, and the count a [groupBy]
    result holds for a status. *)
Definition countStatus (status : string) (l : list Task) : nat :=
  List.length (filter (fun t => (t_status t =? status)%string) l).

Definition groupCount (status : string) (groups : list (string * nat)) : nat :=
  match List.find (fun g => (fst g =? status)%string) groups with
  | Some g => snd g
  | None => 0
  end.

Definition groupTotal (groups : list (string * nat)) : nat :=
  fold_right (fun g n => snd g + n) 0 groups.

(** A status for which the dashboard has no counter. *)
Definition uncounted (t : Task) : bool :=
  negb ((t_status t =? "To Do")%string || (t_status t =? "In Progress")%string
        || (t_status t =? "Review")%string || (t_status t =? "Done")%string).


(** ** A sample store

    Four users; Alice creates the project "Sprint 1", invites Bob as
    MEMBER and Carol as ADMIN; Dave stays outside.  Bob creates a task
    assigned to Alice and comments on it. *)

Module Sample.

Definition alice : Id := 1.
Definition bob : Id := 2.
Definition carol : Id := 3.
Definition dave : Id := 4.

Definition people : list User :=
  [ mkUser alice "Alice" "alice@x.com" None;
    mkUser bob "Bob" "bob@x.com" None;
    mkUser carol "Carol" "carol@x.com" None;
    mkUser dave "Dave" "dave@x.com" None ].

Definition empty : Store :=
  mkStore people [] [] [] [] [] [] [] [] 10 1000%Z.

(** The store a call leaves: the new one, or the old one when the call
    throws. *)
Definition after {A} (m : M A) (s : Store) : Store :=
  match m s with
  | Ok (_, s') => s'
  | Err _ => s
  end.

Definition sprintData : ProjectService.ProjectData :=
  ProjectService.mkProjectData "Sprint 1" (Some "First sprint") None None None None.

Definition sprintId : Id := 10.

Definition created : Store :=
  after (ProjectService.createProject sprintData alice) empty.

Definition withBob : Store :=
  after (ProjectService.addMember sprintId "bob@x.com" None alice) created.

Definition team : Store :=
  after (ProjectService.addMember sprintId "Carol@x.com" (Some "admin") alice) withBob.

Definition fixBug : TaskService.TaskData :=
  TaskService.mkTaskData "Fix bug" None (Some alice) None None None None None.

Definition taskId : Id := 11.

Definition withTask : Store :=
  after (TaskService.createTask fixBug sprintId bob) team.

Definition commentId : Id := 12.

Definition withComment : Store :=
  after (TaskService.addComment taskId "On it" bob) withTask.

(** Carol files a task in the Review lane and assigns it to Bob. *)
Definition reviewData : TaskService.TaskData :=
  TaskService.mkTaskData "Review layout" None (Some bob) (Some "Review")
                         None None None (Some ["Frontend"]).

Definition withReview : Store :=
  after (TaskService.createTask reviewData sprintId carol) withComment.

Definition review : Task :=
  mkTask 13 "Review layout" None sprintId carol (Some bob) "Review" "MEDIUM"
         None None None None 0%Z false 1000%Z.

(** Bob files a task straight into the Done lane. *)
Definition shipData : TaskService.TaskData :=
  TaskService.mkTaskData "Ship it" None None (Some "Done") None None None None.

(** Alice removes Bob from the project; his comment stays. *)
Definition withoutBob : Store :=
  after (ProjectService.removeMember sprintId bob alice) withReview.

(** Bob then opens a project of his own, with one task. *)
Definition sideData : ProjectService.ProjectData :=
  ProjectService.mkProjectData "Side" None None None None None.

Definition sideId : Id := 15.

Definition sideTaskData : TaskService.TaskData :=
  TaskService.mkTaskData "Notes" None None None None None None None.

Definition sideTaskId : Id := 16.

Definition withSide : Store :=
  after (TaskService.createTask sideTaskData sideId bob)
        (after (ProjectService.createProject sideData bob) withoutBob).

(** The rows of Bob's task in "Sprint 1", of the comment he left on
    it, and of the task in his own project. *)
Definition bugTask : Task :=
  mkTask taskId "Fix bug" None sprintId bob (Some alice) "To Do" "MEDIUM"
         None None None None 0%Z false 1000%Z.

Definition onIt : Comment :=
  mkComment commentId "On it" bob taskId false 1000%Z 1000%Z.

Definition notes : Task :=
  mkTask sideTaskId "Notes" None sideId bob None "To Do" "MEDIUM"
         None None None None 0%Z false 1000%Z.


Definition moveTo (status : string) : TaskService.UpdateData :=
  TaskService.mkUpdateData None None None (Some status) None None None None
                           None None None None.

(** Bob completes the review task. *)
Definition withCompleted : Store :=
  after (TaskService.updateTask 13 (moveTo "Completed") bob) withReview.




(** Alice renames the project and replaces its columns. *)
Definition twoColumns : ProjectService.UpdateData :=
  ProjectService.mkUpdateData (Some "Sprint 2") None None None None None
    (Some ["Urgent"]) (Some [("Later", 1%Z, "#111111"); ("Now", 0%Z, "#222222")]).

Definition sprint : Project :=
  mkProject 10 "Sprint 1" (Some "First sprint") "ACTIVE" "MEDIUM" "#3B82F6"
            None alice 1000%Z.

(** Carol hands the review task over to Dave, who is not a member. *)
Definition assignTo (userId : Id) : TaskService.UpdateData :=
  TaskService.mkUpdateData None None (Some (Some userId)) None None None None
                           None None None None None.

End Sample.

(** * Properties *)

(** ** Tables and monad *)

Lemma find_isSome_existsb {A} (f : A -> bool) (l : list A) :
  isSome (List.find f l) = existsb f l.
Proof.
  induction l as [|x l IH]; cbn; [reflexivity|].
  destruct (f x); cbn; auto.
Qed.

Lemma find_pointwise {A} (f g : A -> bool) (l : list A) :
  (forall x, f x = g x) -> List.find f l = List.find g l.
Proof.
  intro H. induction l as [|x l IH]; cbn; [reflexivity|].
  rewrite H, IH. reflexivity.
Qed.

Lemma membersSome_findUnique (s : Store) (userId : Id) (p : Project) :
  holds_cond s p (MembersSome userId)
  = isSome (projectMember_findUnique userId (p_id p) s).
Proof.
  unfold projectMember_findUnique. rewrite find_isSome_existsb. cbn.
  induction (members s) as [|m l IH]; cbn; [reflexivity|].
  rewrite IH. f_equal. apply andb_comm.
Qed.

Lemma access_where_canAccess (s : Store) (id userId : Id) (p : Project) :
  project_matches s
    (mkProjectWhere (Some id) [OwnerIdIs userId; MembersSome userId] None) p
  = (p_id p =? id)%nat && canAccess s userId p.
Proof.
  unfold project_matches, canAccess.
  cbn [pw_id pw_OR pw_status existsb].
  rewrite membersSome_findUnique. cbn [holds_cond].
  rewrite orb_false_r, andb_true_r. reflexivity.
Qed.

Lemma getProjectById_unfold (id userId : Id) (s : Store) :
  ProjectService.getProjectById id userId s
  = match List.find (fun p => (p_id p =? id)%nat && canAccess s userId p)
                    (projects s) with
    | Some p => Ok (detailsOf s p, s)
    | None => Err NotFoundOrDenied
    end.
Proof.
  unfold ProjectService.getProjectById, bind, gets, project_findFirst.
  rewrite (find_pointwise _ (fun p => (p_id p =? id)%nat && canAccess s userId p)).
  - destruct (List.find _ (projects s)); reflexivity.
  - intro p. apply access_where_canAccess.
Qed.

Lemma find_filter {A} (f g : A -> bool) (l : list A) :
  List.find f (filter g l) = List.find (fun x => g x && f x) l.
Proof.
  induction l as [|x l IH]; cbn; [reflexivity|].
  destruct (g x); cbn; [destruct (f x); auto | auto].
Qed.

Lemma find_none_iff {A} (f : A -> bool) (l : list A) :
  List.find f l = None <-> (forall x, In x l -> f x = false).
Proof.
  split.
  - intros H x Hx. exact (find_none f l H x Hx).
  - intro H. induction l as [|x l IH]; cbn; [reflexivity|].
    rewrite (H x (or_introl eq_refl)). apply IH.
    intros y Hy. apply H. now right.
Qed.

Lemma key_injective {A} (key : A -> nat) (l : list A) (a b : A) :
  NoDup (map key l) -> In a l -> In b l -> key a = key b -> a = b.
Proof.
  induction l as [|x l IH]; cbn; [tauto|].
  intros Hnd Ha Hb Hk. inversion Hnd as [|? ? Hnotin Hnd']; subst.
  destruct Ha as [->|Ha], Hb as [->|Hb]; auto.
  - exfalso. apply Hnotin. rewrite Hk. now apply in_map.
  - exfalso. apply Hnotin. rewrite <- Hk. now apply in_map.
Qed.

(** Under the primary key, looking a project up by id and access
    condition finds it exactly when the caller may access it. *)
Lemma find_project_by_key (s : Store) (userId : Id) (p : Project) :
  uniqueProjectIds s -> In p (projects s) ->
  List.find (fun q => (p_id q =? p_id p)%nat && canAccess s userId q) (projects s)
  = if canAccess s userId p then Some p else None.
Proof.
  intros Hnd Hin.
  destruct (canAccess s userId p) eqn:Hacc.
  - destruct (List.find _ (projects s)) as [q|] eqn:Hf.
    + apply find_some in Hf. destruct Hf as [Hq Hm].
      apply andb_prop in Hm. destruct Hm as [Hid _].
      apply Nat.eqb_eq in Hid.
      f_equal. exact (key_injective p_id _ q p Hnd Hq Hin Hid).
    + exfalso. pose proof (find_none _ _ Hf p Hin) as Hp. cbn in Hp.
      rewrite Nat.eqb_refl, Hacc in Hp. discriminate.
  - apply find_none_iff. intros q Hq.
    destruct (p_id q =? p_id p)%nat eqn:Hid; [|reflexivity].
    apply Nat.eqb_eq in Hid.
    rewrite (key_injective p_id _ q p Hnd Hq Hin Hid), Hacc. reflexivity.
Qed.

Lemma userMember_findUnique (s : Store) (projectId userId : Id) :
  JS.find (fun m => (m_userId m =? userId)%nat) (members_of projectId s)
  = projectMember_findUnique userId projectId s.
Proof.
  unfold JS.find, members_of, projectMember_findUnique.
  rewrite find_filter. apply find_pointwise. intro m. apply andb_comm.
Qed.

(** ** Project access *)

(** C3. [getProjectById] fails with the same error, "Project not found
    or access denied", for an id that names no project and for a
    project of which the caller is neither owner nor member. *)
Theorem getProjectById_absent_and_denied_alike :
  forall (s1 s2 : Store) (absentId userId : Id) (p : Project),
    (forall q, In q (projects s1) -> p_id q <> absentId) ->
    uniqueProjectIds s2 ->
    In p (projects s2) ->
    p_ownerId p <> userId ->
    projectMember_findUnique userId (p_id p) s2 = None ->
    ProjectService.getProjectById absentId userId s1 = Err NotFoundOrDenied
    /\ ProjectService.getProjectById (p_id p) userId s2 = Err NotFoundOrDenied
    /\ ProjectService.getProjectById absentId userId s1
       = ProjectService.getProjectById (p_id p) userId s2.
Proof.
  intros s1 s2 absentId userId p Habsent Hnd Hin Hown Hmem.
  assert (H1 : ProjectService.getProjectById absentId userId s1
               = Err NotFoundOrDenied).
  { rewrite getProjectById_unfold.
    replace (List.find _ (projects s1)) with (@None Project); [reflexivity|].
    symmetry. apply find_none_iff. intros q Hq.
    apply Habsent in Hq. apply Nat.eqb_neq in Hq. now rewrite Hq. }
  assert (H2 : ProjectService.getProjectById (p_id p) userId s2
               = Err NotFoundOrDenied).
  { rewrite getProjectById_unfold, find_project_by_key by assumption.
    unfold canAccess. rewrite Hmem. apply Nat.eqb_neq in Hown.
    now rewrite Hown. }
  rewrite H1, H2. auto.
Qed.

Lemma getProjectById_absent_and_denied_alike_witness :
  ProjectService.getProjectById 99 Sample.dave Sample.team = Err NotFoundOrDenied
  /\ ProjectService.getProjectById Sample.sprintId Sample.dave Sample.team
     = Err NotFoundOrDenied
  /\ ProjectService.getProjectById 99 Sample.dave Sample.team
     = ProjectService.getProjectById Sample.sprintId Sample.dave Sample.team.
Proof.
  apply (getProjectById_absent_and_denied_alike Sample.team Sample.team 99
           Sample.dave
           (mkProject 10 "Sprint 1" (Some "First sprint") "ACTIVE" "MEDIUM"
                      "#3B82F6" None 1 1000%Z)).
  - intros q [<-|[]]. cbn. lia.
  - unfold uniqueProjectIds. cbn. constructor; [intros []|constructor].
  - cbn. left. reflexivity.
  - cbn. unfold Sample.dave. lia.
  - reflexivity.
Defined.

Lemma notEditor_false_iff (s : Store) (projectId userId : Id) :
  ProjectService.notEditor (projectMember_findUnique userId projectId s) = false
  <-> holdsRole s projectId userId "OWNER" \/ holdsRole s projectId userId "ADMIN".
Proof.
  unfold holdsRole, roleOf, ProjectService.notEditor.
  destruct (projectMember_findUnique userId projectId s) as [m|]; cbn.
  - destruct (String.eqb_spec (m_role m) "OWNER") as [E|N1].
    { rewrite E. cbn. intuition. }
    destruct (String.eqb_spec (m_role m) "ADMIN") as [E|N2].
    { rewrite E. cbn. intuition. }
    cbn. split; [discriminate|].
    intros [H|H]; destruct (m_role m); cbn in H; congruence.
  - split; [discriminate|]. intros [H|H]; discriminate.
Qed.

Lemma removeMember_unfold (s : Store) (p : Project) (memberUserId userId : Id) :
  uniqueProjectIds s -> In p (projects s) ->
  ProjectService.removeMember (p_id p) memberUserId userId s
  = if negb (canAccess s userId p) then Err NotFoundOrDenied
    else if ProjectService.notEditor (projectMember_findUnique userId (p_id p) s)
    then Err (InsufficientPermissions "remove members")
    else if (p_ownerId p =? memberUserId)%nat then Err CannotRemoveOwner
    else ProjectService.projectMember_delete memberUserId (p_id p) s.
Proof.
  intros Hnd Hin. unfold ProjectService.removeMember, bind at 1.
  rewrite getProjectById_unfold, find_project_by_key by assumption.
  destruct (canAccess s userId p); cbn [negb]; [|reflexivity].
  cbn [detailsOf pd_members pd_project]. rewrite userMember_findUnique.
  destruct (ProjectService.notEditor _); [reflexivity|].
  destruct (p_ownerId p =? memberUserId)%nat; reflexivity.
Qed.

(** C6, as the code has it.  Removing the owner of a project always
    fails and writes nothing.  The error is "Cannot remove project
    owner" when the caller holds OWNER or ADMIN; a caller who can
    access the project without one of these roles gets "Insufficient
    permissions to remove members", and a caller who is neither owner
    nor member gets "Project not found or access denied". *)
Theorem removeMember_owner_always_fails :
  forall (s : Store) (p : Project) (caller : Id),
    uniqueProjectIds s ->
    In p (projects s) ->
    let outcome :=
      ProjectService.removeMember (p_id p) (p_ownerId p) caller s in
    (exists e, outcome = Err e)
    /\ (holdsRole s (p_id p) caller "OWNER" \/ holdsRole s (p_id p) caller "ADMIN"
        -> outcome = Err CannotRemoveOwner)
    /\ (canAccess s caller p = true
        -> ~ holdsRole s (p_id p) caller "OWNER"
        -> ~ holdsRole s (p_id p) caller "ADMIN"
        -> outcome = Err (InsufficientPermissions "remove members"))
    /\ (canAccess s caller p = false -> outcome = Err NotFoundOrDenied).
Proof.
  intros s p caller Hnd Hin outcome. subst outcome.
  rewrite removeMember_unfold by assumption.
  rewrite Nat.eqb_refl.
  pose proof (notEditor_false_iff s (p_id p) caller) as Hed.
  destruct (canAccess s caller p) eqn:Hacc; cbn [negb].
  - destruct (ProjectService.notEditor _) eqn:Hne.
    + repeat split; eauto; try discriminate.
      intro H. apply Hed in H. discriminate.
    + repeat split; eauto; try discriminate.
      intros _ H1 H2. destruct Hed as [Hed _].
      destruct (Hed eq_refl); contradiction.
  - repeat split; eauto; try discriminate.
    intros H. exfalso.
    assert (Hm : isSome (projectMember_findUnique caller (p_id p) s) = true).
    { unfold holdsRole, roleOf in H.
      destruct (projectMember_findUnique caller (p_id p) s); [reflexivity|].
      destruct H; discriminate. }
    unfold canAccess in Hacc. rewrite Hm, orb_true_r in Hacc. discriminate.
Qed.

Lemma removeMember_owner_always_fails_witness :
  (exists e, ProjectService.removeMember Sample.sprintId Sample.alice Sample.carol
               Sample.team = Err e)
  /\ ProjectService.removeMember Sample.sprintId Sample.alice Sample.carol
       Sample.team = Err CannotRemoveOwner.
Proof.
  pose proof (removeMember_owner_always_fails Sample.team
                (mkProject 10 "Sprint 1" (Some "First sprint") "ACTIVE" "MEDIUM"
                           "#3B82F6" None 1 1000%Z) Sample.carol) as H.
  cbv zeta in H.
  destruct H as (Hfail & Hrole & _).
  - unfold uniqueProjectIds. cbn. constructor; [intros []|constructor].
  - cbn. left. reflexivity.
  - split; [exact Hfail|]. apply Hrole. right. reflexivity.
Defined.

(** C6, as the claim has it, fails: Bob, a plain MEMBER of the sample
    project, asks to remove its owner Alice and is refused for lack of
    permissions, not with "Cannot remove project owner". *)
Lemma removeMember_owner_by_plain_member :
  In (mkProject 10 "Sprint 1" (Some "First sprint") "ACTIVE" "MEDIUM"
                "#3B82F6" None Sample.alice 1000%Z) (projects Sample.team)
  /\ ProjectService.removeMember Sample.sprintId Sample.alice Sample.bob Sample.team
     = Err (InsufficientPermissions "remove members")
  /\ ProjectService.removeMember Sample.sprintId Sample.alice Sample.bob Sample.team
     <> Err CannotRemoveOwner.
Proof.
  split; [cbn; left; reflexivity|].
  split; [reflexivity|discriminate].
Qed.

(** ** Listing a user's projects *)

Lemma insert_by_In {A} (le : A -> A -> bool) (x y : A) (l : list A) :
  In y (insert_by le x l) <-> y = x \/ In y l.
Proof.
  induction l as [|z l IH]; cbn.
  - intuition.
  - destruct (le x z); cbn; [intuition|]. rewrite IH. intuition.
Qed.

Lemma orderBy_In {A} (le : A -> A -> bool) (x : A) (l : list A) :
  In x (orderBy le l) <-> In x l.
Proof.
  induction l as [|z l IH]; cbn; [tauto|].
  rewrite insert_by_In, IH. intuition.
Qed.

Lemma In_firstn {A} (n : nat) (x : A) (l : list A) :
  In x (firstn n l) -> In x l.
Proof.
  revert l. induction n as [|n IH]; intros [|y l]; cbn; try tauto.
  intros [H|H]; [now left | right; now apply IH].
Qed.

Lemma In_skipn {A} (n : nat) (x : A) (l : list A) :
  In x (skipn n l) -> In x l.
Proof.
  revert l. induction n as [|n IH]; intros [|y l]; cbn; try tauto.
  intro H. right. now apply IH.
Qed.

(** The [where] object the method builds: the search term replaces the
    [OR] that held the access condition. *)
Lemma userProjectsWhere_matches (s : Store) (userId : Id)
      (filters : ProjectService.Filters) (p : Project) :
  project_matches s (ProjectService.userProjectsWhere userId filters) p
  = (if JS.truthy (ProjectService.f_search filters)
     then searchFilter (ProjectService.f_search filters) p
     else canAccess s userId p)
    && statusFilter (ProjectService.f_status filters) p.
Proof.
  unfold ProjectService.userProjectsWhere, project_matches, statusFilter,
    searchFilter, canAccess.
  destruct (JS.truthy (ProjectService.f_status filters));
    destruct (JS.truthy (ProjectService.f_search filters));
    cbn [set_pw_OR set_pw_status pw_id pw_OR pw_status existsb andb];
    rewrite ?membersSome_findUnique; cbn [holds_cond];
    rewrite ?orb_false_r, ?andb_true_r; reflexivity.
Qed.

Lemma query_accepted {A} (provider : Provider) (usesMode : bool)
      (read : Store -> A) :
  knowsMode provider = true \/ usesMode = false ->
  query provider usesMode read = gets read.
Proof.
  unfold query. intros [-> | ->]; [now rewrite andb_false_r | reflexivity].
Qed.

Lemma query_rejected {A} (provider : Provider) (read : Store -> A) (s : Store) :
  knowsMode provider = false ->
  query provider true read s = Err QueryRejected.
Proof. unfold query. now intros ->. Qed.

Lemma userProjectsWhere_usesMode (userId : Id) (filters : ProjectService.Filters) :
  projectWhere_usesMode (ProjectService.userProjectsWhere userId filters)
  = JS.truthy (ProjectService.f_search filters).
Proof.
  unfold ProjectService.userProjectsWhere, projectWhere_usesMode.
  destruct (JS.truthy (ProjectService.f_status filters));
    destruct (JS.truthy (ProjectService.f_search filters)); reflexivity.
Qed.

(** Without a search term the method lists what the specification
    describes, on either provider: every project it counts or returns
    is one the user owns or is a member of, and passes the status
    filter. *)
Lemma getUserProjects_without_search (provider : Provider) (s : Store)
      (userId : Id) (filters : ProjectService.Filters) :
  JS.truthy (ProjectService.f_search filters) = false ->
  exists page,
    ProjectService.getUserProjects provider userId filters s = Ok (page, s)
    /\ pg_total (pp_pagination page)
       = List.length (filter (listedFor s userId filters) (projects s))
    /\ forall d, In d (pp_projects page) ->
         In (pd_project d) (projects s)
         /\ listedFor s userId filters (pd_project d) = true.
Proof.
  intro Hsearch.
  assert (Hw : forall p,
    project_matches s (ProjectService.userProjectsWhere userId filters) p
    = listedFor s userId filters p).
  { intro p. rewrite userProjectsWhere_matches, Hsearch.
    unfold listedFor, searchFilter. rewrite Hsearch.
    now rewrite andb_true_r. }
  unfold ProjectService.getUserProjects.
  rewrite userProjectsWhere_usesMode, Hsearch.
  rewrite !query_accepted by (right; reflexivity).
  eexists. split; [reflexivity|]. cbn [pp_pagination pg_total pp_projects].
  unfold project_findMany. split.
  - now rewrite (filter_ext _ _ Hw).
  - intros d Hd. apply in_map_iff in Hd. destruct Hd as (p & <- & Hp).
    apply In_firstn, In_skipn in Hp. apply orderBy_In in Hp.
    apply filter_In in Hp. destruct Hp as [Hin Hm]. cbn.
    rewrite Hw in Hm. auto.
Qed.

(** With a search term, on a provider that takes the filter, the
    listing no longer depends on the caller: every user is shown, and
    counted, the same projects. *)
Lemma getUserProjects_with_search (provider : Provider) (s : Store)
      (userId otherId : Id) (filters : ProjectService.Filters) :
  knowsMode provider = true ->
  JS.truthy (ProjectService.f_search filters) = true ->
  ProjectService.getUserProjects provider userId filters s
  = ProjectService.getUserProjects provider otherId filters s
  /\ exists page,
       ProjectService.getUserProjects provider userId filters s = Ok (page, s)
       /\ pg_total (pp_pagination page)
          = List.length
              (filter (fun p =>
                         searchFilter (ProjectService.f_search filters) p
                         && statusFilter (ProjectService.f_status filters) p)
                      (projects s)).
Proof.
  intros Hmode Hsearch.
  assert (Hw : forall u p,
    project_matches s (ProjectService.userProjectsWhere u filters) p
    = searchFilter (ProjectService.f_search filters) p
      && statusFilter (ProjectService.f_status filters) p).
  { intros u p. now rewrite userProjectsWhere_matches, Hsearch. }
  assert (Hmany : forall u,
    project_findMany (ProjectService.userProjectsWhere u filters) s
    = filter (fun p => searchFilter (ProjectService.f_search filters) p
                       && statusFilter (ProjectService.f_status filters) p)
             (projects s)).
  { intro u. unfold project_findMany. apply filter_ext. apply Hw. }
  unfold ProjectService.getUserProjects.
  rewrite !query_accepted by (left; exact Hmode).
  unfold bind, gets, ret.
  rewrite (Hmany userId), (Hmany otherId).
  split; [reflexivity|].
  eexists. split; reflexivity.
Qed.

(** With a search term, on a provider that does not know [mode], the
    client refuses the query: the call throws for every user and on
    every store. *)
Lemma getUserProjects_search_rejected (provider : Provider) (s : Store)
      (userId : Id) (filters : ProjectService.Filters) :
  knowsMode provider = false ->
  JS.truthy (ProjectService.f_search filters) = true ->
  ProjectService.getUserProjects provider userId filters s = Err QueryRejected.
Proof.
  intros Hmode Hsearch. unfold ProjectService.getUserProjects.
  rewrite userProjectsWhere_usesMode, Hsearch. unfold bind at 1.
  now rewrite (query_rejected provider _ s Hmode).
Qed.

(** C1, where it fails.  With a search term the listing is not the one
    the claim describes, on either provider.  On SQLite, the datasource
    the repository's notes name, the [where] object carries
    [mode: 'insensitive'], which the client refuses: the call throws
    for every user and every store, so that Alice, who owns "Sprint 1",
    is not returned her project for the term "sprint".  On PostgreSQL
    the filter is taken, and the search has replaced the [OR] that held
    the access condition: all users get the same listing, and Dave,
    neither owner nor member of "Sprint 1", whose plain listing is
    empty, is returned the project, and it is counted. *)
Theorem getUserProjects_search_fails_or_lists_foreign_project :
  (forall s userId filters,
      JS.truthy (ProjectService.f_search filters) = true ->
      ProjectService.getUserProjects Sqlite userId filters s = Err QueryRejected)
  /\ (canAccess Sample.team Sample.alice Sample.sprint = true
      /\ containsInsensitive "sprint" (Some (p_name Sample.sprint)) = true
      /\ ProjectService.getUserProjects Sqlite Sample.alice
           (ProjectService.mkFilters None (Some "sprint") None None) Sample.team
         = Err QueryRejected)
  /\ (forall s userId otherId filters,
        JS.truthy (ProjectService.f_search filters) = true ->
        ProjectService.getUserProjects Postgresql userId filters s
        = ProjectService.getUserProjects Postgresql otherId filters s)
  /\ (forall provider, exists page,
        ProjectService.getUserProjects provider Sample.dave
          (ProjectService.mkFilters None None None None) Sample.team
        = Ok (page, Sample.team)
        /\ pp_projects page = [])
  /\ exists page,
    ProjectService.getUserProjects Postgresql Sample.dave
      (ProjectService.mkFilters None (Some "sprint") None None) Sample.team
    = Ok (page, Sample.team)
    /\ map (fun d => p_name (pd_project d)) (pp_projects page) = ["Sprint 1"]
    /\ pg_total (pp_pagination page) = 1
    /\ (forall d, In d (pp_projects page) ->
          canAccess Sample.team Sample.dave (pd_project d) = false)
    /\ (forall d, In d (pp_projects page) ->
          listedFor Sample.team Sample.dave
            (ProjectService.mkFilters None (Some "sprint") None None)
            (pd_project d) = false).
Proof.
  split; [|split; [|split; [|split]]].
  - intros s userId filters Hsearch.
    now apply getUserProjects_search_rejected.
  - repeat split; reflexivity.
  - intros s userId otherId filters Hsearch.
    now apply getUserProjects_with_search.
  - intros [|]; eexists; split; reflexivity.
  - eexists. split; [reflexivity|].
    split; [reflexivity|]. split; [reflexivity|].
    split; intros d Hd; vm_compute in Hd; destruct Hd as [<-|[]]; reflexivity.
Qed.

(** ** Task permissions *)

Lemma isProjectMember_run (projectId userId : Id) (s : Store) :
  ProjectService.isProjectMember projectId userId s
  = Ok (isSome (projectMember_findUnique userId projectId s), s).
Proof. reflexivity. Qed.

Lemma getUserRole_run (projectId userId : Id) (s : Store) :
  ProjectService.getUserRole projectId userId s
  = Ok (roleOf s projectId userId, s).
Proof. reflexivity. Qed.

Lemma getTaskById_unfold (id userId : Id) (s : Store) :
  TaskService.getTaskById id userId s
  = match task_findUnique id s with
    | None => Err TaskNotFound
    | Some t =>
        if isSome (projectMember_findUnique userId (t_projectId t) s)
        then Ok (mkTaskDetails t (td_comments (taskDetailsOf s t))
                   (filter (fun w => (w_taskId w =? id)%nat) (watchers s))
                   (filter (fun x => (tt_taskId x =? id)%nat) (taskTags s)), s)
        else Err AccessDenied
    end.
Proof.
  unfold TaskService.getTaskById, bind, gets.
  destruct (task_findUnique id s) as [t|] eqn:Hf; [|reflexivity].
  rewrite isProjectMember_run.
  destruct (isSome _); cbn [negb]; [|reflexivity].
  unfold taskDetailsOf. cbn [td_comments].
  apply find_some in Hf. destruct Hf as [_ Hid]. apply Nat.eqb_eq in Hid.
  now rewrite Hid.
Qed.

Lemma getTaskById_member (s : Store) (t : Task) (userId : Id) :
  task_findUnique (t_id t) s = Some t ->
  isMemberOf s (t_projectId t) userId ->
  TaskService.getTaskById (t_id t) userId s = Ok (taskDetailsOf s t, s).
Proof.
  intros Hf [m Hm]. rewrite getTaskById_unfold, Hf, Hm. reflexivity.
Qed.

Lemma roleIs_holdsRole (s : Store) (projectId userId : Id) (r : string) :
  TaskService.roleIs (roleOf s projectId userId) r = true
  <-> holdsRole s projectId userId r.
Proof.
  unfold holdsRole, TaskService.roleIs.
  destruct (roleOf s projectId userId) as [x|].
  - rewrite String.eqb_eq. split; congruence.
  - split; discriminate.
Qed.

Lemma eqb_opt_id_true (a : option Id) (b : Id) :
  eqb_opt_id a b = true <-> a = Some b.
Proof.
  destruct a as [x|]; cbn.
  - rewrite Nat.eqb_eq. split; congruence.
  - split; discriminate.
Qed.

Lemma canEdit_mayEdit (s : Store) (t : Task) (userId : Id) :
  (t_creatorId t =? userId)%nat
  || eqb_opt_id (t_assigneeId t) userId
  || TaskService.roleIs (roleOf s (t_projectId t) userId) "OWNER"
  || TaskService.roleIs (roleOf s (t_projectId t) userId) "ADMIN" = true
  <-> mayEdit s t userId.
Proof.
  unfold mayEdit.
  rewrite !orb_true_iff, Nat.eqb_eq, eqb_opt_id_true, !roleIs_holdsRole.
  tauto.
Qed.

Lemma canDelete_mayDelete (s : Store) (t : Task) (userId : Id) :
  (t_creatorId t =? userId)%nat
  || TaskService.roleIs (roleOf s (t_projectId t) userId) "OWNER"
  || TaskService.roleIs (roleOf s (t_projectId t) userId) "ADMIN" = true
  <-> mayDelete s t userId.
Proof.
  unfold mayDelete.
  rewrite !orb_true_iff, Nat.eqb_eq, !roleIs_holdsRole.
  tauto.
Qed.

Lemma task_update_found (s : Store) (t : Task) (d : TaskService.UpdateData) :
  task_findUnique (t_id t) s = Some t ->
  TaskService.task_update (t_id t) d s
  = Ok (TaskService.applyUpdate d t,
        set_tasks s
          (map (fun x => if (t_id x =? t_id t)%nat
                         then TaskService.applyUpdate d x else x) (tasks s))).
Proof.
  intro Hf. unfold TaskService.task_update, bind, gets. rewrite Hf. reflexivity.
Qed.

Ltac enter_task_method Hf Hm :=
  unfold bind at 1;
  rewrite (getTaskById_member _ _ _ Hf Hm);
  cbn [taskDetailsOf td_task]; unfold bind at 1; rewrite getUserRole_run.

Lemma updateTask_allowed (s : Store) (t : Task) (d : TaskService.UpdateData)
      (userId : Id) :
  task_findUnique (t_id t) s = Some t ->
  isMemberOf s (t_projectId t) userId ->
  mayEdit s t userId ->
  exists s',
    TaskService.updateTask (t_id t) d userId s
    = Ok (TaskService.applyUpdate (TaskService.updateInput d (clock s)) t, s')
    /\ tasks s'
       = map (fun x => if (t_id x =? t_id t)%nat
                       then TaskService.applyUpdate
                              (TaskService.updateInput d (clock s)) x
                       else x) (tasks s).
Proof.
  intros Hf Hm He. apply canEdit_mayEdit in He.
  unfold TaskService.updateTask. enter_task_method Hf Hm.
  rewrite He. cbn [negb].
  unfold transaction, bind at 1. unfold gets at 1.
  unfold bind at 1. rewrite (task_update_found s t _ Hf).
  unfold bind at 1.
  destruct (TaskService.ud_assigneeId d) as [[a|]|];
    try (eexists; split; reflexivity).
  destruct (negb (eqb_opt_id (t_assigneeId t) a));
    [|eexists; split; reflexivity].
  unfold bind at 1, gets at 1.
  destruct (isSome (taskWatcher_findUnique a (t_id t) _));
    eexists; split; reflexivity.
Qed.

Lemma updateTask_refused (s : Store) (t : Task) (d : TaskService.UpdateData)
      (userId : Id) :
  task_findUnique (t_id t) s = Some t ->
  isMemberOf s (t_projectId t) userId ->
  ~ mayEdit s t userId ->
  TaskService.updateTask (t_id t) d userId s
  = Err (InsufficientPermissions "edit this task").
Proof.
  intros Hf Hm He.
  unfold TaskService.updateTask. enter_task_method Hf Hm.
  destruct ((t_creatorId t =? userId)%nat || _ || _ || _) eqn:Hb;
    [|reflexivity].
  exfalso. apply He, canEdit_mayEdit, Hb.
Qed.

Lemma deleteTask_allowed (s : Store) (t : Task) (userId : Id) :
  task_findUnique (t_id t) s = Some t ->
  isMemberOf s (t_projectId t) userId ->
  mayDelete s t userId ->
  exists s',
    TaskService.deleteTask (t_id t) userId s = Ok (tt, s')
    /\ task_findUnique (t_id t) s' = None.
Proof.
  intros Hf Hm He. apply canDelete_mayDelete in He.
  unfold TaskService.deleteTask. enter_task_method Hf Hm.
  rewrite He. cbn [negb].
  unfold TaskService.task_delete, bind, gets. rewrite Hf.
  eexists. split; [reflexivity|].
  unfold task_findUnique.
  cbn [tasks set_comments set_taskTags set_watchers set_tasks].
  apply find_none_iff. intros x Hx. apply filter_In in Hx.
  destruct Hx as [_ Hx]. now apply negb_true_iff in Hx.
Qed.

Lemma deleteTask_refused (s : Store) (t : Task) (userId : Id) :
  task_findUnique (t_id t) s = Some t ->
  isMemberOf s (t_projectId t) userId ->
  ~ mayDelete s t userId ->
  TaskService.deleteTask (t_id t) userId s
  = Err (InsufficientPermissions "delete this task").
Proof.
  intros Hf Hm He.
  unfold TaskService.deleteTask. enter_task_method Hf Hm.
  destruct ((t_creatorId t =? userId)%nat || _ || _) eqn:Hb; [|reflexivity].
  exfalso. apply He, canDelete_mayDelete, Hb.
Qed.



(** ** Creating tasks *)

Lemma keepsTasks_ret : keepsTasks (ret tt).
Proof. intro s. exists s. split; reflexivity. Qed.

Lemma keepsTasks_seq (m k : M unit) :
  keepsTasks m -> keepsTasks k -> keepsTasks (m ;;; k).
Proof.
  intros Hm Hk s. destruct (Hm s) as (s1 & E1 & T1).
  destruct (Hk s1) as (s2 & E2 & T2).
  exists s2. unfold bind. rewrite E1, E2. split; congruence.
Qed.

Lemma keepsTasks_when (b : bool) (m : M unit) :
  keepsTasks m -> keepsTasks (when b m).
Proof. destruct b; cbn; auto using keepsTasks_ret. Qed.

Lemma keepsTasks_forEach {A} (l : list A) (body : A -> M unit) :
  (forall x, keepsTasks (body x)) -> keepsTasks (forEach l body).
Proof.
  intro H. induction l as [|x l IH]; cbn.
  - apply keepsTasks_ret.
  - apply keepsTasks_seq; auto.
Qed.

Lemma keepsTasks_watcher (userId taskId : Id) :
  keepsTasks (TaskService.taskWatcher_create userId taskId).
Proof. intro s. eexists. split; reflexivity. Qed.

Lemma keepsTasks_then {A} (m : M unit) (k : M A) (s : Store) :
  keepsTasks m ->
  exists s1, (m ;;; k) s = k s1 /\ tasks s1 = tasks s.
Proof.
  intro Hm. destruct (Hm s) as (s1 & E1 & T1).
  exists s1. unfold bind. rewrite E1. auto.
Qed.

Lemma keepsTasks_tagging (taskId projectId : Id) (tagName : string) :
  keepsTasks
    (found <- gets (fun s =>
       List.find (fun g => (tag_name g =? tagName)%string
                           && (tag_projectId g =? projectId)%nat)
                 (projectTags s)) ;;
     tag <- match found with
            | Some g => ret g
            | None =>
                tid <- freshId ;;
                modify (fun s => set_projectTags s
                  (projectTags s ++ [mkTag tid tagName projectId])) ;;;
                ret (mkTag tid tagName projectId)
            end ;;
     modify (fun s => set_taskTags s
       (taskTags s ++ [mkTaskTag taskId (tag_id tag)]))).
Proof.
  intro s. unfold bind, gets.
  destruct (List.find _ (projectTags s)); eexists; split; reflexivity.
Qed.

Lemma createTask_run (s : Store) (taskData : TaskService.TaskData)
      (projectId creatorId : Id) :
  isMemberOf s projectId creatorId ->
  (forall a, TaskService.assigneeId taskData = Some a ->
             isMemberOf s projectId a) ->
  exists s',
    TaskService.createTask taskData projectId creatorId s
    = Ok (newTask s taskData projectId creatorId, s')
    /\ tasks s' = (tasks s ++ [newTask s taskData projectId creatorId])%list.
Proof.
  intros [m Hm] Ha.
  unfold TaskService.createTask. unfold bind at 1.
  rewrite isProjectMember_run, Hm. cbn [isSome negb].
  unfold bind at 1.
  assert (Hcheck :
    match TaskService.assigneeId taskData with
    | Some a =>
        assigneeIsMember <- ProjectService.isProjectMember projectId a ;;
        (if negb assigneeIsMember then throw InvalidAssignee else ret tt)
    | None => ret tt
    end s = Ok (tt, s)).
  { destruct (TaskService.assigneeId taskData) as [a|] eqn:Ea; [|reflexivity].
    destruct (Ha a eq_refl) as [ma Hma].
    unfold bind. rewrite isProjectMember_run, Hma. reflexivity. }
  rewrite Hcheck. unfold bind at 1, gets at 1.
  unfold transaction. unfold bind at 1, freshId at 1.
  unfold bind at 1, gets at 1. unfold bind at 1, modify at 1.
  match goal with
  | |- exists s', (?w ;;; ?k) ?s0 = _ /\ _ =>
      destruct (keepsTasks_then w k s0 (keepsTasks_watcher _ _))
        as (s1 & E1 & T1); rewrite E1; clear E1
  end.
  match goal with
  | |- exists s', (?w ;;; ?k) ?s0 = _ /\ _ =>
      destruct (keepsTasks_then w k s0
                  (keepsTasks_when _ _ (keepsTasks_watcher _ _)))
        as (s2 & E2 & T2); rewrite E2; clear E2
  end.
  match goal with
  | |- exists s', (?w ;;; ?k) ?s0 = _ /\ _ =>
      destruct (keepsTasks_then w k s0
                  (keepsTasks_when _ _
                     (keepsTasks_forEach _ _
                        (keepsTasks_tagging _ projectId))))
        as (s3 & E3 & T3); rewrite E3; clear E3
  end.
  exists s3. split; [reflexivity|].
  rewrite T3, T2, T1. reflexivity.
Qed.

Lemma orderBy_nil_iff {A} (le : A -> A -> bool) (l : list A) :
  orderBy le l = [] <-> l = [].
Proof.
  destruct l as [|x r]; cbn; [tauto|].
  split; [|discriminate].
  destruct (orderBy le r) as [|y q]; cbn; [discriminate|].
  destruct (le x y); discriminate.
Qed.

(** The head of a list ordered by descending position carries a
    greatest position. *)
Lemma hd_orderBy_position_desc (l : list Task) :
  match hd_error (orderBy (fun a b => (t_position b <=? t_position a)%Z) l) with
  | None => l = []
  | Some m => In m l /\ forall x, In x l -> (t_position x <= t_position m)%Z
  end.
Proof.
  induction l as [|x r IH]; cbn [orderBy]; [reflexivity|].
  destruct (orderBy _ r) as [|y q] eqn:Hs; cbn [insert_by hd_error] in *.
  - apply orderBy_nil_iff in Hs. subst r. split; [now left|].
    intros z [<-|[]]. lia.
  - destruct IH as [Hy Hmax].
    destruct (Z.leb_spec (t_position y) (t_position x)); cbn [hd_error].
    + split; [now left|]. intros z [<-|Hz]; [lia|].
      specialize (Hmax z Hz). lia.
    + split; [now right|]. intros z [<-|Hz]; [lia|]. auto.
Qed.

Lemma lastTaskOf_greatest (s : Store) (projectId : Id) (status : string) :
  match TaskService.lastTaskOf projectId status s with
  | None => laneOf s projectId status = []
  | Some m =>
      In m (laneOf s projectId status)
      /\ forall x, In x (laneOf s projectId status) ->
                   (t_position x <= t_position m)%Z
  end.
Proof. apply hd_orderBy_position_desc. Qed.

(** C7. A task created by a member (with no assignee, or one who is a
    member) goes to the end of its lane: its position is 0 when the
    lane of its status ("To Do" when none is given) is empty, and
    otherwise one more than the greatest position in that lane.  The
    rows that were in the task table stay as they were; the new row is
    appended. *)
Theorem createTask_appends_to_lane :
  forall (s : Store) (taskData : TaskService.TaskData) (projectId creatorId : Id),
    isMemberOf s projectId creatorId ->
    (forall a, TaskService.assigneeId taskData = Some a ->
               isMemberOf s projectId a) ->
    let lane :=
      laneOf s projectId (JS.or_else (TaskService.status taskData) "To Do") in
    exists t s',
      TaskService.createTask taskData projectId creatorId s = Ok (t, s')
      /\ t_projectId t = projectId
      /\ t_status t = JS.or_else (TaskService.status taskData) "To Do"
      /\ (lane = [] -> t_position t = 0%Z)
      /\ (lane <> [] ->
          exists x, In x lane /\ t_position t = (t_position x + 1)%Z)
      /\ (forall x, In x lane -> (t_position x < t_position t)%Z)
      /\ tasks s' = (tasks s ++ [t])%list.
Proof.
  intros s taskData projectId creatorId Hm Ha lane.
  destruct (createTask_run s taskData projectId creatorId Hm Ha)
    as (s' & Hrun & Htasks).
  exists (newTask s taskData projectId creatorId), s'.
  split; [exact Hrun|]. split; [reflexivity|]. split; [reflexivity|].
  pose proof (lastTaskOf_greatest s projectId
                (JS.or_else (TaskService.status taskData) "To Do")) as Hlast.
  fold lane in Hlast. cbn [newTask t_position].
  destruct (TaskService.lastTaskOf projectId _ s) as [m|].
  - destruct Hlast as [Hin Hmax]. repeat split.
    + intro E. rewrite E in Hin. destruct Hin.
    + intros _. exists m. auto.
    + intros x Hx. specialize (Hmax x Hx). lia.
    + exact Htasks.
  - repeat split.
    + intro H. contradiction.
    + intros x Hx. rewrite Hlast in Hx. destruct Hx.
    + exact Htasks.
Qed.

Lemma createTask_appends_to_lane_witness :
  exists t s',
    TaskService.createTask Sample.reviewData Sample.sprintId Sample.carol
      Sample.withReview = Ok (t, s')
    /\ t_position t = 1%Z
    /\ tasks s' = (tasks Sample.withReview ++ [t])%list.
Proof.
  destruct (createTask_appends_to_lane Sample.withReview Sample.reviewData
              Sample.sprintId Sample.carol)
    as (t & s' & Hrun & _ & _ & _ & Hnext & _ & Htasks).
  - exists (mkMember Sample.carol Sample.sprintId "ADMIN"). reflexivity.
  - intros a Ha. injection Ha as <-.
    exists (mkMember Sample.bob Sample.sprintId "MEMBER"). reflexivity.
  - exists t, s'. split; [exact Hrun|]. split; [|exact Htasks].
    destruct Hnext as (x & Hx & ->); [vm_compute; discriminate|].
    vm_compute in Hx. destruct Hx as [<-|[]]. reflexivity.
Defined.

(** ** The completion date *)

Lemma updateInput_ignores_completedDate (d : TaskService.UpdateData)
      (x : option (option Date)) (now : Date) :
  TaskService.updateInput (TaskService.set_ud_completedDate d x) now
  = TaskService.updateInput d now.
Proof. reflexivity. Qed.

(** What [updateTask] does to [completedDate]: stamped with the clock
    when the new status is Done or Completed, cleared when another
    non-empty status is given, left alone when the status is absent or
    empty; a [completedDate] key in the update is never used. *)
Lemma updateTask_completedDate (s : Store) (t : Task)
      (d : TaskService.UpdateData) (userId : Id) :
  task_findUnique (t_id t) s = Some t ->
  isMemberOf s (t_projectId t) userId ->
  mayEdit s t userId ->
  exists t' s',
    TaskService.updateTask (t_id t) d userId s = Ok (t', s')
    /\ t_status t' = orElse (TaskService.ud_status d) (t_status t)
    /\ (TaskService.isDone (TaskService.ud_status d) = true ->
        t_completedDate t' = Some (clock s))
    /\ (JS.truthy (TaskService.ud_status d) = true ->
        TaskService.isDone (TaskService.ud_status d) = false ->
        t_completedDate t' = None)
    /\ (JS.truthy (TaskService.ud_status d) = false ->
        t_completedDate t' = t_completedDate t)
    /\ (forall x,
          TaskService.updateTask (t_id t)
            (TaskService.set_ud_completedDate d x) userId s
          = Ok (t', s')).
Proof.
  intros Hf Hm He.
  destruct (updateTask_allowed s t d userId Hf Hm He) as (s' & Hrun & _).
  eexists. exists s'. split; [exact Hrun|].
  split; [reflexivity|].
  cbn [TaskService.applyUpdate t_completedDate TaskService.updateInput
       TaskService.ud_completedDate TaskService.set_ud_completedDate
       TaskService.ud_status TaskService.set_ud_tags
       TaskService.set_ud_dueDate].
  unfold TaskService.completedDateFor.
  repeat split.
  - intros ->. reflexivity.
  - intros -> ->. reflexivity.
  - intro Hfalsy.
    assert (Hnd : TaskService.isDone (TaskService.ud_status d) = false).
    { destruct (TaskService.ud_status d) as [[|c r]|]; try reflexivity.
      discriminate. }
    rewrite Hnd, Hfalsy. reflexivity.
  - intro x. rewrite <- Hrun. reflexivity.
Qed.

Lemma isDone_iff (status : option string) :
  TaskService.isDone status = true
  <-> status = Some "Done" \/ status = Some "Completed".
Proof.
  destruct status as [st|]; cbn.
  - rewrite orb_true_iff, !String.eqb_eq. split; intros [H|H]; try congruence;
      [left|right|left|right]; congruence.
  - split; [discriminate|]. intros [H|H]; discriminate.
Qed.

(** [createTask] never fills [completedDate], whatever the status. *)
Lemma createTask_completedDate (s : Store) (taskData : TaskService.TaskData)
      (projectId creatorId : Id) :
  isMemberOf s projectId creatorId ->
  (forall a, TaskService.assigneeId taskData = Some a ->
             isMemberOf s projectId a) ->
  exists t s',
    TaskService.createTask taskData projectId creatorId s = Ok (t, s')
    /\ t_status t = JS.or_else (TaskService.status taskData) "To Do"
    /\ t_completedDate t = None.
Proof.
  intros Hm Ha.
  destruct (createTask_run s taskData projectId creatorId Hm Ha)
    as (s' & Hrun & _).
  eexists. exists s'. split; [exact Hrun|]. split; reflexivity.
Qed.

(** An empty status is written to the row, yet counts as absent for
    the completion date: the completed review task gets status "" and
    keeps its date. *)
Remark updateTask_empty_status_keeps_completedDate :
  exists t s',
    TaskService.updateTask 13 (Sample.moveTo "") Sample.bob Sample.withCompleted
    = Ok (t, s')
    /\ t_status t = ""
    /\ t_completedDate t = Some 1000%Z.
Proof.
  eexists. eexists. split; [vm_compute; reflexivity|]. split; reflexivity.
Qed.

(** C5, at the failing input.  Bob, a member, creates a task with
    status "Done": the row is stored with that status and with no
    completion date. *)
Theorem createTask_done_has_no_completedDate :
  exists t s',
    TaskService.createTask Sample.shipData Sample.sprintId Sample.bob
      Sample.team = Ok (t, s')
    /\ task_findUnique (t_id t) s' = Some t
    /\ t_status t = "Done"
    /\ t_completedDate t = None.
Proof.
  eexists. eexists. split; [lazy; reflexivity|].
  split; [reflexivity|]. split; reflexivity.
Qed.

(** ** Creating projects *)

Lemma keepsProjects_ret : keepsProjects (ret tt).
Proof. intro s. exists s. repeat split; reflexivity || lia. Qed.

Lemma keepsProjects_seq (m k : M unit) :
  keepsProjects m -> keepsProjects k -> keepsProjects (m ;;; k).
Proof.
  intros Hm Hk s.
  destruct (Hm s) as (s1 & E1 & P1 & M1 & C1 & T1 & N1).
  destruct (Hk s1) as (s2 & E2 & P2 & M2 & C2 & T2 & N2).
  exists s2. unfold bind. rewrite E1, E2.
  repeat split; try congruence. lia.
Qed.

Lemma keepsProjects_forEach {A} (l : list A) (body : A -> M unit) :
  (forall x, keepsProjects (body x)) -> keepsProjects (forEach l body).
Proof.
  intro H. induction l as [|x l IH]; cbn.
  - apply keepsProjects_ret.
  - apply keepsProjects_seq; auto.
Qed.

Lemma keepsProjects_when (b : bool) (m : M unit) :
  keepsProjects m -> keepsProjects (when b m).
Proof. destruct b; cbn; auto using keepsProjects_ret. Qed.

Lemma keepsProjects_newTag (projectId : Id) (tag : string) :
  keepsProjects
    (tid <- freshId ;;
     modify (fun s => set_projectTags s (projectTags s ++ [mkTag tid tag projectId]))).
Proof.
  intro s. eexists. split; [reflexivity|]. cbn. repeat split; lia.
Qed.

Lemma createProject_run (s : Store) (projectData : ProjectService.ProjectData)
      (ownerId : Id) :
  exists s',
    ProjectService.createProject projectData ownerId s
    = Ok (newProject s projectData ownerId, s')
    /\ projects s' = (projects s ++ [newProject s projectData ownerId])%list
    /\ members s' = (members s ++ [mkMember ownerId (nextId s) "OWNER"])%list
    /\ columns s' = (columns s ++ seededColumns (nextId s))%list
    /\ tasks s' = tasks s
    /\ nextId s < nextId s'.
Proof.
  unfold ProjectService.createProject, transaction.
  unfold bind at 1, freshId at 1. unfold bind at 1, gets at 1.
  unfold bind at 1, modify at 1. unfold bind at 1, modify at 1.
  unfold bind at 1, modify at 1.
  match goal with
  | |- exists s', (?w ;;; ?k) ?s0 = _ /\ _ =>
      destruct (keepsProjects_when
                  match ProjectService.data_tags projectData with
                  | Some (_ :: _) => true
                  | _ => false
                  end _
                  (keepsProjects_forEach
                     (orElse (ProjectService.data_tags projectData) []) _
                     (keepsProjects_newTag (nextId s))) s0)
        as (s1 & E1 & P1 & M1 & C1 & T1 & N1)
  end.
  exists s1. unfold bind at 1. rewrite E1.
  cbn [projects members columns tasks nextId set_columns set_members
       set_projects set_nextId clock] in *.
  rewrite P1, M1, C1, T1.
  repeat split; try reflexivity. lia.
Qed.

Lemma find_app {A} (f : A -> bool) (l1 l2 : list A) :
  List.find f (l1 ++ l2)
  = match List.find f l1 with
    | Some x => Some x
    | None => List.find f l2
    end.
Proof.
  induction l1 as [|x l1 IH]; cbn; [reflexivity|].
  destruct (f x); auto.
Qed.

Lemma filter_nothing {A} (f : A -> bool) (l : list A) :
  (forall x, In x l -> f x = false) -> filter f l = [].
Proof.
  intro H. induction l as [|x l IH]; cbn; [reflexivity|].
  rewrite (H x (or_introl eq_refl)). apply IH.
  intros y Hy. apply H. now right.
Qed.

(** C8. On a well-formed store, [createProject] followed by
    [getProjectById] by the owner returns the new project with exactly
    the four default columns, in the order To Do (0, #EF4444),
    In Progress (1, #F59E0B), Review (2, #8B5CF6), Done (3, #10B981). *)
Theorem createProject_then_getProjectById_columns :
  forall (s : Store) (projectData : ProjectService.ProjectData) (ownerId : Id),
    wellFormed s ->
    exists p s' d,
      ProjectService.createProject projectData ownerId s = Ok (p, s')
      /\ ProjectService.getProjectById (p_id p) ownerId s' = Ok (d, s')
      /\ pd_project d = p
      /\ pd_columns d
         = [ mkColumn "To Do" 0%Z "#EF4444" (p_id p);
             mkColumn "In Progress" 1%Z "#F59E0B" (p_id p);
             mkColumn "Review" 2%Z "#8B5CF6" (p_id p);
             mkColumn "Done" 3%Z "#10B981" (p_id p) ].
Proof.
  intros s projectData ownerId (Hnd & Hp & Hm & Hc).
  destruct (createProject_run s projectData ownerId)
    as (s' & Hrun & Hprojects & Hmembers & Hcolumns & _ & _).
  exists (newProject s projectData ownerId), s', (detailsOf s' (newProject s projectData ownerId)).
  split; [exact Hrun|].
  assert (Hfind :
    List.find (fun q => (p_id q =? nextId s)%nat && canAccess s' ownerId q)
              (projects s')
    = Some (newProject s projectData ownerId)).
  { rewrite Hprojects, find_app.
    replace (List.find _ (projects s)) with (@None Project).
    - cbn. unfold canAccess. cbn. now rewrite !Nat.eqb_refl.
    - symmetry. apply find_none_iff. intros q Hq.
      apply Hp in Hq. apply Nat.lt_neq, Nat.eqb_neq in Hq. now rewrite Hq. }
  split.
  { rewrite getProjectById_unfold. cbn [newProject p_id]. now rewrite Hfind. }
  split; [reflexivity|].
  cbn [detailsOf pd_columns newProject p_id].
  unfold columns_of. rewrite Hcolumns, filter_app.
  rewrite filter_nothing.
  - cbn. rewrite Nat.eqb_refl. reflexivity.
  - intros c Hin. apply Hc in Hin.
    apply Nat.lt_neq, Nat.eqb_neq in Hin. exact Hin.
Qed.

Lemma createProject_then_getProjectById_columns_witness :
  exists p s' d,
    ProjectService.createProject Sample.sprintData Sample.dave Sample.withReview
    = Ok (p, s')
    /\ ProjectService.getProjectById (p_id p) Sample.dave s' = Ok (d, s')
    /\ pd_project d = p
    /\ pd_columns d
       = [ mkColumn "To Do" 0%Z "#EF4444" (p_id p);
           mkColumn "In Progress" 1%Z "#F59E0B" (p_id p);
           mkColumn "Review" 2%Z "#8B5CF6" (p_id p);
           mkColumn "Done" 3%Z "#10B981" (p_id p) ].
Proof.
  apply (createProject_then_getProjectById_columns Sample.withReview
           Sample.sprintData Sample.dave).
  unfold wellFormed, uniqueProjectIds. vm_compute.
  split; [constructor; [intros []|constructor]|].
  split; [intros p [<-|[]]; cbn; lia|].
  split; [intros m [<-|[<-|[<-|[]]]]; cbn; lia|].
  intros c [<-|[<-|[<-|[<-|[]]]]]; cbn; lia.
Defined.

(** ** Writes of the task service *)

Lemma elsewhere_refl (s : Store) : elsewhere s s.
Proof. unfold elsewhere. auto. Qed.

Lemma elsewhere_trans (s1 s2 s3 : Store) :
  elsewhere s1 s2 -> elsewhere s2 s3 -> elsewhere s1 s3.
Proof.
  unfold elsewhere. intros (P1 & M1 & C1 & N1) (P2 & M2 & C2 & N2).
  repeat split; try congruence. lia.
Qed.

Lemma we_ret {A} (a : A) : writesElsewhere (ret a).
Proof. intros s x s' H. injection H as _ <-. apply elsewhere_refl. Qed.

Lemma we_throw {A} (e : Error) : writesElsewhere (@throw A e).
Proof. intros s x s' H. discriminate. Qed.

Lemma we_gets {A} (f : Store -> A) : writesElsewhere (gets f).
Proof. intros s x s' H. injection H as _ <-. apply elsewhere_refl. Qed.

Lemma we_freshId : writesElsewhere freshId.
Proof.
  intros s x s' H. injection H as _ <-. unfold elsewhere. cbn. auto.
Qed.

Lemma we_modify (f : Store -> Store) :
  (forall s, elsewhere s (f s)) -> writesElsewhere (modify f).
Proof. intros Hf s x s' H. injection H as H. subst s'. apply Hf. Qed.

Lemma we_bind {A B} (m : M A) (k : A -> M B) :
  writesElsewhere m -> (forall a, writesElsewhere (k a)) ->
  writesElsewhere (bind m k).
Proof.
  intros Hm Hk s b s'. unfold bind.
  destruct (m s) as [[a s1]|e] eqn:E; [|discriminate].
  intro H. exact (elsewhere_trans _ _ _ (Hm _ _ _ E) (Hk _ _ _ _ H)).
Qed.

Lemma we_when (b : bool) (m : M unit) :
  writesElsewhere m -> writesElsewhere (when b m).
Proof. destruct b; cbn; auto using we_ret. Qed.

Lemma we_forEach {A} (l : list A) (body : A -> M unit) :
  (forall x, writesElsewhere (body x)) -> writesElsewhere (forEach l body).
Proof.
  intro H. induction l as [|x l IH]; cbn.
  - apply we_ret.
  - apply we_bind; auto.
Qed.

(** Takes a method apart along its binds and branches. *)
Ltac elsewhere_steps :=
  repeat first
    [ apply we_ret | apply we_throw | apply we_gets | apply we_freshId
    | apply we_when | apply we_forEach; intro
    | apply we_modify; intro; unfold elsewhere; cbn; auto
    | apply we_bind; [|intro]
    | progress cbv zeta
    | match goal with
      | |- writesElsewhere (if ?b then _ else _) => destruct b
      | |- writesElsewhere (match ?x with _ => _ end) => destruct x
      end ].

Lemma we_isProjectMember (projectId userId : Id) :
  writesElsewhere (ProjectService.isProjectMember projectId userId).
Proof. unfold ProjectService.isProjectMember. elsewhere_steps. Qed.

Lemma we_getUserRole (projectId userId : Id) :
  writesElsewhere (ProjectService.getUserRole projectId userId).
Proof. unfold ProjectService.getUserRole. elsewhere_steps. Qed.

Lemma we_getTaskById (id userId : Id) :
  writesElsewhere (TaskService.getTaskById id userId).
Proof.
  unfold TaskService.getTaskById. elsewhere_steps.
Qed.

Lemma we_taskWatcher_create (userId taskId : Id) :
  writesElsewhere (TaskService.taskWatcher_create userId taskId).
Proof. unfold TaskService.taskWatcher_create. elsewhere_steps. Qed.

(** No method of the task service writes to the project, member or
    column tables. *)
Lemma taskService_writes_elsewhere :
  (forall taskData projectId creatorId,
      writesElsewhere (TaskService.createTask taskData projectId creatorId))
  /\ (forall provider projectId userId filters,
        writesElsewhere
          (TaskService.getProjectTasks provider projectId userId filters))
  /\ (forall id updateData userId,
        writesElsewhere (TaskService.updateTask id updateData userId))
  /\ (forall id userId, writesElsewhere (TaskService.deleteTask id userId))
  /\ (forall taskId content authorId,
        writesElsewhere (TaskService.addComment taskId content authorId))
  /\ (forall taskId commentId content userId,
        writesElsewhere
          (TaskService.updateComment taskId commentId content userId))
  /\ (forall taskId commentId userId,
        writesElsewhere (TaskService.deleteComment taskId commentId userId)).
Proof.
  repeat match goal with |- _ /\ _ => split end; intros.
  - unfold TaskService.createTask, transaction.
    elsewhere_steps;
      auto using we_isProjectMember, we_taskWatcher_create.
  - unfold TaskService.getProjectTasks, query.
    elsewhere_steps; auto using we_isProjectMember.
  - unfold TaskService.updateTask, TaskService.task_update, transaction.
    elsewhere_steps;
      auto using we_getTaskById, we_getUserRole, we_taskWatcher_create.
  - unfold TaskService.deleteTask, TaskService.task_delete.
    elsewhere_steps; auto using we_getTaskById, we_getUserRole.
  - unfold TaskService.addComment, transaction.
    elsewhere_steps; auto using we_getTaskById, we_taskWatcher_create.
  - unfold TaskService.updateComment, TaskService.comment_update.
    elsewhere_steps; auto using we_getTaskById.
  - unfold TaskService.deleteComment, TaskService.comment_delete.
    elsewhere_steps; auto using we_getTaskById, we_getUserRole.
Qed.

(** ** Membership *)

Lemma getProjectById_ok (id userId : Id) (s s' : Store) (d : ProjectDetails) :
  ProjectService.getProjectById id userId s = Ok (d, s') ->
  s' = s /\ d = detailsOf s (pd_project d)
  /\ In (pd_project d) (projects s) /\ p_id (pd_project d) = id
  /\ canAccess s userId (pd_project d) = true.
Proof.
  rewrite getProjectById_unfold.
  destruct (List.find _ (projects s)) as [p|] eqn:Hf; [|discriminate].
  intro H. injection H as <- <-.
  apply find_some in Hf. destruct Hf as [Hin Hb].
  apply andb_prop in Hb. destruct Hb as [Hid Hacc].
  apply Nat.eqb_eq in Hid. cbn. auto.
Qed.

Lemma addMember_ok (projectId : Id) (email : string) (role : option string)
      (userId : Id) (s s' : Store) (d : ProjectDetails) :
  ProjectService.addMember projectId email role userId s = Ok (d, s') ->
  exists p u,
    In p (projects s) /\ p_id p = projectId
    /\ projectMember_findUnique (u_id u) projectId s = None
    /\ s' = set_members s
              (members s ++ [mkMember (u_id u) projectId
                               (JS.toUpperCase (orElse role "MEMBER"))]).
Proof.
  unfold ProjectService.addMember. unfold bind at 1.
  destruct (ProjectService.getProjectById projectId userId s)
    as [[d0 s0]|e] eqn:Hget; [|discriminate].
  apply getProjectById_ok in Hget. destruct Hget as (-> & _ & Hin & Hid & _).
  destruct (ProjectService.notEditor _); [discriminate|].
  unfold bind at 1, gets at 1.
  destruct (List.find _ (users s)) as [u|]; [|discriminate].
  unfold bind at 1, gets at 1.
  destruct (projectMember_findUnique (u_id u) projectId s) eqn:Hex;
    [discriminate|].
  cbn [isSome]. unfold bind at 1, modify at 1.
  intro Hlast. apply getProjectById_ok in Hlast.
  destruct Hlast as (-> & _).
  exists (pd_project d0), u. auto.
Qed.

Lemma removeMember_ok (projectId memberUserId userId : Id) (s s' : Store)
      (r : unit) :
  ProjectService.removeMember projectId memberUserId userId s = Ok (r, s') ->
  exists p,
    In p (projects s) /\ p_id p = projectId /\ p_ownerId p <> memberUserId
    /\ s' = set_members s
              (filter (fun m => negb ((m_userId m =? memberUserId)%nat
                                      && (m_projectId m =? projectId)%nat))
                      (members s)).
Proof.
  unfold ProjectService.removeMember. unfold bind at 1.
  destruct (ProjectService.getProjectById projectId userId s)
    as [[d0 s0]|e] eqn:Hget; [|discriminate].
  apply getProjectById_ok in Hget. destruct Hget as (-> & _ & Hin & Hid & _).
  destruct (ProjectService.notEditor _); [discriminate|].
  destruct (p_ownerId (pd_project d0) =? memberUserId)%nat eqn:Hown;
    [discriminate|].
  apply Nat.eqb_neq in Hown.
  unfold ProjectService.projectMember_delete, bind, gets, modify.
  destruct (isSome _); [|discriminate].
  intro H. injection H as _ <-.
  exists (pd_project d0). auto.
Qed.

(** [addMember] succeeds once its four checks pass; the read that
    follows the insert repeats the first one and cannot fail. *)
Lemma addMember_run (s : Store) (p : Project) (u : User) (email : string)
      (role : option string) (userId : Id) :
  uniqueProjectIds s -> In p (projects s) ->
  holdsRole s (p_id p) userId "OWNER" \/ holdsRole s (p_id p) userId "ADMIN" ->
  List.find (fun x => (u_email x =? JS.toLowerCase email)%string) (users s)
  = Some u ->
  projectMember_findUnique (u_id u) (p_id p) s = None ->
  exists d s',
    ProjectService.addMember (p_id p) email role userId s = Ok (d, s')
    /\ members s'
       = (members s ++ [mkMember (u_id u) (p_id p)
                          (JS.toUpperCase (orElse role "MEMBER"))])%list
    /\ In (mkMember (u_id u) (p_id p) (JS.toUpperCase (orElse role "MEMBER")))
          (pd_members d).
Proof.
  intros Hnd Hin Hrole Hu Hnew.
  assert (Hmem : isSome (projectMember_findUnique userId (p_id p) s) = true).
  { unfold holdsRole, roleOf in Hrole.
    destruct (projectMember_findUnique userId (p_id p) s); [reflexivity|].
    destruct Hrole; discriminate. }
  assert (Hacc : canAccess s userId p = true).
  { unfold canAccess. rewrite Hmem. apply orb_true_r. }
  apply notEditor_false_iff in Hrole.
  unfold ProjectService.addMember. unfold bind at 1.
  rewrite getProjectById_unfold, find_project_by_key, Hacc by assumption.
  cbn [detailsOf pd_members]. rewrite userMember_findUnique, Hrole.
  unfold bind at 1, gets at 1. rewrite Hu.
  unfold bind at 1, gets at 1. rewrite Hnew. cbn [isSome].
  unfold bind at 1, modify at 1.
  set (row := mkMember (u_id u) (p_id p) (JS.toUpperCase (orElse role "MEMBER"))).
  set (s1 := set_members s (members s ++ [row])).
  assert (Hacc1 : canAccess s1 userId p = true).
  { unfold canAccess, projectMember_findUnique in *. cbn [members s1 set_members].
    rewrite find_app.
    destruct (List.find _ (members s)); [|discriminate Hmem].
    apply orb_true_r. }
  rewrite getProjectById_unfold.
  rewrite (find_project_by_key s1 userId p Hnd Hin), Hacc1.
  eexists. eexists. split; [reflexivity|]. split; [reflexivity|].
  cbn [detailsOf pd_members]. unfold members_of. cbn [members s1 set_members].
  rewrite filter_app. apply in_or_app. right. cbn. rewrite Nat.eqb_refl.
  now left.
Qed.

Lemma filter_filter_comm {A} (f g : A -> bool) (l : list A) :
  filter f (filter g l) = filter g (filter f l).
Proof.
  induction l as [|x l IH]; cbn; [reflexivity|].
  destruct (f x) eqn:Hf, (g x) eqn:Hg; cbn; rewrite ?Hf, ?Hg, IH; reflexivity.
Qed.

Lemma createProject_keeps_invariant (s s' : Store)
      (projectData : ProjectService.ProjectData) (ownerId : Id) (p : Project) :
  wellFormed s -> ownerInvariant s ->
  ProjectService.createProject projectData ownerId s = Ok (p, s') ->
  wellFormed s' /\ ownerInvariant s'
  /\ In p (projects s') /\ p_ownerId p = ownerId.
Proof.
  intros (Hnd & Hp & Hm & Hc) Hinv Hrun.
  destruct (createProject_run s projectData ownerId)
    as (s1 & Hrun1 & Hprojects & Hmembers & Hcolumns & _ & Hnext).
  rewrite Hrun1 in Hrun. injection Hrun as <- <-.
  assert (Hwf : wellFormed s1).
  { unfold wellFormed, uniqueProjectIds.
    rewrite Hprojects, Hmembers, Hcolumns, map_app. cbn [map newProject p_id].
    repeat split.
    - apply NoDup_app; [exact Hnd | constructor; [intros []|constructor] |].
      intros i Hi [<-|[]]. apply in_map_iff in Hi.
      destruct Hi as (q & Hq & Hin). apply Hp in Hin. lia.
    - intros q Hq. apply in_app_or in Hq. destruct Hq as [Hq|[<-|[]]].
      + apply Hp in Hq. lia.
      + cbn. lia.
    - intros m Hq. apply in_app_or in Hq. destruct Hq as [Hq|[<-|[]]].
      + apply Hm in Hq. lia.
      + cbn. lia.
    - intros c Hq. apply in_app_or in Hq.
      destruct Hq as [Hq|[<-|[<-|[<-|[<-|[]]]]]]; cbn; try lia.
      apply Hc in Hq. lia. }
  split; [exact Hwf|]. split.
  - intros q Hq. unfold oneOwner, ownerRows.
    rewrite Hmembers, filter_app. cbn [filter m_projectId m_role].
    rewrite Hprojects in Hq. apply in_app_or in Hq.
    destruct Hq as [Hq|[<-|[]]].
    + pose proof (Hp q Hq) as Hlt.
      apply Nat.lt_neq, not_eq_sym, Nat.eqb_neq in Hlt. rewrite Hlt.
      cbn [andb]. rewrite app_nil_r. exact (Hinv q Hq).
    + cbn [newProject p_id p_ownerId]. rewrite Nat.eqb_refl. cbn.
      rewrite filter_nothing; [reflexivity|].
      intros m Hin. apply Hm in Hin.
      apply Nat.lt_neq, Nat.eqb_neq in Hin. now rewrite Hin.
  - rewrite Hprojects. split; [|reflexivity].
    apply in_or_app. right. now left.
Qed.

Lemma addMember_keeps_invariant (s s' : Store) (projectId : Id) (email : string)
      (role : option string) (userId : Id) (d : ProjectDetails) :
  wellFormed s -> ownerInvariant s ->
  JS.toUpperCase (orElse role "MEMBER") <> "OWNER" ->
  ProjectService.addMember projectId email role userId s = Ok (d, s') ->
  wellFormed s' /\ ownerInvariant s'.
Proof.
  intros (Hnd & Hp & Hm & Hc) Hinv Hrole Hrun.
  apply addMember_ok in Hrun.
  destruct Hrun as (p & u & Hin & Hid & _ & ->).
  split.
  - unfold wellFormed, uniqueProjectIds. cbn [projects members columns nextId set_members].
    repeat split; auto.
    intros m Hq. apply in_app_or in Hq. destruct Hq as [Hq|[<-|[]]]; auto.
    cbn. rewrite <- Hid. auto.
  - intros q Hq. unfold oneOwner, ownerRows.
    cbn [projects members set_members] in *. rewrite filter_app.
    cbn [filter m_projectId m_role].
    apply String.eqb_neq in Hrole. rewrite Hrole, andb_false_r.
    rewrite app_nil_r. exact (Hinv q Hq).
Qed.

Lemma removeMember_keeps_invariant (s s' : Store)
      (projectId memberUserId userId : Id) :
  wellFormed s -> ownerInvariant s ->
  ProjectService.removeMember projectId memberUserId userId s = Ok (tt, s') ->
  wellFormed s' /\ ownerInvariant s'.
Proof.
  intros (Hnd & Hp & Hm & Hc) Hinv Hrun.
  apply removeMember_ok in Hrun.
  destruct Hrun as (p & Hin & Hid & Hown & ->).
  split.
  - unfold wellFormed, uniqueProjectIds. cbn [projects members columns nextId set_members].
    repeat split; auto.
    intros m Hq. apply filter_In in Hq. destruct Hq as [Hq _]. auto.
  - intros q Hq. unfold oneOwner, ownerRows.
    cbn [projects members set_members] in *.
    rewrite filter_filter_comm.
    pose proof (Hinv q Hq) as Hone. unfold oneOwner, ownerRows in Hone.
    rewrite Hone. cbn [filter m_userId m_projectId].
    destruct (p_id q =? projectId)%nat eqn:Hsame.
    + apply Nat.eqb_eq in Hsame.
      assert (q = p) as ->.
      { apply (key_injective p_id (projects s)); auto. congruence. }
      apply Nat.eqb_neq in Hown. rewrite Hown. reflexivity.
    + rewrite andb_false_r. reflexivity.
Qed.

Lemma memberStep_keeps_invariant (s s' : Store) :
  wellFormed s -> ownerInvariant s -> memberStep s s' ->
  wellFormed s' /\ ownerInvariant s'.
Proof.
  intros Hwf Hinv Hstep.
  destruct Hstep as [projectData ownerId p Hrun
                    | projectId email role userId d Hrole Hrun
                    | projectId memberUserId userId Hrun
                    | (Hprojects & Hmembers & Hcolumns & Hnext)].
  - destruct (createProject_keeps_invariant _ _ _ _ _ Hwf Hinv Hrun)
      as (H1 & H2 & _). auto.
  - exact (addMember_keeps_invariant _ _ _ _ _ _ _ Hwf Hinv Hrole Hrun).
  - exact (removeMember_keeps_invariant _ _ _ _ _ Hwf Hinv Hrun).
  - destruct Hwf as (Hnd & Hp & Hm & Hc).
    unfold wellFormed, uniqueProjectIds, ownerInvariant, oneOwner, ownerRows.
    rewrite Hprojects, Hmembers, Hcolumns.
    repeat split; auto.
    + intros q Hq. apply Hp in Hq. lia.
    + intros q Hq. apply Hm in Hq. lia.
    + intros q Hq. apply Hc in Hq. lia.
Qed.

Lemma reachable_invariant (s : Store) :
  reachable s -> wellFormed s /\ ownerInvariant s.
Proof.
  induction 1 as [s Hprojects Hmembers Hcolumns | s s' _ [Hwf Hinv] Hstep].
  - unfold wellFormed, uniqueProjectIds, ownerInvariant.
    rewrite Hprojects, Hmembers, Hcolumns. cbn.
    repeat split; try tauto. constructor.
  - exact (memberStep_keeps_invariant s s' Hwf Hinv Hstep).
Qed.

(** C2, as the code has it.  In every store built from one without
    projects by [createProject], by successful [addMember] calls whose
    role is not OWNER, by successful [removeMember] calls and by writes
    elsewhere (those of the task service), each project has exactly
    one ProjectMember row with role OWNER, and that row belongs to the
    project's owner. *)
Theorem one_owner_row_per_project :
  forall (s : Store) (p : Project),
    reachable s ->
    In p (projects s) ->
    ownerRows s (p_id p) = [mkMember (p_ownerId p) (p_id p) "OWNER"].
Proof.
  intros s p Hreach Hin.
  destruct (reachable_invariant s Hreach) as [_ Hinv].
  exact (Hinv p Hin).
Qed.

Lemma one_owner_row_per_project_witness :
  ownerRows Sample.withoutBob Sample.sprintId
  = [mkMember Sample.alice Sample.sprintId "OWNER"].
Proof.
  apply (one_owner_row_per_project Sample.withoutBob
           (mkProject 10 "Sprint 1" (Some "First sprint") "ACTIVE" "MEDIUM"
                      "#3B82F6" None Sample.alice 1000%Z)).
  - apply (reach_step Sample.withReview).
    + apply (reach_step Sample.team).
      * apply (reach_step Sample.withBob).
        -- apply (reach_step Sample.created).
           ++ apply (reach_step Sample.empty).
              ** apply reach_start; reflexivity.
              ** eapply (step_createProject _ _ Sample.sprintData Sample.alice).
                 vm_compute. reflexivity.
           ++ eapply (step_addMember _ _ Sample.sprintId "bob@x.com" None
                        Sample.alice).
              ** vm_compute. discriminate.
              ** vm_compute. reflexivity.
        -- eapply (step_addMember _ _ Sample.sprintId "Carol@x.com"
                     (Some "admin") Sample.alice).
           ++ vm_compute. discriminate.
           ++ vm_compute. reflexivity.
      * apply step_elsewhere. unfold elsewhere. vm_compute.
        repeat split. repeat constructor.
    + apply (step_removeMember _ _ Sample.sprintId Sample.bob Sample.alice).
      vm_compute. reflexivity.
  - vm_compute. left. reflexivity.
Defined.

(** C2, as the claim has it, fails: [addMember] passes any role on.
    Alice adds Bob with role "owner"; the call succeeds and the project
    then has two OWNER rows. *)
Lemma addMember_as_owner_adds_second_owner :
  exists d s',
    ProjectService.addMember Sample.sprintId "bob@x.com" (Some "owner")
      Sample.alice Sample.created = Ok (d, s')
    /\ ownerRows s' Sample.sprintId
       = [ mkMember Sample.alice Sample.sprintId "OWNER";
           mkMember Sample.bob Sample.sprintId "OWNER" ]
    /\ exists p, In p (projects s') /\ ~ oneOwner s' p.
Proof.
  eexists. eexists. split; [vm_compute; reflexivity|].
  split; [reflexivity|].
  eexists. split; [left; reflexivity|].
  vm_compute. discriminate.
Qed.

(** ** Comments and archived tasks *)

Lemma getTaskById_not_member (s : Store) (t : Task) (userId : Id) :
  task_findUnique (t_id t) s = Some t ->
  projectMember_findUnique userId (t_projectId t) s = None ->
  TaskService.getTaskById (t_id t) userId s = Err AccessDenied.
Proof.
  intros Hf Hm. rewrite getTaskById_unfold, Hf, Hm. reflexivity.
Qed.

(** [updateComment] and [deleteComment] first load the task named in
    the call through [getTaskById].  A caller who is not a member of
    that task's project fails with "Access denied - not a project
    member", whatever comment is addressed and whoever wrote it.
    Nothing is written. *)
Lemma comment_methods_check_the_named_task (s : Store) (t : Task)
      (userId commentId : Id) (content : string) :
  task_findUnique (t_id t) s = Some t ->
  projectMember_findUnique userId (t_projectId t) s = None ->
  TaskService.updateComment (t_id t) commentId content userId s
  = Err AccessDenied
  /\ TaskService.deleteComment (t_id t) commentId userId s
     = Err AccessDenied.
Proof.
  intros Hf Hm.
  unfold TaskService.updateComment, TaskService.deleteComment.
  split; unfold bind at 1;
    rewrite (getTaskById_not_member s t userId Hf Hm); reflexivity.
Qed.

Lemma updateComment_unfold (s : Store) (t : Task) (commentId : Id)
      (content : string) (userId : Id) :
  task_findUnique (t_id t) s = Some t ->
  isMemberOf s (t_projectId t) userId ->
  TaskService.updateComment (t_id t) commentId content userId s
  = match comment_findUnique commentId s with
    | None => Err CommentNotFound
    | Some c =>
        if (cm_authorId c =? userId)%nat
        then Ok (editedComment content (clock s) c,
                 set_comments s
                   (map (fun x => if (cm_id x =? commentId)%nat
                                  then editedComment content (clock s) x else x)
                        (comments s)))
        else Err NotCommentAuthor
    end.
Proof.
  intros Hf Hm. unfold TaskService.updateComment. unfold bind at 1.
  rewrite (getTaskById_member s t userId Hf Hm).
  unfold bind at 1, gets at 1.
  destruct (comment_findUnique commentId s) as [c|] eqn:Hc; [|reflexivity].
  destruct (cm_authorId c =? userId)%nat; cbn [negb]; [|reflexivity].
  unfold bind at 1, gets at 1.
  unfold TaskService.comment_update, bind, gets, modify. rewrite Hc.
  reflexivity.
Qed.

Lemma deleteComment_unfold (s : Store) (t : Task) (commentId userId : Id) :
  task_findUnique (t_id t) s = Some t ->
  isMemberOf s (t_projectId t) userId ->
  TaskService.deleteComment (t_id t) commentId userId s
  = match comment_findUnique commentId s with
    | None => Err CommentNotFound
    | Some c =>
        if (cm_authorId c =? userId)%nat
           || TaskService.roleIs (roleOf s (t_projectId t) userId) "OWNER"
           || TaskService.roleIs (roleOf s (t_projectId t) userId) "ADMIN"
        then Ok (tt, set_comments s
                       (filter (fun x => negb (cm_id x =? commentId)%nat)
                               (comments s)))
        else Err (InsufficientPermissions "delete this comment")
    end.
Proof.
  intros Hf Hm. unfold TaskService.deleteComment. unfold bind at 1.
  rewrite (getTaskById_member s t userId Hf Hm).
  unfold bind at 1, gets at 1.
  destruct (comment_findUnique commentId s) as [c|] eqn:Hc; [|reflexivity].
  unfold bind at 1. rewrite (getTaskById_member s t userId Hf Hm).
  unfold bind at 1. rewrite getUserRole_run.
  cbn [taskDetailsOf td_task].
  destruct (_ || _ || _); cbn [negb]; [|reflexivity].
  unfold TaskService.comment_delete, bind, gets, modify. rewrite Hc.
  reflexivity.
Qed.

(** C9, where it fails.  [updateComment] and [deleteComment] check
    the caller's membership on the task named in the call, then look
    the comment up by its id alone; neither compares the comment's
    [taskId] with the task named.  The membership the claim speaks of
    is therefore required only of a call that names the comment's own
    task: such a call fails with "Access denied - not a project
    member".  The author of a comment who is no longer a member of the
    project the comment was made in still edits and deletes it, by
    naming any task of a project they are a member of. *)
Theorem comment_author_outside_project_edits_and_deletes :
  forall (s : Store) (own named : Task) (c : Comment) (content : string),
    comment_findUnique (cm_id c) s = Some c ->
    task_findUnique (cm_taskId c) s = Some own ->
    projectMember_findUnique (cm_authorId c) (t_projectId own) s = None ->
    task_findUnique (t_id named) s = Some named ->
    isMemberOf s (t_projectId named) (cm_authorId c) ->
    (TaskService.updateComment (cm_taskId c) (cm_id c) content (cm_authorId c) s
     = Err AccessDenied
     /\ TaskService.deleteComment (cm_taskId c) (cm_id c) (cm_authorId c) s
        = Err AccessDenied)
    /\ (exists c' s',
          TaskService.updateComment (t_id named) (cm_id c) content
            (cm_authorId c) s = Ok (c', s')
          /\ comment_findUnique (cm_id c) s' = Some c'
          /\ cm_taskId c' = cm_taskId c
          /\ cm_content c' = content)
    /\ (exists s',
          TaskService.deleteComment (t_id named) (cm_id c) (cm_authorId c) s
          = Ok (tt, s')
          /\ comment_findUnique (cm_id c) s' = None).
Proof.
  intros s own named c content Hc Hown Hleft Hnamed Hmember.
  split; [|split].
  - assert (Hid : t_id own = cm_taskId c).
    { apply find_some in Hown. destruct Hown as [_ H]. now apply Nat.eqb_eq. }
    rewrite <- Hid in *.
    exact (comment_methods_check_the_named_task s own (cm_authorId c) (cm_id c)
             content Hown Hleft).
  - rewrite (updateComment_unfold s named (cm_id c) content _ Hnamed Hmember), Hc.
    rewrite Nat.eqb_refl. eexists. eexists. split; [reflexivity|].
    split; [|split; reflexivity].
    unfold comment_findUnique in *. cbn [comments set_comments].
    induction (comments s) as [|x l IH]; [discriminate|].
    cbn [map List.find] in *.
    destruct (cm_id x =? cm_id c)%nat eqn:Hx.
    + injection Hc as ->. cbn. now rewrite Nat.eqb_refl.
    + rewrite Hx. now apply IH.
  - rewrite (deleteComment_unfold s named (cm_id c) _ Hnamed Hmember), Hc.
    rewrite Nat.eqb_refl. cbn [orb]. eexists. split; [reflexivity|].
    unfold comment_findUnique. cbn [comments set_comments].
    rewrite find_filter. apply find_none_iff. intros x _.
    destruct (cm_id x =? cm_id c)%nat; reflexivity.
Qed.

(** Bob, removed from "Sprint 1", cannot edit the comment he left
    there by naming its task, and edits and deletes it by naming the
    task of his own project. *)
Lemma comment_author_outside_project_edits_and_deletes_witness :
  projectMember_findUnique Sample.bob Sample.sprintId Sample.withSide = None
  /\ TaskService.updateComment Sample.taskId Sample.commentId "edited"
       Sample.bob Sample.withSide = Err AccessDenied
  /\ (exists c' s',
        TaskService.updateComment Sample.sideTaskId Sample.commentId "edited"
          Sample.bob Sample.withSide = Ok (c', s')
        /\ cm_taskId c' = Sample.taskId
        /\ cm_content c' = "edited")
  /\ (exists s',
        TaskService.deleteComment Sample.sideTaskId Sample.commentId
          Sample.bob Sample.withSide = Ok (tt, s')
        /\ comment_findUnique Sample.commentId s' = None).
Proof.
  split; [reflexivity|].
  destruct (comment_author_outside_project_edits_and_deletes Sample.withSide
              Sample.bugTask Sample.notes Sample.onIt "edited")
    as ((Hdenied & _) & (c' & s' & Hedit & _ & Htask & Hcontent) & Hdelete).
  - reflexivity.
  - reflexivity.
  - reflexivity.
  - reflexivity.
  - exists (mkMember Sample.bob Sample.sideId "OWNER"). reflexivity.
  - split; [exact Hdenied|]. split; [|exact Hdelete].
    exists c', s'. auto.
Defined.







(** * Further properties *)

(** ** Updating and deleting projects *)

Lemma find_by_key {A} (key : A -> nat) (l : list A) (a : A) :
  NoDup (map key l) -> In a l ->
  List.find (fun x => (key x =? key a)%nat) l = Some a.
Proof.
  intros Hnd Hin.
  destruct (List.find _ l) as [b|] eqn:Hf.
  - apply find_some in Hf. destruct Hf as [Hb Hk]. apply Nat.eqb_eq in Hk.
    f_equal. exact (key_injective key l b a Hnd Hb Hin Hk).
  - pose proof (find_none _ _ Hf a Hin) as H. cbn in H.
    rewrite Nat.eqb_refl in H. discriminate.
Qed.

Lemma holdsRole_member (s : Store) (projectId userId : Id) (r : string) :
  holdsRole s projectId userId r ->
  isSome (projectMember_findUnique userId projectId s) = true.
Proof.
  unfold holdsRole, roleOf.
  destruct (projectMember_findUnique userId projectId s); [reflexivity|].
  discriminate.
Qed.

Lemma editor_canAccess (s : Store) (p : Project) (userId : Id) :
  holdsRole s (p_id p) userId "OWNER" \/ holdsRole s (p_id p) userId "ADMIN" ->
  canAccess s userId p = true.
Proof.
  intro H. unfold canAccess.
  assert (Hm : isSome (projectMember_findUnique userId (p_id p) s) = true)
    by (destruct H as [H|H]; exact (holdsRole_member _ _ _ _ H)).
  rewrite Hm. apply orb_true_r.
Qed.

Lemma keepsProjects_then {A} (m : M unit) (k : M A) (s : Store) :
  keepsProjects m ->
  exists s1,
    (m ;;; k) s = k s1
    /\ projects s1 = projects s /\ members s1 = members s
    /\ columns s1 = columns s /\ tasks s1 = tasks s
    /\ nextId s <= nextId s1.
Proof.
  intro Hm. destruct (Hm s) as (s1 & E1 & H).
  exists s1. unfold bind. rewrite E1. auto.
Qed.

Lemma keepsProjects_replaceTags (id : Id) (given : option (list string)) :
  keepsProjects
    match given with
    | Some newTags =>
        modify (fun s => set_projectTags s
          (filter (fun t => negb (tag_projectId t =? id)%nat) (projectTags s))) ;;;
        when (match newTags with
              | _ :: _ => true
              | [] => false
              end)
          (forEach newTags
             (fun tag => tid <- freshId ;;
                         modify (fun s => set_projectTags s
                                   (projectTags s ++ [mkTag tid tag id]))))
    | None => ret tt
    end.
Proof.
  destruct given as [newTags|]; [|apply keepsProjects_ret].
  apply keepsProjects_seq.
  - intro s. eexists. split; [reflexivity|]. cbn. repeat split; lia.
  - apply keepsProjects_when, keepsProjects_forEach.
    intro tag. apply keepsProjects_newTag.
Qed.

Lemma updateProject_run (s : Store) (p : Project)
      (d : ProjectService.UpdateData) (userId : Id) :
  uniqueProjectIds s -> In p (projects s) ->
  holdsRole s (p_id p) userId "OWNER" \/ holdsRole s (p_id p) userId "ADMIN" ->
  exists s',
    ProjectService.updateProject (p_id p) d userId s
    = Ok (ProjectService.mkUpdatedProject
            (ProjectService.applyProjectUpdate d (clock s) p)
            (members_of (p_id p) s)
            (orderBy (fun a b => (c_order a <=? c_order b)%Z)
                     (columns_of (p_id p) s))
            (tags_of (p_id p) s), s')
    /\ projects s' = projectsAfterUpdate s (p_id p) d
    /\ members s' = members s
    /\ columns s' = columnsAfterUpdate s (p_id p) d
    /\ tasks s' = tasks s
    /\ nextId s <= nextId s'.
Proof.
  intros Hnd Hin Hrole.
  pose proof (editor_canAccess s p userId Hrole) as Hacc.
  apply notEditor_false_iff in Hrole.
  unfold ProjectService.updateProject. unfold bind at 1.
  rewrite getProjectById_unfold, find_project_by_key, Hacc by assumption.
  cbn [detailsOf pd_members]. rewrite userMember_findUnique, Hrole.
  unfold transaction. unfold bind at 1.
  unfold ProjectService.project_update. unfold bind at 1, gets at 1.
  rewrite (find_by_key p_id (projects s) p Hnd Hin).
  unfold bind at 1, gets at 1. unfold bind at 1, modify at 1.
  unfold gets at 1.
  set (s1 := set_projects s _).
  unfold bind at 1.
  assert (Hcols : exists s2,
    match ProjectService.up_columns d with
    | Some newColumns =>
        modify (fun s0 => set_columns s0
          (filter (fun c => negb (c_projectId c =? p_id p)%nat) (columns s0))) ;;;
        modify (fun s0 => set_columns s0
          (columns s0 ++ map (fun col => match col with
                                         | (n, o, c) => mkColumn n o c (p_id p)
                                         end) newColumns))
    | None => ret tt
    end s1 = Ok (tt, s2)
    /\ projects s2 = projects s1 /\ members s2 = members s1
    /\ columns s2 = columnsAfterUpdate s (p_id p) d
    /\ tasks s2 = tasks s1 /\ nextId s2 = nextId s1).
  { unfold columnsAfterUpdate.
    destruct (ProjectService.up_columns d) as [given|];
      eexists; (split; [reflexivity|]); cbn; auto. }
  destruct Hcols as (s2 & E2 & P2 & M2 & C2 & T2 & N2).
  rewrite E2.
  destruct (keepsProjects_then _
              (ret (ProjectService.mkUpdatedProject
                      (ProjectService.applyProjectUpdate d (clock s) p)
                      (members_of (p_id p) s1)
                      (orderBy (fun a b => (c_order a <=? c_order b)%Z)
                               (columns_of (p_id p) s1))
                      (tags_of (p_id p) s1)))
              s2 (keepsProjects_replaceTags (p_id p) (ProjectService.up_tags d)))
    as (s3 & E3 & P3 & M3 & C3 & T3 & N3).
  exists s3. split.
  - cbn [clock s1 set_projects]. exact E3.
  - rewrite P3, M3, C3, T3, P2, M2, C2, T2. cbn [s1 projects members tasks set_projects].
    repeat split; try reflexivity.
    rewrite N2 in N3. exact N3.
Qed.

Lemma updateProject_head (s : Store) (p : Project)
      (d : ProjectService.UpdateData) (userId : Id) :
  uniqueProjectIds s -> In p (projects s) ->
  (canAccess s userId p = false ->
   ProjectService.updateProject (p_id p) d userId s = Err NotFoundOrDenied)
  /\ (canAccess s userId p = true ->
      ProjectService.notEditor (projectMember_findUnique userId (p_id p) s) = true ->
      ProjectService.updateProject (p_id p) d userId s
      = Err (InsufficientPermissions "update this project")).
Proof.
  intros Hnd Hin. split.
  - intro Hacc. unfold ProjectService.updateProject. unfold bind at 1.
    rewrite getProjectById_unfold, find_project_by_key, Hacc by assumption.
    reflexivity.
  - intros Hacc Hne. unfold ProjectService.updateProject. unfold bind at 1.
    rewrite getProjectById_unfold, find_project_by_key, Hacc by assumption.
    cbn [detailsOf pd_members]. rewrite userMember_findUnique, Hne.
    reflexivity.
Qed.

(** X1. [updateProject] succeeds exactly for a caller whose member row
    on the project has role OWNER or ADMIN.  A caller who can access
    the project without such a row, the owner of a project whose member
    row is missing included, gets "Insufficient permissions to update
    this project"; one who is neither owner nor member gets "Project
    not found or access denied". *)
Theorem updateProject_needs_editor_row :
  forall (s : Store) (p : Project) (d : ProjectService.UpdateData) (userId : Id),
    uniqueProjectIds s ->
    In p (projects s) ->
    ((exists r, ProjectService.updateProject (p_id p) d userId s = Ok r)
     <-> holdsRole s (p_id p) userId "OWNER"
         \/ holdsRole s (p_id p) userId "ADMIN")
    /\ (canAccess s userId p = true ->
        ~ holdsRole s (p_id p) userId "OWNER" ->
        ~ holdsRole s (p_id p) userId "ADMIN" ->
        ProjectService.updateProject (p_id p) d userId s
        = Err (InsufficientPermissions "update this project"))
    /\ (canAccess s userId p = false ->
        ProjectService.updateProject (p_id p) d userId s = Err NotFoundOrDenied).
Proof.
  intros s p d userId Hnd Hin.
  destruct (updateProject_head s p d userId Hnd Hin) as [Hdenied Hplain].
  pose proof (notEditor_false_iff s (p_id p) userId) as Hed.
  assert (Hins : canAccess s userId p = true ->
                 ~ holdsRole s (p_id p) userId "OWNER" ->
                 ~ holdsRole s (p_id p) userId "ADMIN" ->
                 ProjectService.updateProject (p_id p) d userId s
                 = Err (InsufficientPermissions "update this project")).
  { intros Hacc H1 H2. apply Hplain; [exact Hacc|].
    destruct (ProjectService.notEditor _); [reflexivity|].
    destruct Hed as [Hed _]. destruct (Hed eq_refl); contradiction. }
  split; [|split; assumption].
  split.
  - intros [r Hr].
    destruct (canAccess s userId p) eqn:Hacc.
    + destruct (ProjectService.notEditor
                  (projectMember_findUnique userId (p_id p) s)) eqn:Hne.
      * rewrite (Hplain eq_refl eq_refl) in Hr. discriminate.
      * apply Hed. reflexivity.
    + rewrite (Hdenied eq_refl) in Hr. discriminate.
  - intro Hrole.
    destruct (updateProject_run s p d userId Hnd Hin Hrole) as (s' & Hrun & _).
    eauto.
Qed.

Lemma updateProject_needs_editor_row_witness :
  (exists r, ProjectService.updateProject Sample.sprintId Sample.twoColumns
               Sample.carol Sample.team = Ok r)
  /\ ProjectService.updateProject Sample.sprintId Sample.twoColumns
       Sample.bob Sample.team
     = Err (InsufficientPermissions "update this project")
  /\ ProjectService.updateProject Sample.sprintId Sample.twoColumns
       Sample.dave Sample.team = Err NotFoundOrDenied.
Proof.
  assert (Hnd : uniqueProjectIds Sample.team)
    by (unfold uniqueProjectIds; cbn; constructor; [intros []|constructor]).
  assert (Hin : In Sample.sprint (projects Sample.team))
    by (cbn; left; reflexivity).
  split; [|split].
  - apply (updateProject_needs_editor_row Sample.team Sample.sprint
             Sample.twoColumns Sample.carol Hnd Hin).
    right. reflexivity.
  - apply (updateProject_needs_editor_row Sample.team Sample.sprint
             Sample.twoColumns Sample.bob Hnd Hin).
    + reflexivity.
    + vm_compute. discriminate.
    + vm_compute. discriminate.
  - apply (updateProject_needs_editor_row Sample.team Sample.sprint
             Sample.twoColumns Sample.dave Hnd Hin).
    reflexivity.
Defined.

Lemma projectsAfterUpdate_ids (s : Store) (projectId : Id)
      (d : ProjectService.UpdateData) :
  map p_id (projectsAfterUpdate s projectId d) = map p_id (projects s).
Proof.
  unfold projectsAfterUpdate. rewrite map_map. apply map_ext.
  intro x. destruct (p_id x =? projectId)%nat; reflexivity.
Qed.

Lemma filter_everything {A} (f : A -> bool) (l : list A) :
  (forall x, In x l -> f x = true) -> filter f l = l.
Proof.
  intro H. induction l as [|x l IH]; cbn; [reflexivity|].
  rewrite (H x (or_introl eq_refl)). f_equal. apply IH.
  intros y Hy. apply H. now right.
Qed.

Lemma columns_of_after_update (s : Store) (p : Project)
      (d : ProjectService.UpdateData) (s' : Store) :
  columns s' = columnsAfterUpdate s (p_id p) d ->
  columns_of (p_id p) s'
  = match ProjectService.up_columns d with
    | Some given => columnRows (p_id p) given
    | None => columns_of (p_id p) s
    end
  /\ forall other, other <> p_id p -> columns_of other s' = columns_of other s.
Proof.
  intro Hc. unfold columns_of, columnsAfterUpdate in *. rewrite Hc.
  destruct (ProjectService.up_columns d) as [given|]; [|auto].
  split.
  - rewrite filter_app, filter_nothing, filter_everything; [reflexivity| |].
    + intros c Hin. apply in_map_iff in Hin.
      destruct Hin as ([[n o] col] & <- & _). cbn. apply Nat.eqb_refl.
    + intros c Hin. apply filter_In in Hin. destruct Hin as [_ Hin].
      now apply negb_true_iff in Hin.
  - intros other Hother. rewrite filter_app, filter_filter_comm.
    rewrite (filter_nothing _ (columnRows (p_id p) given)), app_nil_r.
    + apply filter_everything. intros c Hin. apply filter_In in Hin.
      destruct Hin as [_ Hin]. apply Nat.eqb_eq in Hin. rewrite Hin.
      apply negb_true_iff, Nat.eqb_neq. exact Hother.
    + intros c Hin. apply in_map_iff in Hin.
      destruct Hin as ([[n o] col] & <- & _). cbn.
      apply Nat.eqb_neq. auto.
Qed.

(** X2. When an editor passes columns to [updateProject], they replace
    the columns of the project wholesale: a following [getProjectById]
    returns exactly the given columns, ordered by [order], and none at
    all for an empty array, while the columns of other projects stay.
    The project that [updateProject] itself returns still carries the
    columns from before the call. *)
Theorem updateProject_replaces_columns :
  forall (s : Store) (p : Project) (d : ProjectService.UpdateData)
         (userId : Id) (given : list (string * Z * string)),
    uniqueProjectIds s ->
    In p (projects s) ->
    holdsRole s (p_id p) userId "OWNER" \/ holdsRole s (p_id p) userId "ADMIN" ->
    ProjectService.up_columns d = Some given ->
    exists u s' after,
      ProjectService.updateProject (p_id p) d userId s = Ok (u, s')
      /\ ProjectService.upd_columns u
         = orderBy (fun a b => (c_order a <=? c_order b)%Z) (columns_of (p_id p) s)
      /\ ProjectService.getProjectById (p_id p) userId s' = Ok (after, s')
      /\ pd_columns after
         = orderBy (fun a b => (c_order a <=? c_order b)%Z)
                   (columnRows (p_id p) given)
      /\ (forall other, other <> p_id p -> columns_of other s' = columns_of other s).
Proof.
  intros s p d userId given Hnd Hin Hrole Hgiven.
  destruct (updateProject_run s p d userId Hnd Hin Hrole)
    as (s' & Hrun & Hprojects & Hmembers & Hcolumns & _ & _).
  destruct (columns_of_after_update s p d s' Hcolumns) as [Hmine Hothers].
  rewrite Hgiven in Hmine.
  set (p' := ProjectService.applyProjectUpdate d (clock s) p).
  assert (Hnd' : uniqueProjectIds s').
  { unfold uniqueProjectIds. now rewrite Hprojects, projectsAfterUpdate_ids. }
  assert (Hin' : In p' (projects s')).
  { rewrite Hprojects. unfold projectsAfterUpdate. apply in_map_iff.
    exists p. now rewrite Nat.eqb_refl. }
  assert (Hacc' : canAccess s' userId p' = true).
  { pose proof (editor_canAccess s p userId Hrole) as Hacc.
    unfold canAccess, projectMember_findUnique in *. now rewrite Hmembers. }
  eexists. exists s', (detailsOf s' p').
  split; [exact Hrun|]. split; [reflexivity|]. split.
  - change (p_id p) with (p_id p').
    now rewrite getProjectById_unfold, find_project_by_key, Hacc'.
  - split; [|exact Hothers].
    cbn [detailsOf pd_columns]. change (p_id p') with (p_id p).
    now rewrite Hmine.
Qed.

Lemma updateProject_replaces_columns_witness :
  exists u s' after,
    ProjectService.updateProject Sample.sprintId Sample.twoColumns Sample.alice
      Sample.team = Ok (u, s')
    /\ map c_name (ProjectService.upd_columns u)
       = ["To Do"; "In Progress"; "Review"; "Done"]
    /\ ProjectService.getProjectById Sample.sprintId Sample.alice s'
       = Ok (after, s')
    /\ map c_name (pd_columns after) = ["Now"; "Later"].
Proof.
  destruct (updateProject_replaces_columns Sample.team Sample.sprint
              Sample.twoColumns Sample.alice
              [("Later", 1%Z, "#111111"); ("Now", 0%Z, "#222222")])
    as (u & s' & after & Hrun & Hold & Hget & Hnew & _).
  - unfold uniqueProjectIds. cbn. constructor; [intros []|constructor].
  - cbn. left. reflexivity.
  - left. reflexivity.
  - reflexivity.
  - exists u, s', after. split; [exact Hrun|].
    split; [rewrite Hold; reflexivity|].
    split; [exact Hget|]. rewrite Hnew. reflexivity.
Defined.

Lemma deleteProject_run (s : Store) (p : Project) (userId : Id) :
  uniqueProjectIds s -> In p (projects s) ->
  ProjectService.deleteProject (p_id p) userId s
  = if negb (canAccess s userId p)
    then ProjectService.Refused (ProjectService.Thrown NotFoundOrDenied)
    else if negb (p_ownerId p =? userId)%nat
    then ProjectService.Refused ProjectService.OnlyOwnerCanDelete
    else match ProjectService.project_delete (p_id p) s with
         | Ok (_, s') => ProjectService.Deleted s'
         | Err e => ProjectService.Refused (ProjectService.Thrown e)
         end.
Proof.
  intros Hnd Hin. unfold ProjectService.deleteProject.
  rewrite getProjectById_unfold, find_project_by_key by assumption.
  destruct (canAccess s userId p); reflexivity.
Qed.

(** X3. [deleteProject] deletes for the user in the project's owner
    field and for nobody else: any other user who can access the
    project, an ADMIN included, gets "Only project owner can delete the
    project", and a user who is neither owner nor member gets "Project
    not found or access denied".  After the deletion the id names no
    project for anyone, the former owner included, and the other
    project rows are as they were. *)
Theorem deleteProject_owner_only :
  forall (s : Store) (p : Project) (userId : Id),
    uniqueProjectIds s ->
    In p (projects s) ->
    (userId = p_ownerId p ->
     exists s',
       ProjectService.deleteProject (p_id p) userId s = ProjectService.Deleted s'
       /\ (forall anyone,
             ProjectService.getProjectById (p_id p) anyone s'
             = Err NotFoundOrDenied)
       /\ (forall q, In q (projects s') <-> In q (projects s) /\ q <> p))
    /\ (userId <> p_ownerId p -> canAccess s userId p = true ->
        ProjectService.deleteProject (p_id p) userId s
        = ProjectService.Refused ProjectService.OnlyOwnerCanDelete)
    /\ (canAccess s userId p = false ->
        ProjectService.deleteProject (p_id p) userId s
        = ProjectService.Refused (ProjectService.Thrown NotFoundOrDenied)).
Proof.
  intros s p userId Hnd Hin.
  rewrite (deleteProject_run s p userId Hnd Hin).
  split; [|split].
  - intros ->.
    assert (Hacc : canAccess s (p_ownerId p) p = true)
      by (unfold canAccess; now rewrite Nat.eqb_refl).
    rewrite Hacc. rewrite Nat.eqb_refl. cbn [negb].
    unfold ProjectService.project_delete, bind, gets, modify.
    rewrite (find_by_key p_id (projects s) p Hnd Hin).
    eexists. split; [reflexivity|]. cbn [projects]. split.
    + intro anyone. rewrite getProjectById_unfold. cbn [projects].
      replace (List.find _ _) with (@None Project); [reflexivity|].
      symmetry. apply find_none_iff. intros q Hq.
      apply filter_In in Hq. destruct Hq as [_ Hq].
      apply negb_true_iff in Hq. now rewrite Hq.
    + intro q. rewrite filter_In, negb_true_iff, Nat.eqb_neq. split.
      * intros [Hq Hid]. split; [exact Hq|]. intros ->. now apply Hid.
      * intros [Hq Hne]. split; [exact Hq|]. intro Hid. apply Hne.
        exact (key_injective p_id (projects s) q p Hnd Hq Hin Hid).
  - intros Hne Hacc. rewrite Hacc. cbn [negb].
    apply not_eq_sym, Nat.eqb_neq in Hne. now rewrite Hne.
  - intros Hacc. now rewrite Hacc.
Qed.

Lemma deleteProject_owner_only_witness :
  (exists s',
      ProjectService.deleteProject Sample.sprintId Sample.alice Sample.team
      = ProjectService.Deleted s'
      /\ ProjectService.getProjectById Sample.sprintId Sample.alice s'
         = Err NotFoundOrDenied)
  /\ ProjectService.deleteProject Sample.sprintId Sample.carol Sample.team
     = ProjectService.Refused ProjectService.OnlyOwnerCanDelete
  /\ ProjectService.deleteProject Sample.sprintId Sample.dave Sample.team
     = ProjectService.Refused (ProjectService.Thrown NotFoundOrDenied).
Proof.
  assert (Hnd : uniqueProjectIds Sample.team)
    by (unfold uniqueProjectIds; cbn; constructor; [intros []|constructor]).
  assert (Hin : In Sample.sprint (projects Sample.team))
    by (cbn; left; reflexivity).
  split; [|split].
  - destruct (deleteProject_owner_only Sample.team Sample.sprint Sample.alice
                Hnd Hin) as (Hown & _ & _).
    destruct (Hown eq_refl) as (s' & Hdel & Hgone & _).
    exists s'. split; [exact Hdel|apply Hgone].
  - apply (deleteProject_owner_only Sample.team Sample.sprint Sample.carol
             Hnd Hin).
    + vm_compute. discriminate.
    + reflexivity.
  - apply (deleteProject_owner_only Sample.team Sample.sprint Sample.dave
             Hnd Hin).
    reflexivity.
Defined.

Lemma createProject_fresh (s : Store) (projectData : ProjectService.ProjectData)
      (ownerId : Id) :
  wellFormed s ->
  exists s',
    ProjectService.createProject projectData ownerId s
    = Ok (newProject s projectData ownerId, s')
    /\ projects s' = (projects s ++ [newProject s projectData ownerId])%list
    /\ members s' = (members s ++ [mkMember ownerId (nextId s) "OWNER"])%list
    /\ uniqueProjectIds s'
    /\ (forall userId,
          ProjectService.getProjectById (nextId s) userId s
          = Err NotFoundOrDenied).
Proof.
  intros (Hnd & Hp & Hm & Hc).
  destruct (createProject_run s projectData ownerId)
    as (s' & Hrun & Hprojects & Hmembers & _).
  exists s'. repeat split; try assumption.
  - unfold uniqueProjectIds. rewrite Hprojects, map_app. cbn [map newProject p_id].
    apply NoDup_app; [exact Hnd | constructor; [intros []|constructor] |].
    intros i Hi [<-|[]]. apply in_map_iff in Hi.
    destruct Hi as (q & Hq & Hin). apply Hp in Hin. lia.
  - intro userId. rewrite getProjectById_unfold.
    replace (List.find _ (projects s)) with (@None Project); [reflexivity|].
    symmetry. apply find_none_iff. intros q Hq. apply Hp in Hq.
    apply Nat.lt_neq, Nat.eqb_neq in Hq. now rewrite Hq.
Qed.

(** X4. On a well-formed store a project just created is visible to
    its creator and to nobody else: [getProjectById] on the new id
    succeeds exactly for the owner, who holds role OWNER on it; before
    the call the id named no project. *)
Theorem createProject_visible_to_owner_only :
  forall (s : Store) (projectData : ProjectService.ProjectData) (ownerId : Id),
    wellFormed s ->
    exists p s',
      ProjectService.createProject projectData ownerId s = Ok (p, s')
      /\ (forall userId,
            (exists d, ProjectService.getProjectById (p_id p) userId s'
                       = Ok (d, s'))
            <-> userId = ownerId)
      /\ (forall userId, userId <> ownerId ->
            ProjectService.getProjectById (p_id p) userId s'
            = Err NotFoundOrDenied)
      /\ holdsRole s' (p_id p) ownerId "OWNER"
      /\ (forall userId,
            ProjectService.getProjectById (p_id p) userId s
            = Err NotFoundOrDenied).
Proof.
  intros s projectData ownerId Hwf.
  destruct (createProject_fresh s projectData ownerId Hwf)
    as (s' & Hrun & Hprojects & Hmembers & Hnd' & Hold).
  set (p := newProject s projectData ownerId) in *.
  assert (Hin' : In p (projects s'))
    by (rewrite Hprojects; apply in_or_app; right; now left).
  assert (Hrow : forall userId,
    projectMember_findUnique userId (p_id p) s'
    = if (ownerId =? userId)%nat
      then Some (mkMember ownerId (nextId s) "OWNER") else None).
  { intro userId. unfold projectMember_findUnique. rewrite Hmembers, find_app.
    replace (List.find _ (members s)) with (@None ProjectMember).
    - cbn. rewrite Nat.eqb_refl, andb_true_r.
      destruct (ownerId =? userId)%nat; reflexivity.
    - symmetry. apply find_none_iff. intros m Hm.
      destruct Hwf as (_ & _ & Hmw & _). apply Hmw in Hm.
      cbn [p newProject p_id].
      apply Nat.lt_neq, Nat.eqb_neq in Hm. rewrite Hm. apply andb_false_r. }
  assert (Hacc : forall userId, canAccess s' userId p = (ownerId =? userId)%nat).
  { intro userId. unfold canAccess. rewrite Hrow. cbn [p newProject p_ownerId].
    destruct (ownerId =? userId)%nat; reflexivity. }
  assert (Hget : forall userId,
    ProjectService.getProjectById (p_id p) userId s'
    = if (ownerId =? userId)%nat then Ok (detailsOf s' p, s')
      else Err NotFoundOrDenied).
  { intro userId.
    rewrite getProjectById_unfold, find_project_by_key, Hacc by assumption.
    destruct (ownerId =? userId)%nat; reflexivity. }
  exists p, s'. split; [exact Hrun|]. split; [|split; [|split]].
  - intro userId. rewrite Hget.
    destruct (Nat.eqb_spec ownerId userId) as [->|Hne].
    + split; eauto.
    + split; [intros [d Hd]; discriminate | intro E; congruence].
  - intros userId Hne. rewrite Hget.
    apply not_eq_sym, Nat.eqb_neq in Hne. now rewrite Hne.
  - unfold holdsRole, roleOf. rewrite Hrow, Nat.eqb_refl. reflexivity.
  - exact Hold.
Qed.

Lemma createProject_visible_to_owner_only_witness :
  exists p s',
    ProjectService.createProject Sample.sideData Sample.bob Sample.team
    = Ok (p, s')
    /\ (exists d, ProjectService.getProjectById (p_id p) Sample.bob s'
                  = Ok (d, s'))
    /\ ProjectService.getProjectById (p_id p) Sample.alice s'
       = Err NotFoundOrDenied.
Proof.
  destruct (createProject_visible_to_owner_only Sample.team Sample.sideData
              Sample.bob)
    as (p & s' & Hrun & Hiff & Hothers & _).
  - unfold wellFormed, uniqueProjectIds. vm_compute.
    split; [constructor; [intros []|constructor]|].
    split; [intros q [<-|[]]; cbn; lia|].
    split; [intros m [<-|[<-|[<-|[]]]]; cbn; lia|].
    intros c [<-|[<-|[<-|[<-|[]]]]]; cbn; lia.
  - exists p, s'. split; [exact Hrun|]. split.
    + apply Hiff. reflexivity.
    + apply Hothers. vm_compute. discriminate.
Defined.

(** ** Adding and removing members *)

Lemma addMember_head (s : Store) (p : Project) (email : string)
      (role : option string) (userId : Id) :
  uniqueProjectIds s -> In p (projects s) ->
  holdsRole s (p_id p) userId "OWNER" \/ holdsRole s (p_id p) userId "ADMIN" ->
  (List.find (fun x => (u_email x =? JS.toLowerCase email)%string) (users s)
   = None ->
   ProjectService.addMember (p_id p) email role userId s = Err UserNotFound)
  /\ (forall u,
        List.find (fun x => (u_email x =? JS.toLowerCase email)%string) (users s)
        = Some u ->
        isMemberOf s (p_id p) (u_id u) ->
        ProjectService.addMember (p_id p) email role userId s = Err AlreadyMember).
Proof.
  intros Hnd Hin Hrole.
  pose proof (editor_canAccess s p userId Hrole) as Hacc.
  apply notEditor_false_iff in Hrole.
  split.
  - intro Hu. unfold ProjectService.addMember. unfold bind at 1.
    rewrite getProjectById_unfold, find_project_by_key, Hacc by assumption.
    cbn [detailsOf pd_members]. rewrite userMember_findUnique, Hrole.
    unfold bind at 1, gets at 1. rewrite Hu. reflexivity.
  - intros u Hu [m Hm]. unfold ProjectService.addMember. unfold bind at 1.
    rewrite getProjectById_unfold, find_project_by_key, Hacc by assumption.
    cbn [detailsOf pd_members]. rewrite userMember_findUnique, Hrole.
    unfold bind at 1, gets at 1. rewrite Hu.
    unfold bind at 1, gets at 1. rewrite Hm. reflexivity.
Qed.

Lemma findUnique_after_append (s : Store) (row : ProjectMember)
      (userId projectId : Id) :
  projectMember_findUnique userId projectId
    (set_members s (members s ++ [row]))
  = match projectMember_findUnique userId projectId s with
    | Some m => Some m
    | None =>
        if (m_userId row =? userId)%nat && (m_projectId row =? projectId)%nat
        then Some row else None
    end.
Proof.
  unfold projectMember_findUnique. cbn [members set_members].
  rewrite find_app. destruct (List.find _ (members s)); reflexivity.
Qed.

Lemma holdsRole_after_append (s : Store) (row : ProjectMember)
      (userId projectId : Id) (r : string) :
  holdsRole s projectId userId r ->
  holdsRole (set_members s (members s ++ [row])) projectId userId r.
Proof.
  unfold holdsRole, roleOf. rewrite findUnique_after_append.
  destruct (projectMember_findUnique userId projectId s); [auto|discriminate].
Qed.

Lemma addMember_result (s : Store) (p : Project) (u : User) (email : string)
      (role : option string) (userId : Id) :
  uniqueProjectIds s -> In p (projects s) ->
  holdsRole s (p_id p) userId "OWNER" \/ holdsRole s (p_id p) userId "ADMIN" ->
  List.find (fun x => (u_email x =? JS.toLowerCase email)%string) (users s)
  = Some u ->
  projectMember_findUnique (u_id u) (p_id p) s = None ->
  let s' := set_members s
              (members s ++ [mkMember (u_id u) (p_id p)
                               (JS.toUpperCase (orElse role "MEMBER"))]) in
  ProjectService.addMember (p_id p) email role userId s
  = Ok (detailsOf s' p, s').
Proof.
  intros Hnd Hin Hrole Hu Hnew s'.
  pose proof (editor_canAccess s p userId Hrole) as Hacc.
  assert (Hacc' : canAccess s' userId p = true).
  { apply editor_canAccess.
    destruct Hrole as [H|H]; [left|right];
      exact (holdsRole_after_append s _ _ _ _ H). }
  apply notEditor_false_iff in Hrole.
  unfold ProjectService.addMember. unfold bind at 1.
  rewrite getProjectById_unfold, find_project_by_key, Hacc by assumption.
  cbn [detailsOf pd_members]. rewrite userMember_findUnique, Hrole.
  unfold bind at 1, gets at 1. rewrite Hu.
  unfold bind at 1, gets at 1. rewrite Hnew. cbn [isSome].
  unfold bind at 1, modify at 1. fold s'.
  rewrite getProjectById_unfold.
  now rewrite (find_project_by_key s' userId p Hnd Hin), Hacc'.
Qed.

(** X5. For a caller who holds OWNER or ADMIN, and an email and a
    role of ASCII characters, [addMember] looks the user up by the
    lower-cased email: it fails with "User not found" when no user has
    it and with "User is already a member of this project" when that
    user has a member row.  Otherwise it succeeds: the user then has a
    member row with the role in upper case (MEMBER when none is given)
    and can read the project, and the same call made again fails with
    "User is already a member".  (JavaScript lower-cases and
    upper-cases letters outside ASCII too; the statement is about the
    inputs on which [JS.toLowerCase] and [JS.toUpperCase] are the
    JavaScript functions.) *)
Theorem addMember_cases :
  forall (s : Store) (p : Project) (email : string) (role : option string)
         (userId : Id),
    JS.isAscii email = true ->
    (forall r, role = Some r -> JS.isAscii r = true) ->
    uniqueProjectIds s ->
    In p (projects s) ->
    holdsRole s (p_id p) userId "OWNER" \/ holdsRole s (p_id p) userId "ADMIN" ->
    match List.find (fun x => (u_email x =? JS.toLowerCase email)%string)
                    (users s) with
    | None =>
        ProjectService.addMember (p_id p) email role userId s = Err UserNotFound
    | Some u =>
        (isMemberOf s (p_id p) (u_id u) ->
         ProjectService.addMember (p_id p) email role userId s
         = Err AlreadyMember)
        /\ (projectMember_findUnique (u_id u) (p_id p) s = None ->
            exists d s',
              ProjectService.addMember (p_id p) email role userId s = Ok (d, s')
              /\ projectMember_findUnique (u_id u) (p_id p) s'
                 = Some (mkMember (u_id u) (p_id p)
                           (JS.toUpperCase (orElse role "MEMBER")))
              /\ (exists d', ProjectService.getProjectById (p_id p) (u_id u) s'
                             = Ok (d', s'))
              /\ ProjectService.addMember (p_id p) email role userId s'
                 = Err AlreadyMember)
    end.
Proof.
  intros s p email role userId _ _ Hnd Hin Hrole.
  destruct (addMember_head s p email role userId Hnd Hin Hrole) as [Hnone Hdup].
  destruct (List.find _ (users s)) as [u|] eqn:Hu; [|auto].
  split; [apply Hdup; reflexivity|].
  intro Hnew.
  pose proof (addMember_result s p u email role userId Hnd Hin Hrole Hu Hnew)
    as Hrun.
  cbv zeta in Hrun.
  set (row := mkMember (u_id u) (p_id p) (JS.toUpperCase (orElse role "MEMBER")))
    in *.
  set (s' := set_members s (members s ++ [row])) in *.
  assert (Hrow : projectMember_findUnique (u_id u) (p_id p) s' = Some row).
  { unfold s'. rewrite findUnique_after_append, Hnew. cbn [row m_userId m_projectId].
    now rewrite !Nat.eqb_refl. }
  exists (detailsOf s' p), s'. split; [exact Hrun|]. split; [exact Hrow|]. split.
  - exists (detailsOf s' p).
    rewrite getProjectById_unfold, (find_project_by_key s' (u_id u) p Hnd Hin).
    unfold canAccess. rewrite Hrow. now rewrite orb_true_r.
  - assert (Hrole' : holdsRole s' (p_id p) userId "OWNER"
                     \/ holdsRole s' (p_id p) userId "ADMIN")
      by (destruct Hrole as [H|H]; [left|right];
          exact (holdsRole_after_append s _ _ _ _ H)).
    destruct (addMember_head s' p email role userId Hnd Hin Hrole') as [_ Hdup'].
    apply (Hdup' u); [exact Hu|]. exists row. exact Hrow.
Qed.

Lemma addMember_cases_witness :
  exists d s',
    ProjectService.addMember Sample.sprintId "Dave@X.com" (Some "admin")
      Sample.carol Sample.team = Ok (d, s')
    /\ projectMember_findUnique Sample.dave Sample.sprintId s'
       = Some (mkMember Sample.dave Sample.sprintId "ADMIN")
    /\ ProjectService.addMember Sample.sprintId "Dave@X.com" (Some "admin")
         Sample.carol s' = Err AlreadyMember.
Proof.
  pose proof (addMember_cases Sample.team Sample.sprint "Dave@X.com"
                (Some "admin") Sample.carol) as H.
  assert (Hnd : uniqueProjectIds Sample.team)
    by (unfold uniqueProjectIds; cbn; constructor; [intros []|constructor]).
  assert (Hin : In Sample.sprint (projects Sample.team))
    by (cbn; left; reflexivity).
  assert (Hrole : holdsRole Sample.team (p_id Sample.sprint) Sample.carol "OWNER"
                  \/ holdsRole Sample.team (p_id Sample.sprint) Sample.carol
                       "ADMIN")
    by (right; reflexivity).
  assert (Hascii : forall r, Some "admin" = Some r -> JS.isAscii r = true)
    by (intros r Hr; injection Hr as <-; reflexivity).
  specialize (H eq_refl Hascii Hnd Hin Hrole).
  change (List.find _ (users Sample.team))
    with (Some (mkUser Sample.dave "Dave" "dave@x.com" None)) in H.
  destruct H as [_ H].
  destruct (H eq_refl) as (d & s' & Hrun & Hrow & _ & Hagain).
  exists d, s'. auto.
Defined.


Lemma removeMember_result (s : Store) (p : Project) (memberUserId userId : Id) :
  uniqueProjectIds s -> In p (projects s) ->
  holdsRole s (p_id p) userId "OWNER" \/ holdsRole s (p_id p) userId "ADMIN" ->
  memberUserId <> p_ownerId p ->
  ProjectService.removeMember (p_id p) memberUserId userId s
  = if isSome (projectMember_findUnique memberUserId (p_id p) s)
    then Ok (tt, set_members s
                   (filter (fun m => negb ((m_userId m =? memberUserId)%nat
                                           && (m_projectId m =? p_id p)%nat))
                           (members s)))
    else Err RecordNotFound.
Proof.
  intros Hnd Hin Hrole Hne.
  rewrite removeMember_unfold by assumption.
  rewrite (editor_canAccess s p userId Hrole). cbn [negb].
  apply notEditor_false_iff in Hrole. rewrite Hrole.
  apply not_eq_sym, Nat.eqb_neq in Hne. rewrite Hne.
  unfold ProjectService.projectMember_delete, bind, gets, modify.
  destruct (isSome _); reflexivity.
Qed.

Lemma findUnique_after_removal (s : Store) (gone project userId projectId : Id) :
  projectMember_findUnique userId projectId
    (set_members s
       (filter (fun m => negb ((m_userId m =? gone)%nat
                               && (m_projectId m =? project)%nat))
               (members s)))
  = if (userId =? gone)%nat && (projectId =? project)%nat
    then None
    else projectMember_findUnique userId projectId s.
Proof.
  unfold projectMember_findUnique. cbn [members set_members].
  rewrite find_filter.
  destruct ((userId =? gone)%nat && (projectId =? project)%nat) eqn:Hsame.
  - apply andb_prop in Hsame. destruct Hsame as [H1 H2].
    apply Nat.eqb_eq in H1, H2. subst.
    apply find_none_iff. intros m _.
    destruct ((m_userId m =? gone)%nat && (m_projectId m =? project)%nat);
      reflexivity.
  - apply find_pointwise. intro m.
    destruct (Nat.eqb_spec (m_userId m) userId) as [->|];
      destruct (Nat.eqb_spec (m_projectId m) projectId) as [->|];
      cbn; rewrite ?andb_false_r; try reflexivity.
    now rewrite Hsame.
Qed.

(** X6. An editor (OWNER or ADMIN) can remove any member but the
    owner, another ADMIN or the editor themself included.  The removed
    user then has no member row and, unless they own the project, can
    no longer read it; every other member row stays.  Nothing else is
    written: the tasks assigned to the removed user, their watcher
    rows and their comments remain.  Removing a user who has no member
    row fails with the store's record-not-found error. *)
Theorem removeMember_removes_the_row_only :
  forall (s : Store) (p : Project) (memberUserId userId : Id),
    uniqueProjectIds s ->
    In p (projects s) ->
    holdsRole s (p_id p) userId "OWNER" \/ holdsRole s (p_id p) userId "ADMIN" ->
    memberUserId <> p_ownerId p ->
    (isMemberOf s (p_id p) memberUserId ->
     exists s',
       ProjectService.removeMember (p_id p) memberUserId userId s = Ok (tt, s')
       /\ projectMember_findUnique memberUserId (p_id p) s' = None
       /\ ProjectService.getProjectById (p_id p) memberUserId s'
          = Err NotFoundOrDenied
       /\ (forall u projectId,
             u <> memberUserId \/ projectId <> p_id p ->
             projectMember_findUnique u projectId s'
             = projectMember_findUnique u projectId s)
       /\ projects s' = projects s /\ tasks s' = tasks s
       /\ watchers s' = watchers s /\ comments s' = comments s)
    /\ (projectMember_findUnique memberUserId (p_id p) s = None ->
        ProjectService.removeMember (p_id p) memberUserId userId s
        = Err RecordNotFound).
Proof.
  intros s p memberUserId userId Hnd Hin Hrole Hne.
  rewrite (removeMember_result s p memberUserId userId Hnd Hin Hrole Hne).
  split.
  - intros [m Hm]. rewrite Hm. cbn [isSome].
    eexists. split; [reflexivity|].
    assert (Hgone : projectMember_findUnique memberUserId (p_id p)
                      (set_members s
                         (filter (fun m0 => negb ((m_userId m0 =? memberUserId)%nat
                                                  && (m_projectId m0 =? p_id p)%nat))
                                 (members s))) = None).
    { rewrite findUnique_after_removal. now rewrite !Nat.eqb_refl. }
    split; [exact Hgone|]. split.
    + rewrite getProjectById_unfold, find_project_by_key by assumption.
      unfold canAccess. rewrite Hgone.
      apply not_eq_sym, Nat.eqb_neq in Hne. now rewrite Hne.
    + split; [|cbn; auto].
      intros u projectId Hother. rewrite findUnique_after_removal.
      destruct Hother as [H|H]; apply Nat.eqb_neq in H; rewrite H;
        rewrite ?andb_false_r; reflexivity.
  - intros Hnone. now rewrite Hnone.
Qed.

Lemma removeMember_removes_the_row_only_witness :
  exists s',
    ProjectService.removeMember Sample.sprintId Sample.bob Sample.carol
      Sample.withReview = Ok (tt, s')
    /\ ProjectService.getProjectById Sample.sprintId Sample.bob s'
       = Err NotFoundOrDenied
    /\ tasks s' = tasks Sample.withReview.
Proof.
  destruct (removeMember_removes_the_row_only Sample.withReview Sample.sprint
              Sample.bob Sample.carol) as [Hrun _].
  - unfold uniqueProjectIds. vm_compute. constructor; [intros []|constructor].
  - vm_compute. left. reflexivity.
  - right. vm_compute. reflexivity.
  - vm_compute. discriminate.
  - destruct Hrun as (s' & Hrun & _ & Hget & _ & _ & Htasks & _).
    + exists (mkMember Sample.bob Sample.sprintId "MEMBER"). reflexivity.
    + exists s'. auto.
Defined.


(** ** Tasks, watchers and comments *)

Lemma onlyTagTables_ret : onlyTagTables (ret tt).
Proof. intro s. exists s. repeat split; reflexivity || lia. Qed.

Lemma onlyTagTables_seq (m k : M unit) :
  onlyTagTables m -> onlyTagTables k -> onlyTagTables (m ;;; k).
Proof.
  intros Hm Hk s.
  destruct (Hm s) as (s1 & E1 & U1 & P1 & M1 & C1 & T1 & W1 & K1 & L1 & N1).
  destruct (Hk s1) as (s2 & E2 & U2 & P2 & M2 & C2 & T2 & W2 & K2 & L2 & N2).
  exists s2. unfold bind. rewrite E1, E2.
  repeat split; try congruence. lia.
Qed.

Lemma onlyTagTables_when (b : bool) (m : M unit) :
  onlyTagTables m -> onlyTagTables (when b m).
Proof. destruct b; cbn; auto using onlyTagTables_ret. Qed.

Lemma onlyTagTables_forEach {A} (l : list A) (body : A -> M unit) :
  (forall x, onlyTagTables (body x)) -> onlyTagTables (forEach l body).
Proof.
  intro H. induction l as [|x l IH]; cbn.
  - apply onlyTagTables_ret.
  - apply onlyTagTables_seq; auto.
Qed.

Lemma onlyTagTables_tagging (taskId projectId : Id) (tagName : string) :
  onlyTagTables
    (found <- gets (fun s =>
       List.find (fun g => (tag_name g =? tagName)%string
                           && (tag_projectId g =? projectId)%nat)
                 (projectTags s)) ;;
     tag <- match found with
            | Some g => ret g
            | None =>
                tid <- freshId ;;
                modify (fun s => set_projectTags s
                  (projectTags s ++ [mkTag tid tagName projectId])) ;;;
                ret (mkTag tid tagName projectId)
            end ;;
     modify (fun s => set_taskTags s
       (taskTags s ++ [mkTaskTag taskId (tag_id tag)]))).
Proof.
  intro s. unfold bind, gets.
  destruct (List.find _ (projectTags s));
    (eexists; split; [reflexivity|]; cbn; repeat split; lia).
Qed.

Lemma createTask_detail (s : Store) (taskData : TaskService.TaskData)
      (projectId creatorId : Id) :
  isMemberOf s projectId creatorId ->
  (forall a, TaskService.assigneeId taskData = Some a ->
             isMemberOf s projectId a) ->
  exists s',
    TaskService.createTask taskData projectId creatorId s
    = Ok (newTask s taskData projectId creatorId, s')
    /\ tasks s' = (tasks s ++ [newTask s taskData projectId creatorId])%list
    /\ watchers s'
       = (watchers s
          ++ newWatchers (nextId s) creatorId (TaskService.assigneeId taskData))%list
    /\ members s' = members s /\ projects s' = projects s
    /\ comments s' = comments s
    /\ nextId s < nextId s'.
Proof.
  intros [m Hm] Ha.
  unfold TaskService.createTask. unfold bind at 1.
  rewrite isProjectMember_run, Hm. cbn [isSome negb].
  unfold bind at 1.
  assert (Hcheck :
    match TaskService.assigneeId taskData with
    | Some a =>
        assigneeIsMember <- ProjectService.isProjectMember projectId a ;;
        (if negb assigneeIsMember then throw InvalidAssignee else ret tt)
    | None => ret tt
    end s = Ok (tt, s)).
  { destruct (TaskService.assigneeId taskData) as [a|] eqn:Ea; [|reflexivity].
    destruct (Ha a eq_refl) as [ma Hma].
    unfold bind. rewrite isProjectMember_run, Hma. reflexivity. }
  rewrite Hcheck. unfold bind at 1, gets at 1.
  unfold transaction. unfold bind at 1, freshId at 1.
  unfold bind at 1, gets at 1. unfold bind at 1, modify at 1.
  unfold bind at 1, TaskService.taskWatcher_create at 1, modify at 1.
  unfold bind at 1.
  set (s2 := set_watchers _ _).
  assert (Hassignee : exists s3,
    when match TaskService.assigneeId taskData with
         | Some a => negb (a =? creatorId)%nat
         | None => false
         end
      (TaskService.taskWatcher_create
         (orElse (TaskService.assigneeId taskData) creatorId) (nextId s)) s2
    = Ok (tt, s3)
    /\ watchers s3
       = (watchers s
          ++ newWatchers (nextId s) creatorId (TaskService.assigneeId taskData))%list
    /\ tasks s3 = tasks s2 /\ members s3 = members s2
    /\ projects s3 = projects s2 /\ comments s3 = comments s2
    /\ nextId s3 = nextId s2).
  { unfold newWatchers.
    destruct (TaskService.assigneeId taskData) as [a|]; cbn [orElse when].
    - destruct (a =? creatorId)%nat; cbn [negb];
        (eexists; split; [reflexivity|]);
        cbn [s2 watchers tasks members projects comments nextId set_watchers
             set_tasks set_nextId];
        rewrite <- ?app_assoc; repeat split; reflexivity.
    - eexists. split; [reflexivity|]. cbn. repeat split; reflexivity. }
  destruct Hassignee as (s3 & E3 & W3 & T3 & M3 & P3 & C3 & N3).
  rewrite E3. unfold bind at 1.
  destruct (onlyTagTables_when
              match TaskService.tags taskData with
              | Some (_ :: _) => true
              | _ => false
              end _
              (onlyTagTables_forEach (orElse (TaskService.tags taskData) []) _
                 (onlyTagTables_tagging (nextId s) projectId)) s3)
    as (s4 & E4 & _ & P4 & M4 & _ & T4 & W4 & C4 & _ & N4).
  rewrite E4. exists s4. split; [reflexivity|].
  rewrite T4, W4, M4, P4, C4, T3, W3, M3, P3, C3.
  cbn [s2 tasks members projects comments set_watchers set_tasks set_nextId].
  repeat split; try reflexivity.
  rewrite N3 in N4. cbn [s2 nextId set_watchers set_tasks set_nextId] in N4. lia.
Qed.

Lemma createTask_refused (s : Store) (taskData : TaskService.TaskData)
      (projectId creatorId : Id) :
  (projectMember_findUnique creatorId projectId s = None ->
   TaskService.createTask taskData projectId creatorId s = Err AccessDenied)
  /\ (forall a,
        isMemberOf s projectId creatorId ->
        TaskService.assigneeId taskData = Some a ->
        projectMember_findUnique a projectId s = None ->
        TaskService.createTask taskData projectId creatorId s
        = Err InvalidAssignee).
Proof.
  split.
  - intro Hc. unfold TaskService.createTask. unfold bind at 1.
    rewrite isProjectMember_run, Hc. reflexivity.
  - intros a [m Hm] Ha Hna. unfold TaskService.createTask. unfold bind at 1.
    rewrite isProjectMember_run, Hm. cbn [isSome negb].
    unfold bind at 1. rewrite Ha. unfold bind at 1.
    rewrite isProjectMember_run, Hna. reflexivity.
Qed.

Lemma createTask_ok (s s' : Store) (taskData : TaskService.TaskData)
      (projectId creatorId : Id) (t : Task) :
  TaskService.createTask taskData projectId creatorId s = Ok (t, s') ->
  isMemberOf s projectId creatorId
  /\ (forall a, TaskService.assigneeId taskData = Some a ->
                isMemberOf s projectId a).
Proof.
  intro Hrun.
  destruct (createTask_refused s taskData projectId creatorId) as [Hdenied Hbad].
  destruct (projectMember_findUnique creatorId projectId s) as [m|] eqn:Hm;
    [|rewrite (Hdenied eq_refl) in Hrun; discriminate].
  assert (Hc : isMemberOf s projectId creatorId) by (exists m; exact Hm).
  split; [exact Hc|].
  intros a Ea.
  destruct (projectMember_findUnique a projectId s) as [ma|] eqn:Hma;
    [exists ma; exact Hma|].
  rewrite (Hbad a Hc Ea Hma) in Hrun. discriminate.
Qed.

(** X7. [createTask] checks the creator first, then the assignee.  A
    creator who is not a member gets "Access denied - not a project
    member" whoever the assignee is; a member who names an assignee
    outside the project gets "Assignee must be a project member"; and
    a member with no assignee or with a member as assignee creates the
    task.  A task is thus never created by a non-member nor assigned
    to one. *)
Theorem createTask_checks_creator_then_assignee :
  forall (s : Store) (taskData : TaskService.TaskData) (projectId creatorId : Id),
    (projectMember_findUnique creatorId projectId s = None ->
     TaskService.createTask taskData projectId creatorId s = Err AccessDenied)
    /\ (forall a,
          isMemberOf s projectId creatorId ->
          TaskService.assigneeId taskData = Some a ->
          projectMember_findUnique a projectId s = None ->
          TaskService.createTask taskData projectId creatorId s
          = Err InvalidAssignee)
    /\ (isMemberOf s projectId creatorId ->
        (forall a, TaskService.assigneeId taskData = Some a ->
                   isMemberOf s projectId a) ->
        exists t s',
          TaskService.createTask taskData projectId creatorId s = Ok (t, s'))
    /\ (forall t s',
          TaskService.createTask taskData projectId creatorId s = Ok (t, s') ->
          isMemberOf s projectId creatorId
          /\ t_creatorId t = creatorId /\ t_projectId t = projectId
          /\ t_assigneeId t = TaskService.assigneeId taskData
          /\ forall a, t_assigneeId t = Some a -> isMemberOf s projectId a).
Proof.
  intros s taskData projectId creatorId.
  destruct (createTask_refused s taskData projectId creatorId) as [Hdenied Hbad].
  split; [exact Hdenied|]. split; [exact Hbad|]. split.
  - intros Hc Ha.
    destruct (createTask_detail s taskData projectId creatorId Hc Ha)
      as (s1 & Hrun1 & _). eauto.
  - intros t s' Hrun.
    destruct (createTask_ok s s' taskData projectId creatorId t Hrun) as [Hc Ha].
    destruct (createTask_detail s taskData projectId creatorId Hc Ha)
      as (s1 & Hrun1 & _).
    rewrite Hrun1 in Hrun. injection Hrun as <- <-.
    repeat split; auto.
Qed.

Lemma createTask_checks_creator_then_assignee_witness :
  TaskService.createTask Sample.fixBug Sample.sprintId Sample.dave Sample.team
  = Err AccessDenied
  /\ TaskService.createTask
       (TaskService.mkTaskData "Fix bug" None (Some Sample.dave) None None None
                               None None)
       Sample.sprintId Sample.bob Sample.team
     = Err InvalidAssignee.
Proof.
  split.
  - apply (createTask_checks_creator_then_assignee Sample.team Sample.fixBug
             Sample.sprintId Sample.dave).
    reflexivity.
  - apply (createTask_checks_creator_then_assignee Sample.team
             (TaskService.mkTaskData "Fix bug" None (Some Sample.dave) None None
                                     None None None)
             Sample.sprintId Sample.bob) with (a := Sample.dave).
    + exists (mkMember Sample.bob Sample.sprintId "MEMBER"). reflexivity.
    + reflexivity.
    + reflexivity.
Defined.

Lemma filter_app_fresh {A} (f : A -> bool) (l new : list A) :
  (forall x, In x l -> f x = false) ->
  (forall x, In x new -> f x = true) ->
  filter f (l ++ new) = new.
Proof.
  intros Hold Hnew.
  now rewrite filter_app, (filter_nothing f l Hold), (filter_everything f new Hnew).
Qed.

(** X8. A task just created is watched by its creator and, when it has
    an assignee other than the creator, by the assignee: on a store
    whose watcher rows refer to issued task ids, the watcher rows of the
    new task are exactly these one or two, each user once. *)
Theorem createTask_watchers :
  forall (s : Store) (taskData : TaskService.TaskData) (projectId creatorId : Id),
    watchersWellFormed s ->
    isMemberOf s projectId creatorId ->
    (forall a, TaskService.assigneeId taskData = Some a ->
               isMemberOf s projectId a) ->
    exists t s',
      TaskService.createTask taskData projectId creatorId s = Ok (t, s')
      /\ filter (fun w => (w_taskId w =? t_id t)%nat) (watchers s')
         = mkWatcher creatorId (t_id t)
           :: match TaskService.assigneeId taskData with
              | Some a =>
                  if (a =? creatorId)%nat then [] else [mkWatcher a (t_id t)]
              | None => []
              end
      /\ (forall other, other <> t_id t ->
            filter (fun w => (w_taskId w =? other)%nat) (watchers s')
            = filter (fun w => (w_taskId w =? other)%nat) (watchers s)).
Proof.
  intros s taskData projectId creatorId (_ & _ & Hw) Hc Ha.
  destruct (createTask_detail s taskData projectId creatorId Hc Ha)
    as (s' & Hrun & _ & Hwatchers & _).
  exists (newTask s taskData projectId creatorId), s'.
  split; [exact Hrun|]. cbn [newTask t_id]. rewrite Hwatchers. split.
  - apply filter_app_fresh.
    + intros w Hin. apply Hw in Hin. now apply Nat.eqb_neq, Nat.lt_neq.
    + unfold newWatchers. intros w Hin.
      destruct (TaskService.assigneeId taskData) as [a|];
        [destruct (a =? creatorId)%nat|];
        cbn in Hin; intuition; subst; cbn; apply Nat.eqb_refl.
  - intros other Hother. rewrite filter_app.
    rewrite (filter_nothing _ (newWatchers _ _ _)); [apply app_nil_r|].
    unfold newWatchers. intros w Hin.
    assert (Hid : w_taskId w = nextId s).
    { destruct (TaskService.assigneeId taskData) as [a|];
        [destruct (a =? creatorId)%nat|];
        cbn in Hin; intuition; subst; reflexivity. }
    rewrite Hid. apply Nat.eqb_neq. auto.
Qed.


Ltac concrete_NoDup :=
  repeat (constructor; [cbn; intuition discriminate|]); constructor.

Lemma sample_watchersWellFormed : watchersWellFormed Sample.withComment.
Proof.
  unfold watchersWellFormed. vm_compute.
  split; [concrete_NoDup|]. split.
  - intros t [<-|[]]. cbn. lia.
  - intros w [<-|[<-|[]]]; cbn; lia.
Defined.

Lemma createTask_watchers_witness :
  exists t s',
    TaskService.createTask Sample.reviewData Sample.sprintId Sample.carol
      Sample.withComment = Ok (t, s')
    /\ filter (fun w => (w_taskId w =? t_id t)%nat) (watchers s')
       = [mkWatcher Sample.carol (t_id t); mkWatcher Sample.bob (t_id t)].
Proof.
  destruct (createTask_watchers Sample.withComment Sample.reviewData
              Sample.sprintId Sample.carol sample_watchersWellFormed)
    as (t & s' & Hrun & Hw & _).
  - exists (mkMember Sample.carol Sample.sprintId "ADMIN"). reflexivity.
  - intros a Ha. injection Ha as <-.
    exists (mkMember Sample.bob Sample.sprintId "MEMBER"). reflexivity.
  - exists t, s'. split; [exact Hrun|]. exact Hw.
Defined.

Lemma getTaskById_ok (id userId : Id) (s s' : Store) (d : TaskDetails) :
  TaskService.getTaskById id userId s = Ok (d, s') ->
  s' = s
  /\ task_findUnique id s = Some (td_task d)
  /\ t_id (td_task d) = id
  /\ isMemberOf s (t_projectId (td_task d)) userId.
Proof.
  rewrite getTaskById_unfold.
  destruct (task_findUnique id s) as [t|] eqn:Hf; [|discriminate].
  destruct (projectMember_findUnique userId (t_projectId t) s) as [m|] eqn:Hm;
    [|discriminate].
  cbn [isSome]. intro H. injection H as <- <-. cbn [td_task].
  repeat split; auto.
  - apply find_some in Hf. destruct Hf as [_ Hid]. now apply Nat.eqb_eq in Hid.
  - exists m. exact Hm.
Qed.

(** The watcher table after [updateTask]: a row for a new assignee who
    is not watching yet. *)
Lemma updateTask_detail (s : Store) (t : Task) (d : TaskService.UpdateData)
      (userId : Id) :
  task_findUnique (t_id t) s = Some t ->
  isMemberOf s (t_projectId t) userId ->
  mayEdit s t userId ->
  exists s',
    TaskService.updateTask (t_id t) d userId s
    = Ok (TaskService.applyUpdate (TaskService.updateInput d (clock s)) t, s')
    /\ tasks s'
       = map (fun x => if (t_id x =? t_id t)%nat
                       then TaskService.applyUpdate
                              (TaskService.updateInput d (clock s)) x
                       else x) (tasks s)
    /\ watchers s'
       = match TaskService.ud_assigneeId d with
         | Some (Some a) =>
             if negb (eqb_opt_id (t_assigneeId t) a)
                && negb (isSome (taskWatcher_findUnique a (t_id t) s))
             then (watchers s ++ [mkWatcher a (t_id t)])%list
             else watchers s
         | _ => watchers s
         end
    /\ comments s' = comments s /\ members s' = members s
    /\ projects s' = projects s /\ nextId s' = nextId s.
Proof.
  intros Hf Hm He. apply canEdit_mayEdit in He.
  unfold TaskService.updateTask. enter_task_method Hf Hm.
  rewrite He. cbn [negb].
  unfold transaction, bind at 1. unfold gets at 1.
  unfold bind at 1. rewrite (task_update_found s t _ Hf).
  unfold bind at 1.
  destruct (TaskService.ud_assigneeId d) as [[a|]|];
    try (eexists; split; [reflexivity|]; cbn; repeat split; reflexivity).
  destruct (negb (eqb_opt_id (t_assigneeId t) a)); cbn [andb];
    [|eexists; split; [reflexivity|]; cbn; repeat split; reflexivity].
  unfold bind at 1, gets at 1.
  change (taskWatcher_findUnique a (t_id t) (set_tasks s _))
    with (taskWatcher_findUnique a (t_id t) s).
  destruct (isSome (taskWatcher_findUnique a (t_id t) s));
    eexists; (split; [reflexivity|]); cbn; repeat split; reflexivity.
Qed.

Lemma mayEdit_dec (s : Store) (t : Task) (userId : Id) :
  mayEdit s t userId \/ ~ mayEdit s t userId.
Proof.
  destruct (canEdit_mayEdit s t userId) as [H1 H2].
  destruct ((t_creatorId t =? userId)%nat || _ || _ || _);
    [left; auto | right; intro H; apply H2 in H; discriminate].
Qed.

Lemma mayDelete_dec (s : Store) (t : Task) (userId : Id) :
  mayDelete s t userId \/ ~ mayDelete s t userId.
Proof.
  destruct (canDelete_mayDelete s t userId) as [H1 H2].
  destruct ((t_creatorId t =? userId)%nat || _ || _);
    [left; auto | right; intro H; apply H2 in H; discriminate].
Qed.

Lemma updateTask_ok (id : Id) (d : TaskService.UpdateData) (userId : Id)
      (s s' : Store) (t' : Task) :
  TaskService.updateTask id d userId s = Ok (t', s') ->
  exists t,
    task_findUnique id s = Some t /\ t_id t = id
    /\ isMemberOf s (t_projectId t) userId /\ mayEdit s t userId.
Proof.
  intro Hrun.
  destruct (TaskService.getTaskById id userId s) as [[td s0]|e] eqn:Hget.
  - apply getTaskById_ok in Hget. destruct Hget as (_ & Hf & Hid & Hm).
    exists (td_task td). repeat split; auto.
    destruct (mayEdit_dec s (td_task td) userId) as [He|He]; [exact He|].
    rewrite <- Hid in Hrun, Hf.
    rewrite (updateTask_refused s (td_task td) d userId Hf Hm He) in Hrun.
    discriminate.
  - unfold TaskService.updateTask in Hrun. unfold bind at 1 in Hrun.
    rewrite Hget in Hrun. discriminate.
Qed.

Lemma deleteTask_ok (id userId : Id) (s s' : Store) (r : unit) :
  TaskService.deleteTask id userId s = Ok (r, s') ->
  (exists t,
      task_findUnique id s = Some t /\ t_id t = id
      /\ isMemberOf s (t_projectId t) userId /\ mayDelete s t userId)
  /\ tasks s' = filter (fun t => negb (t_id t =? id)%nat) (tasks s)
  /\ watchers s' = filter (fun w => negb (w_taskId w =? id)%nat) (watchers s)
  /\ comments s' = filter (fun c => negb (cm_taskId c =? id)%nat) (comments s)
  /\ members s' = members s /\ projects s' = projects s
  /\ nextId s' = nextId s.
Proof.
  intro Hrun.
  destruct (TaskService.getTaskById id userId s) as [[td s0]|e] eqn:Hget.
  - apply getTaskById_ok in Hget. destruct Hget as (_ & Hf & Hid & Hm).
    subst id.
    assert (He : mayDelete s (td_task td) userId).
    { destruct (mayDelete_dec s (td_task td) userId) as [He|He]; [exact He|].
      rewrite (deleteTask_refused s (td_task td) userId Hf Hm He) in Hrun.
      discriminate. }
    split; [exists (td_task td); repeat split; auto|].
    pose proof He as Hb. apply canDelete_mayDelete in Hb.
    unfold TaskService.deleteTask in Hrun.
    revert Hrun. enter_task_method Hf Hm. rewrite Hb. cbn [negb].
    unfold TaskService.task_delete, bind, gets, modify. rewrite Hf.
    intro H. injection H as <- <-. cbn. repeat split; reflexivity.
  - unfold TaskService.deleteTask in Hrun. unfold bind at 1 in Hrun.
    rewrite Hget in Hrun. discriminate.
Qed.

Lemma addComment_detail (s : Store) (t : Task) (content : string) (authorId : Id) :
  task_findUnique (t_id t) s = Some t ->
  isMemberOf s (t_projectId t) authorId ->
  exists s',
    TaskService.addComment (t_id t) content authorId s
    = Ok (mkComment (nextId s) content authorId (t_id t) false (clock s) (clock s),
          s')
    /\ comments s'
       = (comments s
          ++ [mkComment (nextId s) content authorId (t_id t) false
                        (clock s) (clock s)])%list
    /\ watchers s'
       = (if isSome (taskWatcher_findUnique authorId (t_id t) s)
          then watchers s
          else watchers s ++ [mkWatcher authorId (t_id t)])%list
    /\ tasks s' = tasks s /\ members s' = members s
    /\ projects s' = projects s /\ nextId s' = S (nextId s).
Proof.
  intros Hf Hm.
  unfold TaskService.addComment. unfold bind at 1.
  rewrite (getTaskById_member s t authorId Hf Hm).
  unfold transaction, bind, freshId, gets, modify.
  change (taskWatcher_findUnique authorId (t_id t) (set_comments _ _))
    with (taskWatcher_findUnique authorId (t_id t) s).
  destruct (isSome (taskWatcher_findUnique authorId (t_id t) s));
    eexists; (split; [reflexivity|]); cbn; repeat split; reflexivity.
Qed.

Lemma addComment_ok (taskId : Id) (content : string) (authorId : Id)
      (s s' : Store) (c : Comment) :
  TaskService.addComment taskId content authorId s = Ok (c, s') ->
  exists t,
    task_findUnique taskId s = Some t /\ t_id t = taskId
    /\ isMemberOf s (t_projectId t) authorId.
Proof.
  intro Hrun.
  destruct (TaskService.getTaskById taskId authorId s) as [[td s0]|e] eqn:Hget.
  - apply getTaskById_ok in Hget. destruct Hget as (_ & Hf & Hid & Hm).
    exists (td_task td). auto.
  - unfold TaskService.addComment in Hrun. unfold bind at 1 in Hrun.
    rewrite Hget in Hrun. discriminate.
Qed.


Lemma NoDup_keys_snoc {A B} (key : A -> B) (l : list A) (x : A) :
  NoDup (map key l) -> ~ In (key x) (map key l) ->
  NoDup (map key (l ++ [x])).
Proof.
  intros Hnd Hnew. rewrite map_app. cbn.
  apply NoDup_app; [exact Hnd | constructor; [intros []|constructor] |].
  intros k Hk [<-|[]]. contradiction.
Qed.

Lemma NoDup_keys_filter {A B} (key : A -> B) (f : A -> bool) (l : list A) :
  NoDup (map key l) -> NoDup (map key (filter f l)).
Proof.
  induction l as [|x l IH]; cbn; [auto|].
  intro Hnd. inversion Hnd as [|? ? Hnotin Hnd']; subst.
  destruct (f x); cbn; [|auto].
  constructor; [|auto].
  intro Hin. apply Hnotin. apply in_map_iff in Hin.
  destruct Hin as (y & Hy & Hin). apply filter_In in Hin.
  apply in_map_iff. exists y. tauto.
Qed.

Lemma not_watching (s : Store) (userId taskId : Id) :
  taskWatcher_findUnique userId taskId s = None ->
  ~ In (userId, taskId) (map (fun w => (w_userId w, w_taskId w)) (watchers s)).
Proof.
  intros Hnone Hin. apply in_map_iff in Hin. destruct Hin as (w & Hk & Hin).
  injection Hk as Hu Ht.
  pose proof (find_none _ _ Hnone w Hin) as H. cbn in H.
  rewrite Hu, Ht, !Nat.eqb_refl in H. discriminate.
Qed.

Lemma task_found_In (s : Store) (id : Id) (t : Task) :
  task_findUnique id s = Some t -> In t (tasks s) /\ t_id t = id.
Proof.
  intro Hf. apply find_some in Hf. destruct Hf as [Hin Hid].
  apply Nat.eqb_eq in Hid. auto.
Qed.

(** X9. No write of the task service makes a user watch a task twice.
    On a store where task and watcher rows carry issued ids and the
    (user, task) pairs of the watcher rows are distinct, they are still
    so after any successful [createTask], [updateTask], [deleteTask] or
    [addComment]: the watcher inserts of these methods never collide. *)
Theorem watchers_stay_unique :
  forall (s s' : Store),
    watchersWellFormed s ->
    taskStep s s' ->
    watchersWellFormed s'.
Proof.
  intros s s' (Hnd & Ht & Hw) Hstep.
  destruct Hstep as [taskData projectId creatorId t Hrun
                    | id d userId t' Hrun
                    | id userId Hrun
                    | taskId content authorId c Hrun].
  - destruct (createTask_ok s s' taskData projectId creatorId t Hrun)
      as [Hc Ha].
    destruct (createTask_detail s taskData projectId creatorId Hc Ha)
      as (s1 & Hrun1 & Htasks & Hwatchers & _ & _ & _ & Hnext).
    rewrite Hrun1 in Hrun. injection Hrun as _ <-.
    unfold watchersWellFormed. rewrite Htasks, Hwatchers.
    repeat split.
    + rewrite map_app. apply NoDup_app; [exact Hnd | |].
      * unfold newWatchers.
        destruct (TaskService.assigneeId taskData) as [a|];
          [destruct (Nat.eqb_spec a creatorId)|]; cbn;
          repeat (constructor; [cbn; intuition congruence|]); constructor.
      * intros k Hk Hin. apply in_map_iff in Hk.
        destruct Hk as (w & <- & Hk). apply Hw in Hk.
        assert (Hid : snd (w_userId w, w_taskId w) = nextId s).
        { unfold newWatchers in Hin.
          destruct (TaskService.assigneeId taskData) as [a|];
            [destruct (a =? creatorId)%nat|];
            cbn in Hin; intuition; match goal with
                                   | H : (_, _) = (_, _) |- _ =>
                                       injection H as _ H; cbn; congruence
                                   end. }
        cbn in Hid. lia.
    + intros x Hx. apply in_app_or in Hx. destruct Hx as [Hx|[<-|[]]].
      * apply Ht in Hx. lia.
      * cbn. lia.
    + intros w Hx. apply in_app_or in Hx. destruct Hx as [Hx|Hx].
      * apply Hw in Hx. lia.
      * assert (Hid : w_taskId w = nextId s).
        { unfold newWatchers in Hx.
          destruct (TaskService.assigneeId taskData) as [a|];
            [destruct (a =? creatorId)%nat|];
            cbn in Hx; intuition; subst; reflexivity. }
        lia.
  - destruct (updateTask_ok id d userId s s' t' Hrun)
      as (t & Hf & <- & Hm & He).
    destruct (updateTask_detail s t d userId Hf Hm He)
      as (s1 & Hrun1 & Htasks & Hwatchers & _ & _ & _ & Hnext).
    rewrite Hrun1 in Hrun. injection Hrun as _ <-.
    destruct (task_found_In s (t_id t) t Hf) as [Hin _].
    unfold watchersWellFormed. rewrite Htasks, Hnext.
    assert (Hcases : watchers s1 = watchers s
                     \/ exists a, watchers s1
                                  = (watchers s ++ [mkWatcher a (t_id t)])%list
                                  /\ taskWatcher_findUnique a (t_id t) s = None).
    { rewrite Hwatchers.
      destruct (TaskService.ud_assigneeId d) as [[a|]|]; auto.
      destruct (negb (eqb_opt_id (t_assigneeId t) a)); cbn [andb]; auto.
      destruct (taskWatcher_findUnique a (t_id t) s) eqn:Hex; cbn; eauto. }
    assert (Hids : forall x,
      In x (map (fun x => if (t_id x =? t_id t)%nat
                          then TaskService.applyUpdate
                                 (TaskService.updateInput d (clock s)) x
                          else x) (tasks s)) -> t_id x < nextId s).
    { intros x Hx. apply in_map_iff in Hx. destruct Hx as (y & <- & Hy).
      apply Ht in Hy. destruct (t_id y =? t_id t)%nat; exact Hy. }
    destruct Hcases as [->|(a & -> & Hnone)].
    + repeat split; auto.
    + repeat split; auto.
      * apply (NoDup_keys_snoc (fun w => (w_userId w, w_taskId w)));
          [exact Hnd | exact (not_watching s a (t_id t) Hnone)].
      * intros w Hx. apply in_app_or in Hx. destruct Hx as [Hx|[<-|[]]]; auto.
        cbn. auto.
  - apply deleteTask_ok in Hrun.
    destruct Hrun as (_ & Htasks & Hwatchers & _ & _ & _ & Hnext).
    unfold watchersWellFormed. rewrite Htasks, Hwatchers, Hnext.
    repeat split.
    + apply NoDup_keys_filter. exact Hnd.
    + intros x Hx. apply filter_In in Hx. destruct Hx as [Hx _]. auto.
    + intros x Hx. apply filter_In in Hx. destruct Hx as [Hx _]. auto.
  - destruct (addComment_ok taskId content authorId s s' c Hrun)
      as (t & Hf & <- & Hm).
    destruct (addComment_detail s t content authorId Hf Hm)
      as (s1 & Hrun1 & _ & Hwatchers & Htasks & _ & _ & Hnext).
    rewrite Hrun1 in Hrun. injection Hrun as _ <-.
    destruct (task_found_In s (t_id t) t Hf) as [Hin _].
    unfold watchersWellFormed. rewrite Htasks, Hwatchers, Hnext.
    destruct (taskWatcher_findUnique authorId (t_id t) s) eqn:Hex; cbn [isSome].
    + repeat split; auto.
      * intros x Hx. apply Ht in Hx. lia.
      * intros x Hx. apply Hw in Hx. lia.
    + repeat split.
      * apply (NoDup_keys_snoc (fun w => (w_userId w, w_taskId w)));
          [exact Hnd | exact (not_watching s authorId (t_id t) Hex)].
      * intros x Hx. apply Ht in Hx. lia.
      * intros w Hx. apply in_app_or in Hx. destruct Hx as [Hx|[<-|[]]].
        -- apply Hw in Hx. lia.
        -- cbn. apply Ht in Hin. lia.
Qed.

Lemma watchers_stay_unique_witness : watchersWellFormed Sample.withReview.
Proof.
  apply (watchers_stay_unique Sample.withComment Sample.withReview
           sample_watchersWellFormed).
  eapply (step_createTask _ _ Sample.reviewData Sample.sprintId Sample.carol).
  vm_compute. reflexivity.
Defined.


Lemma find_after_update {A} (key : A -> nat) (f : A -> A) (l : list A)
      (id other : nat) :
  (forall x, key (f x) = key x) ->
  List.find (fun x => (key x =? other)%nat)
            (map (fun x => if (key x =? id)%nat then f x else x) l)
  = option_map (fun x => if (key x =? id)%nat then f x else x)
               (List.find (fun x => (key x =? other)%nat) l).
Proof.
  intro Hkey. induction l as [|x l IH]; cbn; [reflexivity|].
  assert (Hk : key (if (key x =? id)%nat then f x else x) = key x)
    by (destruct (key x =? id)%nat; auto).
  rewrite Hk. destruct (key x =? other)%nat; [reflexivity|exact IH].
Qed.

Lemma task_lookup_after_update (s s' : Store) (t : Task)
      (d : TaskService.UpdateData) :
  task_findUnique (t_id t) s = Some t ->
  tasks s' = map (fun x => if (t_id x =? t_id t)%nat
                           then TaskService.applyUpdate d x else x) (tasks s) ->
  task_findUnique (t_id t) s' = Some (TaskService.applyUpdate d t)
  /\ forall other, other <> t_id t ->
       task_findUnique other s' = task_findUnique other s.
Proof.
  intros Hf Htasks. unfold task_findUnique in *. rewrite Htasks.
  split.
  - rewrite (find_after_update t_id (TaskService.applyUpdate d)); [|reflexivity].
    rewrite Hf. cbn. now rewrite Nat.eqb_refl.
  - intros other Hother.
    rewrite (find_after_update t_id (TaskService.applyUpdate d)); [|reflexivity].
    destruct (List.find (fun x => (t_id x =? other)%nat) (tasks s))
      as [x|] eqn:Hx; [|reflexivity].
    apply find_some in Hx. destruct Hx as [_ Hx]. apply Nat.eqb_eq in Hx.
    cbn. subst other. apply Nat.eqb_neq in Hother. now rewrite Hother.
Qed.

(** X10. [updateTask] does not check that the new assignee is a
    member.  A user who may edit the task can assign it to any user of
    the system, a member of the project or not: the call succeeds, the
    stored task carries the new assignee, and unless that user was the
    assignee already they are now among the task's watchers.  (An id
    that names no user is refused by the store: [Task.assignee] is a
    relation.) *)
Theorem updateTask_assigns_without_membership_check :
  forall (s : Store) (t : Task) (d : TaskService.UpdateData)
         (userId assignee : Id),
    task_findUnique (t_id t) s = Some t ->
    isMemberOf s (t_projectId t) userId ->
    mayEdit s t userId ->
    isUser s assignee ->
    TaskService.ud_assigneeId d = Some (Some assignee) ->
    exists t' s',
      TaskService.updateTask (t_id t) d userId s = Ok (t', s')
      /\ task_findUnique (t_id t) s' = Some t'
      /\ t_assigneeId t' = Some assignee
      /\ members s' = members s
      /\ (t_assigneeId t <> Some assignee ->
          exists w, taskWatcher_findUnique assignee (t_id t) s' = Some w).
Proof.
  intros s t d userId assignee Hf Hm He _ Ha.
  destruct (updateTask_detail s t d userId Hf Hm He)
    as (s' & Hrun & Htasks & Hwatchers & _ & Hmembers & _).
  destruct (task_lookup_after_update s s' t _ Hf Htasks) as [Hstored _].
  eexists. exists s'. split; [exact Hrun|]. split; [exact Hstored|].
  split.
  { cbn [TaskService.applyUpdate t_assigneeId TaskService.updateInput
         TaskService.set_ud_completedDate TaskService.set_ud_dueDate
         TaskService.set_ud_tags TaskService.ud_assigneeId].
    rewrite Ha. reflexivity. }
  split; [exact Hmembers|].
  intro Hchanged. rewrite Ha in Hwatchers.
  assert (Hneq : eqb_opt_id (t_assigneeId t) assignee = false).
  { destruct (eqb_opt_id (t_assigneeId t) assignee) eqn:E; [|reflexivity].
    apply eqb_opt_id_true in E. contradiction. }
  rewrite Hneq in Hwatchers. cbn [negb andb] in Hwatchers.
  unfold taskWatcher_findUnique in *. rewrite Hwatchers.
  destruct (List.find _ (watchers s)) as [w|] eqn:Hw; cbn [isSome negb].
  - exists w. exact Hw.
  - exists (mkWatcher assignee (t_id t)). rewrite find_app, Hw. cbn.
    now rewrite !Nat.eqb_refl.
Qed.

Lemma updateTask_assigns_without_membership_check_witness :
  projectMember_findUnique Sample.dave Sample.sprintId Sample.withReview = None
  /\ exists t' s',
       TaskService.updateTask 13 (Sample.assignTo Sample.dave) Sample.carol
         Sample.withReview = Ok (t', s')
       /\ t_assigneeId t' = Some Sample.dave.
Proof.
  split; [reflexivity|].
  destruct (updateTask_assigns_without_membership_check Sample.withReview
              Sample.review (Sample.assignTo Sample.dave) Sample.carol
              Sample.dave)
    as (t' & s' & Hrun & _ & Ha & _).
  - reflexivity.
  - exists (mkMember Sample.carol Sample.sprintId "ADMIN"). reflexivity.
  - left. reflexivity.
  - exists (mkUser Sample.dave "Dave" "dave@x.com" None). split; [|reflexivity].
    vm_compute. auto.
  - reflexivity.
  - exists t', s'. auto.
Defined.



(** X12. After a successful [deleteTask] the task is gone for
    everyone: [getTaskById] on its id fails with "Task not found" for
    every user, and so does a second [deleteTask]; the tasks with other
    ids read as before. *)
Theorem deleteTask_removes_the_task :
  forall (s : Store) (t : Task) (userId : Id),
    task_findUnique (t_id t) s = Some t ->
    isMemberOf s (t_projectId t) userId ->
    mayDelete s t userId ->
    exists s',
      TaskService.deleteTask (t_id t) userId s = Ok (tt, s')
      /\ (forall anyone,
            TaskService.getTaskById (t_id t) anyone s' = Err TaskNotFound)
      /\ (forall anyone,
            TaskService.deleteTask (t_id t) anyone s' = Err TaskNotFound)
      /\ (forall other, other <> t_id t ->
            task_findUnique other s' = task_findUnique other s).
Proof.
  intros s t userId Hf Hm He.
  destruct (deleteTask_allowed s t userId Hf Hm He) as (s' & Hrun & Hgone).
  exists s'. split; [exact Hrun|].
  assert (Hget : forall anyone,
            TaskService.getTaskById (t_id t) anyone s' = Err TaskNotFound).
  { intro anyone. now rewrite getTaskById_unfold, Hgone. }
  split; [exact Hget|]. split.
  - intro anyone. unfold TaskService.deleteTask. unfold bind at 1.
    now rewrite Hget.
  - intros other Hother.
    apply deleteTask_ok in Hrun. destruct Hrun as (_ & Htasks & _).
    unfold task_findUnique. rewrite Htasks, find_filter.
    apply find_pointwise. intro x.
    destruct (Nat.eqb_spec (t_id x) other) as [->|]; [|apply andb_false_r].
    apply Nat.eqb_neq in Hother. now rewrite Hother.
Qed.

Lemma deleteTask_removes_the_task_witness :
  exists s',
    TaskService.deleteTask 13 Sample.carol Sample.withReview = Ok (tt, s')
    /\ TaskService.getTaskById 13 Sample.carol s' = Err TaskNotFound
    /\ task_findUnique 11 s' = task_findUnique 11 Sample.withReview.
Proof.
  destruct (deleteTask_removes_the_task Sample.withReview Sample.review
              Sample.carol)
    as (s' & Hrun & Hget & _ & Hothers).
  - reflexivity.
  - exists (mkMember Sample.carol Sample.sprintId "ADMIN"). reflexivity.
  - left. reflexivity.
  - exists s'. split; [exact Hrun|]. split; [apply Hget|].
    apply Hothers. cbn. lia.
Defined.


(** ** Reading a task or a project by id *)

(** X13. GET /api/tasks/:id tells a user who is not a member whether
    the task id exists: it answers 404 "Task not found" for an id that
    names no task and 404 "Access denied - not a project member" for a
    task of a project the user is no member of.  The middleware
    [checkTaskPermission] stops the request with the same two answers,
    and passes a member on with the task and the member's role.
    GET /api/projects/:id does not tell: whenever it does not answer
    200 with a project the user can access, it answers 404 "Project not
    found or access denied".  None of them writes or emits. *)
Theorem getTask_reveals_existence_getProject_does_not :
  forall (s : Store) (userId : Id),
    (forall id, task_findUnique id s = None ->
       TaskRoutes.getTask id userId s = answer (failure 404 "Task not found") s
       /\ Middleware.checkTaskPermission userId None (Some id) s
          = Middleware.Stop (failure 404 "Task not found"))
    /\ (forall t, task_findUnique (t_id t) s = Some t ->
          projectMember_findUnique userId (t_projectId t) s = None ->
          TaskRoutes.getTask (t_id t) userId s
          = answer (failure 404 "Access denied - not a project member") s
          /\ Middleware.checkTaskPermission userId None (Some (t_id t)) s
             = Middleware.Stop
                 (failure 404 "Access denied - not a project member"))
    /\ (forall t m, task_findUnique (t_id t) s = Some t ->
          projectMember_findUnique userId (t_projectId t) s = Some m ->
          TaskRoutes.getTask (t_id t) userId s
          = answer (mkResponse 200 true None
                      (TaskWithRelations (taskDetailsOf s t))) s
          /\ Middleware.checkTaskPermission userId None (Some (t_id t)) s
             = Middleware.Next (taskDetailsOf s t,
                                roleOf s (t_projectId t) userId))
    /\ (forall id,
          (exists p, In p (projects s) /\ p_id p = id
                     /\ canAccess s userId p = true
                     /\ ProjectRoutes.getProject id userId s
                        = answer (mkResponse 200 true None
                                    (ProjectWithRelations (detailsOf s p))) s)
          \/ ProjectRoutes.getProject id userId s
             = answer (failure 404 "Project not found or access denied") s).
Proof.
  intros s userId. split; [|split; [|split]].
  - intros id Hf.
    unfold TaskRoutes.getTask, Middleware.checkTaskPermission.
    now rewrite getTaskById_unfold, Hf.
  - intros t Hf Hm.
    unfold TaskRoutes.getTask, Middleware.checkTaskPermission.
    now rewrite (getTaskById_not_member s t userId Hf Hm).
  - intros t m Hf Hm.
    assert (Hmember : isMemberOf s (t_projectId t) userId) by now exists m.
    unfold TaskRoutes.getTask, Middleware.checkTaskPermission.
    rewrite (getTaskById_member s t userId Hf Hmember).
    split; reflexivity.
  - intro id. unfold ProjectRoutes.getProject.
    rewrite getProjectById_unfold.
    destruct (List.find _ (projects s)) as [p|] eqn:Hp; [left|right; reflexivity].
    apply find_some in Hp. destruct Hp as [Hin Hp].
    apply andb_true_iff in Hp. destruct Hp as [Hid Hacc].
    apply Nat.eqb_eq in Hid. exists p. auto.
Qed.

Lemma getTask_reveals_existence_getProject_does_not_witness :
  TaskRoutes.getTask 99 Sample.dave Sample.withReview
  = answer (failure 404 "Task not found") Sample.withReview
  /\ TaskRoutes.getTask 13 Sample.dave Sample.withReview
     = answer (failure 404 "Access denied - not a project member")
              Sample.withReview.
Proof.
  destruct (getTask_reveals_existence_getProject_does_not Sample.withReview
              Sample.dave) as (Habsent & Hdenied & _).
  split.
  - apply Habsent. reflexivity.
  - apply (Hdenied Sample.review); reflexivity.
Defined.

(** ** Comments *)

Lemma comment_found_key (s : Store) (id : Id) (c : Comment) :
  comment_findUnique id s = Some c -> cm_id c = id.
Proof.
  intro H. apply find_some in H. destruct H as [_ H]. now apply Nat.eqb_eq.
Qed.

Lemma canDeleteComment_mayDeleteComment (s : Store) (t : Task) (c : Comment)
      (userId : Id) :
  (cm_authorId c =? userId)%nat
  || TaskService.roleIs (roleOf s (t_projectId t) userId) "OWNER"
  || TaskService.roleIs (roleOf s (t_projectId t) userId) "ADMIN" = true
  <-> mayDeleteComment s t c userId.
Proof.
  unfold mayDeleteComment.
  rewrite !orb_true_iff, Nat.eqb_eq, !roleIs_holdsRole. tauto.
Qed.

(** X14. Who may change a comment.  For a member of the project of the
    task named in the call and a comment that exists: [updateComment]
    succeeds exactly for the comment's author and fails with "You can
    only edit your own comments" for everyone else, the project's OWNER
    and ADMINs included; [deleteComment] succeeds exactly for the
    author, the OWNER and the ADMINs and fails with "Insufficient
    permissions to delete this comment" otherwise.  A comment id that
    names no comment gives "Comment not found" in both. *)
Theorem comment_edit_author_only_delete_also_editors :
  forall (s : Store) (t : Task) (commentId userId : Id) (content : string),
    task_findUnique (t_id t) s = Some t ->
    isMemberOf s (t_projectId t) userId ->
    (comment_findUnique commentId s = None ->
       TaskService.updateComment (t_id t) commentId content userId s
       = Err CommentNotFound
       /\ TaskService.deleteComment (t_id t) commentId userId s
          = Err CommentNotFound)
    /\ (forall c, comment_findUnique commentId s = Some c ->
          (cm_authorId c = userId ->
             exists c' s',
               TaskService.updateComment (t_id t) commentId content userId s
               = Ok (c', s'))
          /\ (cm_authorId c <> userId ->
                TaskService.updateComment (t_id t) commentId content userId s
                = Err NotCommentAuthor)
          /\ (mayDeleteComment s t c userId ->
                exists s',
                  TaskService.deleteComment (t_id t) commentId userId s
                  = Ok (tt, s'))
          /\ (~ mayDeleteComment s t c userId ->
                TaskService.deleteComment (t_id t) commentId userId s
                = Err (InsufficientPermissions "delete this comment"))).
Proof.
  intros s t commentId userId content Hf Hm.
  rewrite (updateComment_unfold s t commentId content userId Hf Hm).
  rewrite (deleteComment_unfold s t commentId userId Hf Hm).
  split.
  - intros ->. split; reflexivity.
  - intros c ->. split; [|split; [|split]].
    + intros ->. rewrite Nat.eqb_refl. eexists. eexists. reflexivity.
    + intro Hne. apply Nat.eqb_neq in Hne. now rewrite Hne.
    + intro Hmay. apply canDeleteComment_mayDeleteComment in Hmay.
      rewrite Hmay. eexists. reflexivity.
    + intro Hnot.
      destruct (_ || _ || _) eqn:E; [|reflexivity].
      apply canDeleteComment_mayDeleteComment in E. contradiction.
Qed.

Lemma comment_edit_author_only_delete_also_editors_witness :
  TaskService.updateComment Sample.taskId Sample.commentId "No"
    Sample.alice Sample.withReview = Err NotCommentAuthor
  /\ exists s',
       TaskService.deleteComment Sample.taskId Sample.commentId
         Sample.alice Sample.withReview = Ok (tt, s').
Proof.
  destruct (comment_edit_author_only_delete_also_editors Sample.withReview
              (mkTask Sample.taskId "Fix bug" None Sample.sprintId Sample.bob
                      (Some Sample.alice) "To Do" "MEDIUM" None None None None
                      0%Z false 1000%Z)
              Sample.commentId Sample.alice "No")
    as (_ & Hfound).
  - reflexivity.
  - exists (mkMember Sample.alice Sample.sprintId "OWNER"). reflexivity.
  - destruct (Hfound (mkComment Sample.commentId "On it" Sample.bob
                         Sample.taskId false 1000%Z 1000%Z))
      as (_ & Hedit & Hdelete & _).
    + reflexivity.
    + split.
      * apply Hedit. vm_compute. lia.
      * apply Hdelete. right. left. reflexivity.
Defined.


Lemma insert_by_Permutation {A} (le : A -> A -> bool) (x : A) (l : list A) :
  Permutation (x :: l) (insert_by le x l).
Proof.
  induction l as [|y r IH]; cbn; [reflexivity|].
  destruct (le x y); [reflexivity|].
  rewrite perm_swap. now apply perm_skip.
Qed.

Lemma orderBy_Permutation {A} (le : A -> A -> bool) (l : list A) :
  Permutation l (orderBy le l).
Proof.
  induction l as [|x r IH]; cbn; [constructor|].
  rewrite <- insert_by_Permutation. now apply perm_skip.
Qed.

Lemma orderBy_length {A} (le : A -> A -> bool) (l : list A) :
  List.length (orderBy le l) = List.length l.
Proof. symmetry. apply Permutation_length, orderBy_Permutation. Qed.

(** X15. A successful [updateComment] rewrites one comment row.  The
    author's edit stores the new content, sets [isEdited] and keeps
    the comment's id, author, task and creation date; reading the
    comment afterwards gives the returned row; every other comment, and
    the task and watcher tables, stay as they were. *)
Theorem updateComment_writes_one_comment :
  forall (s : Store) (t : Task) (c : Comment) (content : string),
    task_findUnique (t_id t) s = Some t ->
    isMemberOf s (t_projectId t) (cm_authorId c) ->
    comment_findUnique (cm_id c) s = Some c ->
    exists c' s',
      TaskService.updateComment (t_id t) (cm_id c) content (cm_authorId c) s
      = Ok (c', s')
      /\ comment_findUnique (cm_id c) s' = Some c'
      /\ cm_content c' = content /\ cm_isEdited c' = true
      /\ cm_id c' = cm_id c /\ cm_authorId c' = cm_authorId c
      /\ cm_taskId c' = cm_taskId c /\ cm_createdAt c' = cm_createdAt c
      /\ (forall other, other <> cm_id c ->
            comment_findUnique other s' = comment_findUnique other s)
      /\ List.length (comments s') = List.length (comments s)
      /\ tasks s' = tasks s /\ watchers s' = watchers s.
Proof.
  intros s t c content Hf Hm Hc.
  exists (editedComment content (clock s) c). eexists.
  split.
  { rewrite (updateComment_unfold s t (cm_id c) content _ Hf Hm), Hc.
    rewrite Nat.eqb_refl. reflexivity. }
  unfold comment_findUnique in *. cbn [comments set_comments tasks watchers].
  split.
  { rewrite (find_after_update cm_id (editedComment content (clock s)));
      [|reflexivity].
    rewrite Hc. cbn. now rewrite Nat.eqb_refl. }
  repeat (split; [reflexivity|]).
  split; [|split; [apply length_map|split; reflexivity]].
  intros other Hother.
  rewrite (find_after_update cm_id (editedComment content (clock s)));
    [|reflexivity].
  destruct (List.find (fun x => (cm_id x =? other)%nat) (comments s))
    as [x|] eqn:Hx; [|reflexivity].
  apply find_some in Hx. destruct Hx as [_ Hx]. apply Nat.eqb_eq in Hx.
  cbn. subst other. apply Nat.eqb_neq in Hother. now rewrite Hother.
Qed.

Lemma updateComment_writes_one_comment_witness :
  exists c' s',
    TaskService.updateComment Sample.taskId Sample.commentId "Done soon"
      Sample.bob Sample.withReview = Ok (c', s')
    /\ comment_findUnique Sample.commentId s' = Some c'
    /\ cm_content c' = "Done soon" /\ cm_isEdited c' = true.
Proof.
  destruct (updateComment_writes_one_comment Sample.withReview
              (mkTask Sample.taskId "Fix bug" None Sample.sprintId Sample.bob
                      (Some Sample.alice) "To Do" "MEDIUM" None None None None
                      0%Z false 1000%Z)
              (mkComment Sample.commentId "On it" Sample.bob Sample.taskId
                         false 1000%Z 1000%Z)
              "Done soon")
    as (c' & s' & Hrun & Hstored & Hcontent & Hedited & _).
  - reflexivity.
  - exists (mkMember Sample.bob Sample.sprintId "MEMBER"). reflexivity.
  - reflexivity.
  - exists c', s'. auto.
Defined.

(** X16. A successful [deleteComment] removes one comment row: the
    comment is gone, so that editing or deleting it again fails with
    "Comment not found"; every other comment, and the task and watcher
    tables, stay as they were. *)
Theorem deleteComment_removes_one_comment :
  forall (s : Store) (t : Task) (c : Comment) (userId : Id),
    task_findUnique (t_id t) s = Some t ->
    isMemberOf s (t_projectId t) userId ->
    comment_findUnique (cm_id c) s = Some c ->
    mayDeleteComment s t c userId ->
    exists s',
      TaskService.deleteComment (t_id t) (cm_id c) userId s = Ok (tt, s')
      /\ comment_findUnique (cm_id c) s' = None
      /\ TaskService.deleteComment (t_id t) (cm_id c) userId s'
         = Err CommentNotFound
      /\ (forall content,
            TaskService.updateComment (t_id t) (cm_id c) content userId s'
            = Err CommentNotFound)
      /\ (forall other, other <> cm_id c ->
            comment_findUnique other s' = comment_findUnique other s)
      /\ tasks s' = tasks s /\ watchers s' = watchers s.
Proof.
  intros s t c userId Hf Hm Hc Hmay.
  eexists. split.
  { rewrite (deleteComment_unfold s t (cm_id c) userId Hf Hm), Hc.
    apply canDeleteComment_mayDeleteComment in Hmay. rewrite Hmay.
    reflexivity. }
  set (s' := set_comments s _).
  assert (Hgone : comment_findUnique (cm_id c) s' = None).
  { unfold comment_findUnique, s'. cbn [comments set_comments].
    rewrite find_filter. apply find_none_iff. intros x _.
    destruct (cm_id x =? cm_id c)%nat; reflexivity. }
  assert (Hf' : task_findUnique (t_id t) s' = Some t) by exact Hf.
  assert (Hm' : isMemberOf s' (t_projectId t) userId) by exact Hm.
  split; [exact Hgone|]. split; [|split; [|split; [|split; reflexivity]]].
  - now rewrite (deleteComment_unfold s' t (cm_id c) userId Hf' Hm'), Hgone.
  - intro content.
    now rewrite (updateComment_unfold s' t (cm_id c) content userId Hf' Hm'),
      Hgone.
  - intros other Hother. unfold comment_findUnique, s'.
    cbn [comments set_comments]. rewrite find_filter.
    apply find_pointwise. intro x.
    destruct (Nat.eqb_spec (cm_id x) other) as [->|]; [|apply andb_false_r].
    apply Nat.eqb_neq in Hother. now rewrite Hother.
Qed.

Lemma deleteComment_removes_one_comment_witness :
  exists s',
    TaskService.deleteComment Sample.taskId Sample.commentId Sample.carol
      Sample.withReview = Ok (tt, s')
    /\ comment_findUnique Sample.commentId s' = None.
Proof.
  destruct (deleteComment_removes_one_comment Sample.withReview
              (mkTask Sample.taskId "Fix bug" None Sample.sprintId Sample.bob
                      (Some Sample.alice) "To Do" "MEDIUM" None None None None
                      0%Z false 1000%Z)
              (mkComment Sample.commentId "On it" Sample.bob Sample.taskId
                         false 1000%Z 1000%Z)
              Sample.carol)
    as (s' & Hrun & Hgone & _).
  - reflexivity.
  - exists (mkMember Sample.carol Sample.sprintId "ADMIN"). reflexivity.
  - reflexivity.
  - right. right. reflexivity.
  - exists s'. auto.
Defined.

(** X17. A comment added with [addComment] is read back with the
    task.  After the call, [getTaskById] on the same task returns one
    comment more than before, the new one among them with the given
    content and the caller as author, not marked as edited; and the
    author is a watcher of the task. *)
Theorem addComment_then_getTaskById :
  forall (s : Store) (t : Task) (content : string) (authorId : Id),
    task_findUnique (t_id t) s = Some t ->
    isMemberOf s (t_projectId t) authorId ->
    exists c s',
      TaskService.addComment (t_id t) content authorId s = Ok (c, s')
      /\ cm_content c = content /\ cm_authorId c = authorId
      /\ cm_taskId c = t_id t /\ cm_isEdited c = false
      /\ TaskService.getTaskById (t_id t) authorId s'
         = Ok (taskDetailsOf s' t, s')
      /\ In c (td_comments (taskDetailsOf s' t))
      /\ List.length (td_comments (taskDetailsOf s' t))
         = S (List.length (td_comments (taskDetailsOf s t)))
      /\ (exists w, In w (td_watchers (taskDetailsOf s' t))
                    /\ w_userId w = authorId).
Proof.
  intros s t content authorId Hf Hm.
  destruct (addComment_detail s t content authorId Hf Hm)
    as (s' & Hrun & Hcomments & Hwatchers & Htasks & Hmembers & _).
  eexists. exists s'. split; [exact Hrun|].
  repeat (split; [reflexivity|]).
  split.
  { apply getTaskById_member.
    - unfold task_findUnique. rewrite Htasks. exact Hf.
    - destruct Hm as [m Hm]. exists m.
      unfold projectMember_findUnique in *. now rewrite Hmembers. }
  unfold taskDetailsOf. cbn [td_comments td_watchers].
  rewrite Hcomments, filter_app. cbn [filter cm_taskId].
  rewrite Nat.eqb_refl.
  split; [|split].
  - apply orderBy_In, in_or_app. right. now left.
  - rewrite !orderBy_length, length_app. cbn. lia.
  - rewrite Hwatchers.
    destruct (taskWatcher_findUnique authorId (t_id t) s) as [w|] eqn:Hw;
      cbn [isSome].
    + apply find_some in Hw. destruct Hw as [Hin Hw].
      apply andb_true_iff in Hw. destruct Hw as [Hu Ht].
      exists w. split; [|now apply Nat.eqb_eq].
      apply filter_In. auto.
    + exists (mkWatcher authorId (t_id t)). split; [|reflexivity].
      apply filter_In. split; [|cbn; apply Nat.eqb_refl].
      apply in_or_app. right. now left.
Qed.

Lemma addComment_then_getTaskById_witness :
  exists c s',
    TaskService.addComment 13 "Looks good" Sample.bob Sample.withReview
    = Ok (c, s')
    /\ In c (td_comments (taskDetailsOf s' Sample.review))
    /\ exists w, In w (td_watchers (taskDetailsOf s' Sample.review))
                 /\ w_userId w = Sample.bob.
Proof.
  destruct (addComment_then_getTaskById Sample.withReview Sample.review
              "Looks good" Sample.bob)
    as (c & s' & Hrun & _ & _ & _ & _ & _ & Hin & _ & Hw).
  - reflexivity.
  - exists (mkMember Sample.bob Sample.sprintId "MEMBER"). reflexivity.
  - exists c, s'. auto.
Defined.


(** ** The task routes *)

Lemma getTaskById_absent (s : Store) (id userId : Id) :
  task_findUnique id s = None ->
  TaskService.getTaskById id userId s = Err TaskNotFound.
Proof. intro Hf. now rewrite getTaskById_unfold, Hf. Qed.





(** X19. What DELETE /api/tasks/:id answers.  An id that names no
    task: 403 "Task not found".  A task of a project the user is no
    member of: 500 "Server error deleting task".  A member who may not
    delete the task: 403, and the task is still there.  A member who
    may: 200, the task is gone, and one "task-deleted" event goes to
    the room of the project the task was in. *)
Theorem deleteTask_route_answers :
  forall (s : Store) (userId : Id),
    (forall id, task_findUnique id s = None ->
       TaskRoutes.deleteTask id userId s
       = answer (failure 403 "Task not found") s)
    /\ (forall t, task_findUnique (t_id t) s = Some t ->
          (projectMember_findUnique userId (t_projectId t) s = None ->
             TaskRoutes.deleteTask (t_id t) userId s
             = answer (failure 500 "Server error deleting task") s)
          /\ (isMemberOf s (t_projectId t) userId -> ~ mayDelete s t userId ->
                TaskRoutes.deleteTask (t_id t) userId s
                = answer
                    (failure 403 "Insufficient permissions to delete this task")
                    s)
          /\ (isMemberOf s (t_projectId t) userId -> mayDelete s t userId ->
                exists s',
                  TaskRoutes.deleteTask (t_id t) userId s
                  = mkHandled
                      (mkResponse 200 true (Some "Task deleted successfully")
                                  NoData)
                      s'
                      [mkEmit (Some (t_projectId t))
                              (TaskDeleted (t_id t) (t_projectId t) userId)]
                  /\ task_findUnique (t_id t) s' = None)).
Proof.
  intros s userId. split.
  - intros id Hf. unfold TaskRoutes.deleteTask.
    now rewrite (getTaskById_absent s id userId Hf).
  - intros t Hf. split; [|split].
    + intro Hm. unfold TaskRoutes.deleteTask.
      now rewrite (getTaskById_not_member s t userId Hf Hm).
    + intros Hm He. unfold TaskRoutes.deleteTask.
      rewrite (getTaskById_member s t userId Hf Hm).
      now rewrite (deleteTask_refused s t userId Hf Hm He).
    + intros Hm He.
      destruct (deleteTask_allowed s t userId Hf Hm He) as (s' & Hrun & Hgone).
      exists s'. split; [|exact Hgone].
      unfold TaskRoutes.deleteTask.
      rewrite (getTaskById_member s t userId Hf Hm), Hrun. reflexivity.
Qed.

Lemma deleteTask_route_answers_witness :
  TaskRoutes.deleteTask 13 Sample.dave Sample.withReview
  = answer (failure 500 "Server error deleting task") Sample.withReview
  /\ TaskRoutes.deleteTask 13 Sample.bob Sample.withReview
     = answer (failure 403 "Insufficient permissions to delete this task")
              Sample.withReview.
Proof.
  destruct (deleteTask_route_answers Sample.withReview Sample.dave)
    as (_ & Hdave).
  destruct (deleteTask_route_answers Sample.withReview Sample.bob)
    as (_ & Hbob).
  split.
  - apply (Hdave Sample.review); reflexivity.
  - destruct (Hbob Sample.review) as (_ & Hrefused & _); [reflexivity|].
    apply Hrefused.
    + exists (mkMember Sample.bob Sample.sprintId "MEMBER"). reflexivity.
    + intros [H|[H|H]]; vm_compute in H; discriminate.
Defined.


Lemma refusedQuietly_answer (s : Store) (r : Response) :
  rs_success r = false -> refusedQuietly s (answer r s).
Proof. intro H. repeat split; assumption. Qed.

Ltac by_message :=
  intros;
  repeat (cbv beta iota;
          match goal with
          | |- context [match ?x with _ => _ end] => is_var x; destruct x
          end);
  assumption.

(** The [catch] blocks compare [error.message] with the messages they
    report; whatever the error, one of their branches is taken. *)
Lemma updateTask_catch {T} (P : T -> Prop) (a b c d : T) (e : Error) :
  P a -> P b -> P c -> P d ->
  P (match e with
     | InsufficientPermissions "edit this task" => a
     | InvalidAssignee => b
     | TaskNotFound => c
     | _ => d
     end).
Proof. by_message. Qed.

Lemma deleteTask_catch {T} (P : T -> Prop) (a b c : T) (e : Error) :
  P a -> P b -> P c ->
  P (match e with
     | InsufficientPermissions "delete this task" => a
     | TaskNotFound => b
     | _ => c
     end).
Proof. by_message. Qed.

Lemma deleteComment_catch {T} (P : T -> Prop) (a b c : T) (e : Error) :
  P a -> P b -> P c ->
  P (match e with
     | CommentNotFound => a
     | InsufficientPermissions "delete this comment" => b
     | _ => c
     end).
Proof. by_message. Qed.

Ltac refused :=
  left; cbv beta iota zeta;
  first [ apply updateTask_catch | apply deleteTask_catch
        | apply deleteComment_catch
        | match goal with e : Error |- _ => destruct e end ];
  apply refusedQuietly_answer; reflexivity.

Lemma getTaskById_same_tables (s s1 : Store) (t : Task) (userId : Id) :
  tasks s1 = tasks s -> members s1 = members s ->
  task_findUnique (t_id t) s = Some t ->
  isMemberOf s (t_projectId t) userId ->
  TaskService.getTaskById (t_id t) userId s1 = Ok (taskDetailsOf s1 t, s1).
Proof.
  intros Ht Hm Hf [m Hmem]. apply getTaskById_member.
  - unfold task_findUnique. now rewrite Ht.
  - exists m. unfold projectMember_findUnique in *. now rewrite Hm.
Qed.

Lemma createTask_route_ends (s : Store) (validationFailed : bool)
      (projectId : Id) (body : TaskService.TaskData) (userId : Id) :
  let h := TaskRoutes.createTask validationFailed projectId body userId s in
  refusedQuietly s h \/ servedInOwnProject s userId h.
Proof.
  destruct validationFailed; [left; repeat split; reflexivity|].
  destruct (TaskService.createTask body projectId userId s) as [[t s']|e] eqn:Hrun;
    unfold TaskRoutes.createTask; rewrite Hrun.
  - right. split; [reflexivity|]. eexists. eexists. split; [reflexivity|].
    now apply createTask_ok in Hrun.
  - refused.
Qed.

Lemma updateTask_route_ends (s : Store) (validationFailed : bool) (id : Id)
      (body : Body TaskService.UpdateData) (userId : Id) :
  let h := TaskRoutes.updateTask validationFailed id body userId s in
  refusedQuietly s h \/ servedInOwnProject s userId h.
Proof.
  destruct validationFailed; [left; repeat split; reflexivity|].
  destruct (TaskService.updateTask id (TaskRoutes.received body) userId s)
    as [[t' s']|e] eqn:Hrun;
    unfold TaskRoutes.updateTask; rewrite Hrun.
  - destruct (TaskRoutes.writable body s);
      [|left; apply refusedQuietly_answer; reflexivity].
    right. split; [reflexivity|]. eexists. eexists. split; [reflexivity|].
    destruct (updateTask_ok _ _ _ _ _ _ Hrun) as (t & Hf & <- & Hm & He).
    destruct (updateTask_detail s t (TaskRoutes.received body) userId Hf Hm He)
      as (s1 & Hrun1 & _).
    rewrite Hrun1 in Hrun. injection Hrun as <- _. exact Hm.
  - refused.
Qed.

Lemma deleteTask_route_ends (s : Store) (id userId : Id) :
  let h := TaskRoutes.deleteTask id userId s in
  refusedQuietly s h \/ servedInOwnProject s userId h.
Proof.
  destruct (TaskService.getTaskById id userId s) as [[d s1]|e] eqn:Hget.
  - pose proof Hget as Hok. apply getTaskById_ok in Hok.
    destruct Hok as (-> & _ & _ & Hm).
    destruct (TaskService.deleteTask id userId s) as [[r s']|e] eqn:Hrun;
      unfold TaskRoutes.deleteTask; rewrite Hget, Hrun.
    + right. split; [reflexivity|]. eexists. eexists.
      split; [reflexivity|exact Hm].
    + refused.
  - unfold TaskRoutes.deleteTask. rewrite Hget. refused.
Qed.

Lemma addComment_route_ends (s : Store) (validationFailed : bool) (id : Id)
      (content : string) (userId : Id) :
  let h := TaskRoutes.addComment validationFailed id content userId s in
  refusedQuietly s h \/ servedInOwnProject s userId h.
Proof.
  destruct validationFailed; [left; repeat split; reflexivity|].
  destruct (TaskService.addComment id content userId s) as [[c s1]|e] eqn:Hrun;
    unfold TaskRoutes.addComment; rewrite Hrun.
  - right.
    destruct (addComment_ok _ _ _ _ _ _ Hrun) as (t & Hf & <- & Hm).
    destruct (addComment_detail s t content userId Hf Hm)
      as (s2 & Hrun2 & _ & _ & Htasks & Hmembers & _).
    rewrite Hrun2 in Hrun. injection Hrun as _ ->.
    rewrite (getTaskById_same_tables s s1 t userId Htasks Hmembers Hf Hm).
    split; [reflexivity|]. eexists. eexists. split; [reflexivity|exact Hm].
  - left. repeat split; reflexivity.
Qed.

Lemma updateComment_route_ends (s : Store) (validationFailed : bool)
      (id commentId : Id) (content : string) (userId : Id) :
  let h := TaskRoutes.updateComment validationFailed id commentId content
                                    userId s in
  refusedQuietly s h \/ servedInOwnProject s userId h.
Proof.
  destruct validationFailed; [left; repeat split; reflexivity|].
  destruct (TaskService.updateComment id commentId content userId s)
    as [[c s1]|e] eqn:Hrun;
    unfold TaskRoutes.updateComment; rewrite Hrun.
  - right.
    destruct (TaskService.getTaskById id userId s) as [[d s0]|e] eqn:Hget.
    + apply getTaskById_ok in Hget. destruct Hget as (_ & Hf & <- & Hm).
      rewrite (updateComment_unfold s (td_task d) commentId content userId Hf Hm)
        in Hrun.
      destruct (comment_findUnique commentId s) as [x|]; [|discriminate].
      destruct (cm_authorId x =? userId)%nat; [|discriminate].
      injection Hrun as _ <-.
      match goal with
      | |- context [TaskService.getTaskById _ _ ?s1] =>
          rewrite (getTaskById_same_tables s s1 (td_task d) userId
                     eq_refl eq_refl Hf Hm)
      end.
      split; [reflexivity|]. eexists. eexists. split; [reflexivity|exact Hm].
    + unfold TaskService.updateComment in Hrun. unfold bind at 1 in Hrun.
      rewrite Hget in Hrun. discriminate.
  - left. cbv beta iota zeta. destruct e; apply refusedQuietly_answer; reflexivity.
Qed.

Lemma deleteComment_route_ends (s : Store) (id commentId userId : Id) :
  let h := TaskRoutes.deleteComment id commentId userId s in
  refusedQuietly s h \/ servedInOwnProject s userId h.
Proof.
  destruct (TaskService.getTaskById id userId s) as [[d s1]|e] eqn:Hget.
  - pose proof Hget as Hok. apply getTaskById_ok in Hok.
    destruct Hok as (-> & _ & _ & Hm).
    destruct (TaskService.deleteComment id commentId userId s)
      as [[r s']|e] eqn:Hrun;
      unfold TaskRoutes.deleteComment; rewrite Hget, Hrun.
    + right. split; [reflexivity|]. eexists. eexists.
      split; [reflexivity|exact Hm].
    + refused.
  - unfold TaskRoutes.deleteComment. rewrite Hget. refused.
Qed.

(** X20. Every write request on tasks and comments ends in one of two
    ways.  Either it is refused: the response reports no success, the
    store is as it was and no event is sent.  Or it is served: the
    response reports success and exactly one event is sent, to the room
    of a project of which the requesting user was a member.  No such
    request sends an event to every client or to the room of a project
    the user is not in. *)
Theorem task_routes_refuse_quietly_or_announce_once :
  forall (s : Store) (userId id : Id) (validationFailed : bool),
    (forall body,
        let h := TaskRoutes.createTask validationFailed id body userId s in
        refusedQuietly s h \/ servedInOwnProject s userId h)
    /\ (forall body,
          let h := TaskRoutes.updateTask validationFailed id body userId s in
          refusedQuietly s h \/ servedInOwnProject s userId h)
    /\ (let h := TaskRoutes.deleteTask id userId s in
        refusedQuietly s h \/ servedInOwnProject s userId h)
    /\ (forall content,
          let h := TaskRoutes.addComment validationFailed id content userId s in
          refusedQuietly s h \/ servedInOwnProject s userId h)
    /\ (forall commentId content,
          let h := TaskRoutes.updateComment validationFailed id commentId
                                            content userId s in
          refusedQuietly s h \/ servedInOwnProject s userId h)
    /\ (forall commentId,
          let h := TaskRoutes.deleteComment id commentId userId s in
          refusedQuietly s h \/ servedInOwnProject s userId h).
Proof.
  intros s userId id validationFailed.
  split; [|split; [|split; [|split; [|split]]]].
  - intro body. apply createTask_route_ends.
  - intro body. apply updateTask_route_ends.
  - apply deleteTask_route_ends.
  - intro content. apply addComment_route_ends.
  - intros commentId content. apply updateComment_route_ends.
  - intro commentId. apply deleteComment_route_ends.
Qed.


(** ** The project routes *)

Lemma updateProject_ok (s s' : Store) (id : Id) (d : ProjectService.UpdateData)
      (userId : Id) (u : ProjectService.UpdatedProject) :
  uniqueProjectIds s ->
  ProjectService.updateProject id d userId s = Ok (u, s') ->
  exists p,
    In p (projects s) /\ p_id p = id
    /\ (holdsRole s id userId "OWNER" \/ holdsRole s id userId "ADMIN")
    /\ projects s' = projectsAfterUpdate s id d
    /\ members s' = members s
    /\ columns s' = columnsAfterUpdate s id d
    /\ nextId s <= nextId s'.
Proof.
  intros Hnd Hrun.
  destruct (ProjectService.getProjectById id userId s) as [[d0 s0]|e] eqn:Hget.
  - apply getProjectById_ok in Hget.
    destruct Hget as (_ & _ & Hin & Hid & Hacc).
    set (p := pd_project d0) in *. subst id. exists p.
    destruct (ProjectService.notEditor
                (projectMember_findUnique userId (p_id p) s)) eqn:Hrole.
    + destruct (updateProject_head s p d userId Hnd Hin) as [_ Hdenied].
      rewrite (Hdenied Hacc Hrole) in Hrun. discriminate.
    + apply notEditor_false_iff in Hrole.
      destruct (updateProject_run s p d userId Hnd Hin Hrole)
        as (s1 & Hrun1 & Hp & Hm & Hc & _ & Hnext).
      rewrite Hrun1 in Hrun. injection Hrun as _ <-. auto 10.
  - unfold ProjectService.updateProject in Hrun. unfold bind at 1 in Hrun.
    rewrite Hget in Hrun. discriminate.
Qed.

Lemma updateProject_keeps_invariant (s s' : Store) (id : Id)
      (d : ProjectService.UpdateData) (userId : Id)
      (u : ProjectService.UpdatedProject) :
  wellFormed s -> ownerInvariant s ->
  ProjectService.updateProject id d userId s = Ok (u, s') ->
  wellFormed s' /\ ownerInvariant s'.
Proof.
  intros (Hnd & Hp & Hm & Hc) Hinv Hrun.
  destruct (updateProject_ok s s' id d userId u Hnd Hrun)
    as (p & Hin & Hid & _ & Hprojects & Hmembers & Hcolumns & Hnext).
  assert (Hrows : forall q, In q (projects s') ->
            exists x, In x (projects s) /\ p_id q = p_id x
                      /\ p_ownerId q = p_ownerId x).
  { intros q Hq. rewrite Hprojects in Hq. apply in_map_iff in Hq.
    destruct Hq as (x & <- & Hx). exists x.
    destruct (p_id x =? id)%nat; auto. }
  split.
  - unfold wellFormed, uniqueProjectIds.
    rewrite Hprojects at 1. rewrite projectsAfterUpdate_ids, Hmembers, Hcolumns.
    split; [exact Hnd|]. split; [|split].
    + intros q Hq. destruct (Hrows q Hq) as (x & Hx & -> & _).
      apply Hp in Hx. lia.
    + intros m Hq. apply Hm in Hq. lia.
    + intros c Hq. unfold columnsAfterUpdate in Hq.
      destruct (ProjectService.up_columns d) as [given|].
      * apply in_app_or in Hq. destruct Hq as [Hq|Hq].
        -- apply filter_In in Hq. destruct Hq as [Hq _]. apply Hc in Hq. lia.
        -- apply in_map_iff in Hq. destruct Hq as ([[n o] col] & <- & _).
           cbn. rewrite <- Hid. apply Hp in Hin. lia.
      * apply Hc in Hq. lia.
  - intros q Hq. destruct (Hrows q Hq) as (x & Hx & Hsame & Howner).
    unfold oneOwner, ownerRows. rewrite Hmembers, Hsame, Howner.
    exact (Hinv x Hx).
Qed.

Lemma deleteProject_keeps_invariant (s s' : Store) (id userId : Id) :
  wellFormed s -> ownerInvariant s ->
  ProjectService.deleteProject id userId s = ProjectService.Deleted s' ->
  wellFormed s' /\ ownerInvariant s'.
Proof.
  intros (Hnd & Hp & Hm & Hc) Hinv Hrun.
  unfold ProjectService.deleteProject in Hrun.
  destruct (ProjectService.getProjectById id userId s) as [[d0 s0]|e] eqn:Hget;
    [|discriminate].
  apply getProjectById_ok in Hget. destruct Hget as (-> & _ & Hin & Hid & _).
  destruct (negb _); [discriminate|].
  unfold ProjectService.project_delete, bind, gets, modify in Hrun.
  destruct (List.find _ (projects s)); [|discriminate].
  injection Hrun as <-.
  split.
  - unfold wellFormed, uniqueProjectIds. cbn [projects members columns nextId].
    split; [now apply NoDup_keys_filter|].
    split; [|split]; intros x Hx; apply filter_In in Hx; destruct Hx; auto.
  - intros q Hq. cbn [projects] in Hq. apply filter_In in Hq.
    destruct Hq as [Hq Hother].
    unfold oneOwner, ownerRows. cbn [members].
    rewrite filter_filter_comm.
    pose proof (Hinv q Hq) as Hone. unfold oneOwner, ownerRows in Hone.
    rewrite Hone. cbn [filter m_projectId]. now rewrite Hother.
Qed.

Lemma roleAccepted_not_owner (role : option string) :
  ProjectRoutes.roleAccepted role = true ->
  JS.toUpperCase (orElse (Some (orElse role "MEMBER")) "MEMBER") <> "OWNER".
Proof.
  destruct role as [r|]; cbn [ProjectRoutes.roleAccepted orElse].
  - intro H. apply orb_prop in H.
    destruct H as [H|H]; apply String.eqb_eq in H; subst r;
      vm_compute; discriminate.
  - intros _. vm_compute. discriminate.
Qed.

Lemma addMember_catch {T} (P : T -> Prop) (a b c d : T) (e : Error) :
  P a -> P b -> P c -> P d ->
  P (match e with
     | UserNotFound => a
     | AlreadyMember => b
     | InsufficientPermissions "add members" => c
     | _ => d
     end).
Proof. by_message. Qed.

Lemma removeMember_catch {T} (P : T -> Prop) (a b c : T) (e : Error) :
  P a -> P b -> P c ->
  P (match e with
     | CannotRemoveOwner => a
     | InsufficientPermissions "remove members" => b
     | _ => c
     end).
Proof. by_message. Qed.

(** The store a project route leaves: the one it found, or the one a
    successful call of the service left. *)
Lemma createProject_route_store (s : Store) (validationFailed : bool)
      (body : Body ProjectService.ProjectData) (userId : Id) :
  exists st,
    h_store (ProjectRoutes.createProject validationFailed body userId s) = st
    /\ (st = s
        \/ exists data p,
             ProjectService.createProject data userId s = Ok (p, st)).
Proof.
  unfold ProjectRoutes.createProject.
  destruct validationFailed; [exists s; auto|].
  destruct body as [data|]; [|exists s; auto].
  destruct (ProjectService.createProject data userId s) as [[p s']|e] eqn:Hrun.
  - exists s'. split; [reflexivity|]. right. now exists data, p.
  - exists s. auto.
Qed.

Lemma updateProject_route_store (s : Store) (validationFailed : bool) (id : Id)
      (body : Body ProjectService.UpdateData) (userId : Id) :
  exists st,
    h_store (ProjectRoutes.updateProject validationFailed id body userId s) = st
    /\ (st = s
        \/ exists data u,
             ProjectService.updateProject id data userId s = Ok (u, st)).
Proof.
  unfold ProjectRoutes.updateProject.
  destruct (Middleware.checkProjectMembership userId None (Some id) s)
    as [r|[pid userRole]]; [exists s; auto|].
  destruct (Middleware.checkProjectEditPermission userRole); [exists s; auto|].
  destruct validationFailed; [exists s; auto|].
  destruct body as [data|]; [|exists s; auto].
  destruct (ProjectService.updateProject id data userId s) as [[u s']|e] eqn:Hrun.
  - exists s'. split; [reflexivity|]. right. now exists data, u.
  - exists s. auto.
Qed.

Lemma deleteProject_route_store (s : Store) (id userId : Id) :
  exists st,
    h_store (ProjectRoutes.deleteProject id userId s) = st
    /\ (st = s
        \/ ProjectService.deleteProject id userId s = ProjectService.Deleted st).
Proof.
  unfold ProjectRoutes.deleteProject.
  destruct (ProjectService.deleteProject id userId s) as [s'|e] eqn:Hrun.
  - exists s'. auto.
  - exists s. split; [|auto]. destruct e as [e|]; [destruct e|]; reflexivity.
Qed.

Lemma addMember_route_store (isEmail : string -> bool)
      (normalizeEmail : string -> string) (s : Store) (id : Id)
      (email : string) (role : option string) (userId : Id) :
  exists st,
    h_store (ProjectRoutes.addMember isEmail normalizeEmail id email role
                                     userId s) = st
    /\ (st = s
        \/ (ProjectRoutes.roleAccepted role = true
            /\ exists d,
                 ProjectService.addMember id (normalizeEmail email)
                   (Some (orElse role "MEMBER")) userId s = Ok (d, st))).
Proof.
  destruct (Middleware.checkProjectMembership userId None (Some id) s)
    as [r|[pid userRole]] eqn:Hmember;
    [unfold ProjectRoutes.addMember; rewrite Hmember; exists s; auto|].
  destruct (Middleware.checkProjectEditPermission userRole) eqn:Hedit;
    [unfold ProjectRoutes.addMember; rewrite Hmember, Hedit; exists s; auto|].
  destruct (isEmail email) eqn:Hemail;
    [|unfold ProjectRoutes.addMember; rewrite Hmember, Hedit, Hemail;
      exists s; auto].
  destruct (ProjectRoutes.roleAccepted role) eqn:Hrole;
    [|unfold ProjectRoutes.addMember; rewrite Hmember, Hedit, Hemail, Hrole;
      exists s; auto].
  destruct (ProjectService.addMember id (normalizeEmail email)
              (Some (orElse role "MEMBER")) userId s) as [[d s']|e] eqn:Hrun;
    unfold ProjectRoutes.addMember;
    rewrite Hmember, Hedit, Hemail, Hrole; cbv beta iota zeta;
    cbn [andb negb]; rewrite Hrun.
  - exists s'. split; [reflexivity|]. right. split; [reflexivity|]. now exists d.
  - exists s. split; [|auto].
    cbv beta iota zeta. apply addMember_catch; reflexivity.
Qed.

Lemma removeMember_route_store (s : Store) (id memberUserId userId : Id) :
  exists st,
    h_store (ProjectRoutes.removeMember id memberUserId userId s) = st
    /\ (st = s
        \/ ProjectService.removeMember id memberUserId userId s = Ok (tt, st)).
Proof.
  destruct (Middleware.checkProjectMembership userId None (Some id) s)
    as [r|[pid userRole]] eqn:Hmember;
    [unfold ProjectRoutes.removeMember; rewrite Hmember; exists s; auto|].
  destruct (Middleware.checkProjectEditPermission userRole) eqn:Hedit;
    [unfold ProjectRoutes.removeMember; rewrite Hmember, Hedit; exists s; auto|].
  destruct (ProjectService.removeMember id memberUserId userId s)
    as [[[] s']|e] eqn:Hrun;
    unfold ProjectRoutes.removeMember; rewrite Hmember, Hedit, Hrun.
  - exists s'. auto.
  - exists s. split; [|auto].
    cbv beta iota zeta. apply removeMember_catch; reflexivity.
Qed.

Ltac each_row :=
  let x := fresh "x" in
  let Hx := fresh "Hx" in
  intros x Hx; vm_compute in Hx;
  repeat (destruct Hx as [<-|Hx]; [vm_compute; try lia; reflexivity|]);
  destruct Hx.

(** The sample store after the review task was filed is well formed
    and has one OWNER row for its project. *)
Lemma withReview_invariant :
  wellFormed Sample.withReview /\ ownerInvariant Sample.withReview.
Proof.
  split.
  - unfold wellFormed, uniqueProjectIds. split; [|split; [|split]].
    + vm_compute. constructor; [intros []|constructor].
    + each_row.
    + each_row.
    + each_row.
  - unfold ownerInvariant, oneOwner. each_row.
Qed.

(** X21. No request on the project routes breaks the one-owner rule.
    On a well-formed store in which every project has exactly one OWNER
    row, that of its owner, the store left by POST /api/projects,
    PUT and DELETE /api/projects/:id, POST /api/projects/:id/members
    and DELETE /api/projects/:id/members/:userId is again such a
    store, whatever the request carries and whether it is served or
    refused.  The member route admits the roles ADMIN and MEMBER only,
    so no second OWNER row can be added through it. *)
Theorem project_routes_keep_one_owner :
  forall (isEmail : string -> bool) (normalizeEmail : string -> string)
         (s : Store) (userId id : Id),
    wellFormed s -> ownerInvariant s ->
    (forall validationFailed body,
        let h := ProjectRoutes.createProject validationFailed body userId s in
        wellFormed (h_store h) /\ ownerInvariant (h_store h))
    /\ (forall validationFailed body,
          let h := ProjectRoutes.updateProject validationFailed id body userId s in
          wellFormed (h_store h) /\ ownerInvariant (h_store h))
    /\ (let h := ProjectRoutes.deleteProject id userId s in
        wellFormed (h_store h) /\ ownerInvariant (h_store h))
    /\ (forall email role,
          let h := ProjectRoutes.addMember isEmail normalizeEmail id email role
                                           userId s in
          wellFormed (h_store h) /\ ownerInvariant (h_store h))
    /\ (forall memberUserId,
          let h := ProjectRoutes.removeMember id memberUserId userId s in
          wellFormed (h_store h) /\ ownerInvariant (h_store h)).
Proof.
  intros isEmail normalizeEmail s userId id Hwf Hinv.
  assert (Hsame : wellFormed s /\ ownerInvariant s) by (split; assumption).
  split; [|split; [|split; [|split]]].
  - intros validationFailed body h. subst h.
    destruct (createProject_route_store s validationFailed body userId)
      as (st & -> & [->|(data & p & Hrun)]); [exact Hsame|].
    destruct (createProject_keeps_invariant s st data userId p Hwf Hinv Hrun)
      as (H1 & H2 & _). auto.
  - intros validationFailed body h. subst h.
    destruct (updateProject_route_store s validationFailed id body userId)
      as (st & -> & [->|(data & u & Hrun)]); [exact Hsame|].
    exact (updateProject_keeps_invariant s st id data userId u Hwf Hinv Hrun).
  - intro h. subst h.
    destruct (deleteProject_route_store s id userId)
      as (st & -> & [->|Hrun]); [exact Hsame|].
    exact (deleteProject_keeps_invariant s st id userId Hwf Hinv Hrun).
  - intros email role h. subst h.
    destruct (addMember_route_store isEmail normalizeEmail s id email role userId)
      as (st & -> & [->|(Hrole & d & Hrun)]); [exact Hsame|].
    apply roleAccepted_not_owner in Hrole.
    exact (addMember_keeps_invariant s st id _ _ userId d Hwf Hinv Hrole Hrun).
  - intros memberUserId h. subst h.
    destruct (removeMember_route_store s id memberUserId userId)
      as (st & -> & [->|Hrun]); [exact Hsame|].
    exact (removeMember_keeps_invariant s st id memberUserId userId
             Hwf Hinv Hrun).
Qed.

(** Carol, an ADMIN of "Sprint 1", adds Dave as ADMIN through the
    member route: a row is written and the rule holds after it. *)
Lemma project_routes_keep_one_owner_witness :
  let h := ProjectRoutes.addMember (fun _ => true) (fun e => e) Sample.sprintId
                                   "dave@x.com" (Some "ADMIN") Sample.carol
                                   Sample.withReview in
  List.length (members (h_store h)) = S (List.length (members Sample.withReview))
  /\ wellFormed (h_store h) /\ ownerInvariant (h_store h).
Proof.
  destruct withReview_invariant as [Hwf Hinv].
  destruct (project_routes_keep_one_owner (fun _ => true) (fun e => e)
              Sample.withReview Sample.carol Sample.sprintId Hwf Hinv)
    as (_ & _ & _ & Hadd & _).
  split; [vm_compute; reflexivity|].
  exact (Hadd "dave@x.com" (Some "ADMIN")).
Defined.


(** *** Behind the two checks *)

Lemma checkProjectMembership_run (s : Store) (userId id : Id) :
  Middleware.checkProjectMembership userId None (Some id) s
  = if isSome (projectMember_findUnique userId id s)
    then Middleware.Next (id, roleOf s id userId)
    else Middleware.Stop (failure 403 "Access denied - not a project member").
Proof.
  unfold Middleware.checkProjectMembership.
  rewrite isProjectMember_run.
  destruct (isSome _); cbn [negb]; [|reflexivity].
  now rewrite getUserRole_run.
Qed.

Lemma checkProjectEditPermission_editor (s : Store) (id userId : Id) :
  isEditor s id userId ->
  Middleware.checkProjectEditPermission (roleOf s id userId)
  = Middleware.Next tt.
Proof.
  unfold Middleware.checkProjectEditPermission.
  intros [H|H]; apply roleIs_holdsRole in H; rewrite H;
    [reflexivity | now rewrite andb_false_r].
Qed.

Lemma checkProjectEditPermission_other (s : Store) (id userId : Id) :
  ~ isEditor s id userId ->
  Middleware.checkProjectEditPermission (roleOf s id userId)
  = Middleware.Stop (failure 403 "Insufficient permissions to edit this project").
Proof.
  unfold Middleware.checkProjectEditPermission, isEditor. intro H.
  destruct (TaskService.roleIs (roleOf s id userId) "OWNER") eqn:H1.
  { exfalso. apply H. left. now apply roleIs_holdsRole. }
  destruct (TaskService.roleIs (roleOf s id userId) "ADMIN") eqn:H2.
  { exfalso. apply H. right. now apply roleIs_holdsRole. }
  reflexivity.
Qed.

Lemma isEditor_member (s : Store) (id userId : Id) :
  isEditor s id userId ->
  isSome (projectMember_findUnique userId id s) = true.
Proof. intros [H|H]; exact (holdsRole_member _ _ _ _ H). Qed.

Ltac pass_checks Heditor :=
  rewrite checkProjectMembership_run, (isEditor_member _ _ _ Heditor),
    (checkProjectEditPermission_editor _ _ _ Heditor).

(** X22. What DELETE /api/projects/:id/members/:userId answers for a
    project that exists.  A requester without a member row: 403
    "Access denied - not a project member".  A member who is not an
    editor: 403 "Insufficient permissions to edit this project", from
    the middleware; the service's own "Insufficient permissions to
    remove members" is never reached.  An editor naming the project's
    owner: 400 "Cannot remove project owner".  An editor naming a user
    who is not a member: 500 "Server error removing member".  An editor
    naming another member: 200, the member row is gone and one
    "member-removed" event goes to the project's room. *)
Theorem removeMember_route_answers :
  forall (s : Store) (p : Project) (memberUserId userId : Id),
    uniqueProjectIds s ->
    In p (projects s) ->
    let h := ProjectRoutes.removeMember (p_id p) memberUserId userId s in
    (projectMember_findUnique userId (p_id p) s = None ->
       h = answer (failure 403 "Access denied - not a project member") s)
    /\ (isMemberOf s (p_id p) userId -> ~ isEditor s (p_id p) userId ->
          h = answer (failure 403 "Insufficient permissions to edit this project")
                     s)
    /\ (isEditor s (p_id p) userId -> memberUserId = p_ownerId p ->
          h = answer (failure 400 "Cannot remove project owner") s)
    /\ (isEditor s (p_id p) userId -> memberUserId <> p_ownerId p ->
          projectMember_findUnique memberUserId (p_id p) s = None ->
          h = answer (failure 500 "Server error removing member") s)
    /\ (isEditor s (p_id p) userId -> memberUserId <> p_ownerId p ->
          isMemberOf s (p_id p) memberUserId ->
          exists s',
            h = mkHandled
                  (mkResponse 200 true (Some "Member removed successfully")
                              NoData)
                  s'
                  [mkEmit (Some (p_id p))
                          (MemberRemoved (p_id p) memberUserId userId)]
            /\ projectMember_findUnique memberUserId (p_id p) s' = None).
Proof.
  intros s p memberUserId userId Hnd Hin h. subst h.
  split; [|split; [|split; [|split]]].
  - intro Hnone. unfold ProjectRoutes.removeMember.
    now rewrite checkProjectMembership_run, Hnone.
  - intros [m Hm] Hno. unfold ProjectRoutes.removeMember.
    rewrite checkProjectMembership_run, Hm. cbn [isSome].
    now rewrite (checkProjectEditPermission_other _ _ _ Hno).
  - intros Heditor ->. unfold ProjectRoutes.removeMember. pass_checks Heditor.
    rewrite removeMember_unfold by assumption.
    rewrite (editor_canAccess s p userId Heditor). cbn [negb].
    apply notEditor_false_iff in Heditor. rewrite Heditor, Nat.eqb_refl.
    reflexivity.
  - intros Heditor Hne Hnone. unfold ProjectRoutes.removeMember.
    pass_checks Heditor.
    rewrite (removeMember_result s p memberUserId userId Hnd Hin Heditor Hne).
    now rewrite Hnone.
  - intros Heditor Hne [m Hm]. unfold ProjectRoutes.removeMember.
    pass_checks Heditor.
    rewrite (removeMember_result s p memberUserId userId Hnd Hin Heditor Hne).
    rewrite Hm. cbn [isSome]. eexists. split; [reflexivity|].
    rewrite findUnique_after_removal. now rewrite !Nat.eqb_refl.
Qed.

Lemma removeMember_route_answers_witness :
  ProjectRoutes.removeMember Sample.sprintId Sample.alice Sample.carol
    Sample.withReview
  = answer (failure 400 "Cannot remove project owner") Sample.withReview
  /\ ProjectRoutes.removeMember Sample.sprintId Sample.dave Sample.carol
       Sample.withReview
     = answer (failure 500 "Server error removing member") Sample.withReview
  /\ ProjectRoutes.removeMember Sample.sprintId Sample.carol Sample.bob
       Sample.withReview
     = answer (failure 403 "Insufficient permissions to edit this project")
              Sample.withReview.
Proof.
  assert (Hnd : uniqueProjectIds Sample.withReview).
  { unfold uniqueProjectIds. vm_compute. constructor; [intros []|constructor]. }
  assert (Hin : In Sample.sprint (projects Sample.withReview))
    by (vm_compute; left; reflexivity).
  assert (Hcarol : isEditor Sample.withReview Sample.sprintId Sample.carol)
    by (right; reflexivity).
  destruct (removeMember_route_answers Sample.withReview Sample.sprint
              Sample.alice Sample.carol Hnd Hin) as (_ & _ & Howner & _).
  destruct (removeMember_route_answers Sample.withReview Sample.sprint
              Sample.dave Sample.carol Hnd Hin) as (_ & _ & _ & Habsent & _).
  destruct (removeMember_route_answers Sample.withReview Sample.sprint
              Sample.carol Sample.bob Hnd Hin) as (_ & Hbob & _).
  split; [|split].
  - apply Howner; [exact Hcarol|reflexivity].
  - apply Habsent; [exact Hcarol | vm_compute; lia | reflexivity].
  - apply Hbob.
    + exists (mkMember Sample.bob Sample.sprintId "MEMBER"). reflexivity.
    + intros [H|H]; vm_compute in H; discriminate.
Defined.

Lemma toUpperCase_accepted (role : option string) :
  ProjectRoutes.roleAccepted role = true ->
  JS.toUpperCase (orElse (Some (orElse role "MEMBER")) "MEMBER")
  = orElse role "MEMBER"
  /\ (orElse role "MEMBER" = "ADMIN" \/ orElse role "MEMBER" = "MEMBER").
Proof.
  destruct role as [r|]; cbn [ProjectRoutes.roleAccepted orElse].
  - intro H. apply orb_prop in H.
    destruct H as [H|H]; apply String.eqb_eq in H; subst r;
      (split; [vm_compute; reflexivity|auto]).
  - intros _. split; [vm_compute; reflexivity|auto].
Qed.

(** X23. What POST /api/projects/:id/members answers for a project
    that exists.  A requester without a member row, or one who is not
    an editor, is stopped with 403 by the middleware.  For an editor: a
    body whose email is not an email, or whose role is given and is
    neither ADMIN nor MEMBER, gets 400 "Validation failed"; an email
    that, normalised and in lower case, is no user's gets 400 "User not
    found"; the email of a member gets 400 "User is already a member of
    this project"; otherwise the answer is 200, the user is a member
    with exactly the role given, MEMBER when none was, and one
    "member-added" event goes to the project's room.  Nothing is
    written unless the answer is 200. *)
Theorem addMember_route_answers :
  forall (isEmail : string -> bool) (normalizeEmail : string -> string)
         (s : Store) (p : Project) (email : string) (role : option string)
         (userId : Id),
    uniqueProjectIds s ->
    In p (projects s) ->
    let h := ProjectRoutes.addMember isEmail normalizeEmail (p_id p) email role
                                     userId s in
    (projectMember_findUnique userId (p_id p) s = None ->
       h = answer (failure 403 "Access denied - not a project member") s)
    /\ (isMemberOf s (p_id p) userId -> ~ isEditor s (p_id p) userId ->
          h = answer (failure 403 "Insufficient permissions to edit this project")
                     s)
    /\ (isEditor s (p_id p) userId ->
        isEmail email = false \/ ProjectRoutes.roleAccepted role = false ->
          h = answer ProjectRoutes.validationFailure s)
    /\ (isEditor s (p_id p) userId ->
        isEmail email = true -> ProjectRoutes.roleAccepted role = true ->
          match List.find (fun x => (u_email x
                                     =? JS.toLowerCase (normalizeEmail email))%string)
                          (users s) with
          | None => h = answer (failure 400 "User not found") s
          | Some u =>
              if isSome (projectMember_findUnique (u_id u) (p_id p) s)
              then h = answer
                         (failure 400 "User is already a member of this project")
                         s
              else exists s',
                     h = mkHandled
                           (mkResponse 200 true (Some "Member added successfully")
                                       (ProjectWithRelations (detailsOf s' p)))
                           s'
                           [mkEmit (Some (p_id p))
                                   (MemberAdded (detailsOf s' p)
                                                (normalizeEmail email) userId)]
                     /\ roleOf s' (p_id p) (u_id u) = Some (orElse role "MEMBER")
                     /\ (orElse role "MEMBER" = "ADMIN"
                         \/ orElse role "MEMBER" = "MEMBER")
          end).
Proof.
  intros isEmail normalizeEmail s p email role userId Hnd Hin h. subst h.
  split; [|split; [|split]].
  - intro Hnone. unfold ProjectRoutes.addMember.
    now rewrite checkProjectMembership_run, Hnone.
  - intros [m Hm] Hno. unfold ProjectRoutes.addMember.
    rewrite checkProjectMembership_run, Hm. cbn [isSome].
    now rewrite (checkProjectEditPermission_other _ _ _ Hno).
  - intros Heditor Hbad. unfold ProjectRoutes.addMember. pass_checks Heditor.
    destruct Hbad as [-> | ->]; [reflexivity|].
    now rewrite andb_false_r.
  - intros Heditor Hemail Hrole. unfold ProjectRoutes.addMember.
    pass_checks Heditor. rewrite Hemail, Hrole. cbn [andb negb].
    destruct (addMember_head s p (normalizeEmail email)
                (Some (orElse role "MEMBER")) userId Hnd Hin Heditor)
      as [Hunknown Hmember].
    destruct (List.find _ (users s)) as [u|] eqn:Hu.
    + destruct (projectMember_findUnique (u_id u) (p_id p) s) as [m|] eqn:Hm;
        cbn [isSome].
      * rewrite (Hmember u eq_refl); [reflexivity|]. now exists m.
      * rewrite (addMember_result s p u (normalizeEmail email)
                   (Some (orElse role "MEMBER")) userId Hnd Hin Heditor Hu Hm).
        destruct (toUpperCase_accepted role Hrole) as [Hupper Hwhich].
        rewrite Hupper. eexists. split; [reflexivity|]. split; [|exact Hwhich].
        unfold roleOf. rewrite findUnique_after_append, Hm.
        cbn [m_userId m_projectId]. rewrite !Nat.eqb_refl. cbn.
        destruct Hwhich as [-> | ->]; reflexivity.
    + now rewrite (Hunknown eq_refl).
Qed.


Lemma addMember_route_answers_witness :
  ProjectRoutes.addMember (fun _ => true) (fun e => e) Sample.sprintId
    "dave@x.com" (Some "OWNER") Sample.carol Sample.withReview
  = answer ProjectRoutes.validationFailure Sample.withReview
  /\ ProjectRoutes.addMember (fun _ => true) (fun e => e) Sample.sprintId
       "bob@x.com" None Sample.carol Sample.withReview
     = answer (failure 400 "User is already a member of this project")
              Sample.withReview
  /\ exists s',
       h_store (ProjectRoutes.addMember (fun _ => true) (fun e => e)
                  (p_id Sample.sprint) "dave@x.com" None Sample.carol
                  Sample.withReview) = s'
       /\ roleOf s' (p_id Sample.sprint) Sample.dave = Some "MEMBER".
Proof.
  assert (Hnd : uniqueProjectIds Sample.withReview).
  { unfold uniqueProjectIds. vm_compute. constructor; [intros []|constructor]. }
  assert (Hin : In Sample.sprint (projects Sample.withReview))
    by (vm_compute; left; reflexivity).
  assert (Hcarol : isEditor Sample.withReview Sample.sprintId Sample.carol)
    by (right; reflexivity).
  destruct (addMember_route_answers (fun _ => true) (fun e => e)
              Sample.withReview Sample.sprint "dave@x.com" (Some "OWNER")
              Sample.carol Hnd Hin) as (_ & _ & Hinvalid & _).
  destruct (addMember_route_answers (fun _ => true) (fun e => e)
              Sample.withReview Sample.sprint "bob@x.com" None
              Sample.carol Hnd Hin) as (_ & _ & _ & Hbob).
  destruct (addMember_route_answers (fun _ => true) (fun e => e)
              Sample.withReview Sample.sprint "dave@x.com" None
              Sample.carol Hnd Hin) as (_ & _ & _ & Hdave).
  split; [|split].
  - apply Hinvalid; [exact Hcarol | right; reflexivity].
  - exact (Hbob Hcarol eq_refl eq_refl).
  - pose proof (Hdave Hcarol eq_refl eq_refl) as H.
    match type of H with
    | match ?found with _ => _ end =>
        assert (Hu : found = Some (mkUser Sample.dave "Dave" "dave@x.com" None))
          by (vm_compute; reflexivity);
        rewrite Hu in H
    end.
    match type of H with
    | if ?member then _ else _ =>
        assert (Hm : member = false) by (vm_compute; reflexivity);
        rewrite Hm in H
    end.
    destruct H as (s' & Hrun & Hrole & _).
    exists s'. split; [|exact Hrole].
    rewrite Hrun. reflexivity.
Defined.




(** X25. What DELETE /api/projects/:id answers.  An id that names no
    project and a project the requester cannot access both get 403
    "Project not found or access denied"; a requester who can access the
    project but is not its owner, an ADMIN included, gets 403 "Only
    project owner can delete the project"; in both cases nothing is
    written.  The owner gets 200, the project is gone, and the
    "project-deleted" event goes to every connected client, not to the
    project's room. *)
Theorem deleteProject_route_answers :
  forall (s : Store) (userId : Id),
    uniqueProjectIds s ->
    (forall id, (forall q, In q (projects s) -> p_id q <> id) ->
       ProjectRoutes.deleteProject id userId s
       = answer (failure 403 "Project not found or access denied") s)
    /\ (forall p, In p (projects s) ->
          (canAccess s userId p = false ->
             ProjectRoutes.deleteProject (p_id p) userId s
             = answer (failure 403 "Project not found or access denied") s)
          /\ (canAccess s userId p = true -> p_ownerId p <> userId ->
                ProjectRoutes.deleteProject (p_id p) userId s
                = answer (failure 403 "Only project owner can delete the project")
                         s)
          /\ (p_ownerId p = userId ->
                exists s',
                  ProjectRoutes.deleteProject (p_id p) userId s
                  = mkHandled
                      (mkResponse 200 true (Some "Project deleted successfully")
                                  NoData)
                      s' [mkEmit None (ProjectDeleted (p_id p) userId)]
                  /\ (forall q, In q (projects s') -> p_id q <> p_id p))).
Proof.
  intros s userId Hnd. split.
  - intros id Habsent.
    unfold ProjectRoutes.deleteProject, ProjectService.deleteProject.
    rewrite getProjectById_unfold.
    replace (List.find _ (projects s)) with (@None Project); [reflexivity|].
    symmetry. apply find_none_iff. intros q Hq.
    apply Habsent in Hq. apply Nat.eqb_neq in Hq. now rewrite Hq.
  - intros p Hin. unfold ProjectRoutes.deleteProject.
    rewrite (deleteProject_run s p userId Hnd Hin).
    split; [|split].
    + intros ->. reflexivity.
    + intros -> Hne. apply Nat.eqb_neq in Hne. now rewrite Hne.
    + intros <-.
      assert (Hacc : canAccess s (p_ownerId p) p = true)
        by (unfold canAccess; now rewrite Nat.eqb_refl).
      rewrite Hacc, Nat.eqb_refl. cbn [negb].
      unfold ProjectService.project_delete, bind, gets, modify.
      rewrite (find_by_key p_id (projects s) p Hnd Hin).
      eexists. split; [reflexivity|].
      intros q Hq. cbn [projects] in Hq. apply filter_In in Hq.
      destruct Hq as [_ Hq]. apply negb_true_iff in Hq.
      now apply Nat.eqb_neq.
Qed.

Lemma deleteProject_route_answers_witness :
  ProjectRoutes.deleteProject 99 Sample.carol Sample.withReview
  = answer (failure 403 "Project not found or access denied") Sample.withReview
  /\ ProjectRoutes.deleteProject (p_id Sample.sprint) Sample.dave
       Sample.withReview
     = answer (failure 403 "Project not found or access denied")
              Sample.withReview
  /\ ProjectRoutes.deleteProject (p_id Sample.sprint) Sample.carol
       Sample.withReview
     = answer (failure 403 "Only project owner can delete the project")
              Sample.withReview.
Proof.
  assert (Hnd : uniqueProjectIds Sample.withReview).
  { unfold uniqueProjectIds. vm_compute. constructor; [intros []|constructor]. }
  assert (Hin : In Sample.sprint (projects Sample.withReview))
    by (vm_compute; left; reflexivity).
  destruct (deleteProject_route_answers Sample.withReview Sample.carol Hnd)
    as (Habsent & Hcarol).
  destruct (deleteProject_route_answers Sample.withReview Sample.dave Hnd)
    as (_ & Hdave).
  split; [|split].
  - apply Habsent. intros q Hq. vm_compute in Hq.
    destruct Hq as [<-|[]]. vm_compute. lia.
  - apply (Hdave Sample.sprint Hin). reflexivity.
  - apply (Hcarol Sample.sprint Hin); [reflexivity | vm_compute; lia].
Defined.



(** ** Listing the tasks of a project *)







(** ** The user's own tasks *)

Lemma bump_count (k status : string) (groups : list (string * nat)) :
  groupCount k (UserService.bump status groups)
  = if (status =? k)%string then S (groupCount k groups) else groupCount k groups.
Proof.
  unfold groupCount. induction groups as [|[k0 n] r IH]; cbn [UserService.bump].
  - cbn. destruct (status =? k)%string; reflexivity.
  - destruct (String.eqb_spec k0 status) as [->|Hne]; cbn [List.find fst snd].
    + destruct (status =? k)%string; reflexivity.
    + destruct (String.eqb_spec k0 k) as [->|Hk].
      * apply String.eqb_neq in Hne. rewrite String.eqb_sym in Hne.
        now rewrite Hne.
      * exact IH.
Qed.

Lemma bump_total (status : string) (groups : list (string * nat)) :
  groupTotal (UserService.bump status groups) = S (groupTotal groups).
Proof.
  unfold groupTotal.
  induction groups as [|[k0 n] r IH]; cbn [UserService.bump]; [reflexivity|].
  destruct (k0 =? status)%string; cbn [fold_right snd]; [lia|].
  rewrite IH. lia.
Qed.

Lemma bump_keys (status : string) (groups : list (string * nat)) :
  NoDup (map fst groups) -> NoDup (map fst (UserService.bump status groups)).
Proof.
  assert (Hin : forall k g, In k (map fst (UserService.bump status g)) ->
                            k = status \/ In k (map fst g)).
  { intros k g. induction g as [|[k0 n] r IH]; cbn [UserService.bump].
    - cbn. intuition.
    - destruct (k0 =? status)%string; cbn; intuition. }
  induction groups as [|[k0 n] r IH]; cbn [UserService.bump]; intro Hnd.
  - cbn. constructor; [intros []|constructor].
  - inversion Hnd as [|? ? Hnotin Hnd']; subst.
    destruct (String.eqb_spec k0 status) as [->|Hne]; cbn [map fst].
    + constructor; assumption.
    + constructor; [|now apply IH].
      intro H. apply Hin in H. destruct H as [H|H]; [congruence|].
      now apply Hnotin.
Qed.

Lemma groupByStatus_from (l : list Task) (acc : list (string * nat)) :
  let groups := fold_left (fun g t => UserService.bump (t_status t) g) l acc in
  (forall k, groupCount k groups = groupCount k acc + countStatus k l)
  /\ groupTotal groups = groupTotal acc + List.length l
  /\ (NoDup (map fst acc) -> NoDup (map fst groups)).
Proof.
  revert acc. induction l as [|t l IH]; intro acc; cbn [fold_left].
  - unfold countStatus. cbn. repeat split; auto.
  - destruct (IH (UserService.bump (t_status t) acc)) as (Hc & Ht & Hk).
    split; [|split].
    + intro k. rewrite Hc, bump_count. unfold countStatus. cbn [filter].
      destruct (t_status t =? k)%string; cbn [List.length]; lia.
    + rewrite Ht, bump_total. cbn [List.length]. lia.
    + intro Hnd. apply Hk. now apply bump_keys.
Qed.

Lemma formatStats_from (groups : list (string * nat))
      (init : UserService.FormattedStats) :
  NoDup (map fst groups) ->
  let counter (k : string) (old : nat) :=
    match List.find (fun g => (fst g =? k)%string) groups with
    | Some g => snd g
    | None => old
    end in
  let f := fold_left UserService.addStat groups init in
  UserService.fs_total f = UserService.fs_total init + groupTotal groups
  /\ UserService.fs_todo f = counter "To Do" (UserService.fs_todo init)
  /\ UserService.fs_inProgress f
     = counter "In Progress" (UserService.fs_inProgress init)
  /\ UserService.fs_review f = counter "Review" (UserService.fs_review init)
  /\ UserService.fs_done f = counter "Done" (UserService.fs_done init)
  /\ UserService.fs_overdue f = UserService.fs_overdue init.
Proof.
  revert init. induction groups as [|[k n] r IH]; intros init Hnd.
  - cbn. repeat split; lia.
  - inversion Hnd as [|? ? Hnotin Hnd']; subst.
    assert (Hgone : List.find (fun g => (fst g =? k)%string) r = None).
    { apply find_none_iff. intros g Hg. apply String.eqb_neq. intros <-.
      apply Hnotin. now apply in_map. }
    cbn [fold_left]. specialize (IH (UserService.addStat init (k, n)) Hnd').
    cbv zeta in IH. destruct IH as (H1 & H2 & H3 & H4 & H5 & H6).
    cbv zeta. rewrite H1, H2, H3, H4, H5, H6. clear H1 H2 H3 H4 H5 H6.
    cbn [List.find fst snd groupTotal fold_right].
    unfold UserService.addStat.
    destruct (String.eqb_spec k "To Do") as [->|N1].
    { rewrite Hgone. cbn. repeat split; try reflexivity. unfold groupTotal. lia. }
    destruct (String.eqb_spec k "In Progress") as [->|N2].
    { rewrite Hgone. cbn. repeat split; try reflexivity. unfold groupTotal. lia. }
    destruct (String.eqb_spec k "Review") as [->|N3].
    { rewrite Hgone. cbn. repeat split; try reflexivity. unfold groupTotal. lia. }
    destruct (String.eqb_spec k "Done") as [->|N4].
    { rewrite Hgone. cbn. repeat split; try reflexivity. unfold groupTotal. lia. }
    cbn. repeat split; try reflexivity. unfold groupTotal. lia.
Qed.

Lemma filter_filter_both {A} (f g : A -> bool) (l : list A) :
  filter f (filter g l) = filter (fun x => g x && f x) l.
Proof.
  induction l as [|x l IH]; cbn; [reflexivity|].
  destruct (g x); cbn; [destruct (f x); now rewrite IH | exact IH].
Qed.

Lemma statuses_partition (l : list Task) :
  List.length l
  = countStatus "To Do" l + countStatus "In Progress" l
    + countStatus "Review" l + countStatus "Done" l
    + List.length (filter uncounted l).
Proof.
  unfold countStatus, uncounted.
  induction l as [|t l IH]; [reflexivity|]. cbn [filter List.length].
  destruct (String.eqb_spec (t_status t) "To Do") as [E|N1].
  { rewrite ?E. cbn. lia. }
  destruct (String.eqb_spec (t_status t) "In Progress") as [E|N2].
  { rewrite ?E. cbn. lia. }
  destruct (String.eqb_spec (t_status t) "Review") as [E|N3].
  { rewrite ?E. cbn. lia. }
  destruct (String.eqb_spec (t_status t) "Done") as [E|N4].
  { rewrite ?E. cbn. lia. }
  cbn. lia.
Qed.

(** X28. The task counters of the dashboard.  With [mine] the tasks
    assigned to the user that are not archived, whatever projects they
    are in: [total] is the number of tasks in [mine]; [todo],
    [inProgress], [review] and [done] are the numbers of tasks in
    [mine] with status "To Do", "In Progress", "Review" and "Done";
    [total] exceeds their sum by the number of tasks in [mine] with any
    other status, "Completed" among them; [overdue] is the number of
    tasks in [mine] due before now whose status is neither "Done" nor
    "Completed".  Nothing is written. *)
Theorem dashboard_counters :
  forall (s : Store) (userId : Id),
    let mine := filter (UserService.assignedOpen userId) (tasks s) in
    exists st,
      UserService.getUserTaskStats userId s = Ok (st, s)
      /\ let f := UserService.formatStats st in
         UserService.fs_total f = List.length mine
         /\ UserService.fs_todo f = countStatus "To Do" mine
         /\ UserService.fs_inProgress f = countStatus "In Progress" mine
         /\ UserService.fs_review f = countStatus "Review" mine
         /\ UserService.fs_done f = countStatus "Done" mine
         /\ UserService.fs_total f
            = UserService.fs_todo f + UserService.fs_inProgress f
              + UserService.fs_review f + UserService.fs_done f
              + List.length (filter uncounted mine)
         /\ UserService.fs_overdue f
            = List.length
                (filter (fun t => UserService.dueBefore (clock s) t
                                  && UserService.notDone t) mine).
Proof.
  intros s userId mine.
  eexists. split; [reflexivity|].
  unfold UserService.formatStats.
  cbn [UserService.stats UserService.overdue].
  fold mine.
  destruct (groupByStatus_from mine []) as (Hcount & Htotal & Hkeys).
  cbv zeta in Hcount, Htotal, Hkeys.
  fold (UserService.groupByStatus mine) in Hcount, Htotal, Hkeys.
  destruct (formatStats_from (UserService.groupByStatus mine)
              (UserService.mkFormattedStats 0 0 0 0 0
                 (List.length
                    (filter (fun t => UserService.assignedOpen userId t
                                      && UserService.dueBefore (clock s) t
                                      && UserService.notDone t) (tasks s))))
              (Hkeys (NoDup_nil _)))
    as (H1 & H2 & H3 & H4 & H5 & H6).
  cbn [UserService.fs_total UserService.fs_todo UserService.fs_inProgress
       UserService.fs_review UserService.fs_done UserService.fs_overdue]
    in H1, H2, H3, H4, H5, H6.
  assert (Hget : forall k,
            match List.find (fun g => (fst g =? k)%string)
                            (UserService.groupByStatus mine) with
            | Some g => snd g
            | None => 0
            end = countStatus k mine).
  { intro k. exact (Hcount k). }
  cbv zeta. rewrite H1, H2, H3, H4, H5, H6, !Hget, Htotal.
  cbn [groupTotal fold_right Nat.add].
  repeat split; try reflexivity.
  - apply statuses_partition.
  - unfold mine. rewrite filter_filter_both. f_equal.
    apply filter_ext. intro t. now rewrite andb_assoc.
Qed.






(** ** How the task routes answer an outsider *)

(** X30. The task routes report the same refusal under different
    status codes.  For a user who is not a member of the project,
    listing its tasks answers 403, on either provider and under every
    filter, and creating a task in it answers 400, both with "Access
    denied - not a project member".  The three
    comment routes have no answer of their own for a task they cannot
    read: for a task of a project the user is no member of, and for an
    id that names no task, adding, editing and deleting a comment all
    answer 500 with a server-error message.  Nothing is written and no
    event is sent. *)
Theorem task_routes_answer_outsiders :
  forall (s : Store) (userId : Id),
    (forall provider projectId filters body,
        projectMember_findUnique userId projectId s = None ->
        TaskRoutes.getProjectTasks provider projectId userId filters s
        = answer (failure 403 "Access denied - not a project member") s
        /\ TaskRoutes.createTask false projectId body userId s
           = answer (failure 400 "Access denied - not a project member") s)
    /\ (forall id commentId content,
          task_findUnique id s = None
          \/ (exists t, task_findUnique id s = Some t
                        /\ projectMember_findUnique userId (t_projectId t) s
                           = None) ->
          TaskRoutes.addComment false id content userId s
          = answer (failure 500 "Server error adding comment") s
          /\ TaskRoutes.updateComment false id commentId content userId s
             = answer (failure 500 "Server error updating comment") s
          /\ TaskRoutes.deleteComment id commentId userId s
             = answer (failure 500 "Server error deleting comment") s).
Proof.
  intros s userId. split.
  - intros provider projectId filters body Hnone. split.
    + unfold TaskRoutes.getProjectTasks, TaskService.getProjectTasks, bind.
      now rewrite isProjectMember_run, Hnone.
    + unfold TaskRoutes.createTask, TaskService.createTask. unfold bind at 1.
      now rewrite isProjectMember_run, Hnone.
  - intros id commentId content Hcannot.
    assert (Hget : exists e,
              TaskService.getTaskById id userId s = Err e
              /\ (e = TaskNotFound \/ e = AccessDenied)).
    { rewrite getTaskById_unfold.
      destruct Hcannot as [->|(t & -> & ->)]; eexists; split;
        try reflexivity; auto. }
    destruct Hget as (e & Hget & He).
    assert (Hadd : TaskService.addComment id content userId s = Err e).
    { unfold TaskService.addComment. unfold bind at 1. now rewrite Hget. }
    assert (Hupd : TaskService.updateComment id commentId content userId s
                   = Err e).
    { unfold TaskService.updateComment. unfold bind at 1. now rewrite Hget. }
    unfold TaskRoutes.addComment, TaskRoutes.updateComment,
      TaskRoutes.deleteComment.
    rewrite Hadd, Hupd, Hget.
    destruct He as [-> | ->]; repeat split; reflexivity.
Qed.

Lemma task_routes_answer_outsiders_witness :
  TaskRoutes.getProjectTasks Sqlite Sample.sprintId Sample.dave
    (TaskService.mkFilters None None None None) Sample.withReview
  = answer (failure 403 "Access denied - not a project member")
           Sample.withReview
  /\ TaskRoutes.createTask false Sample.sprintId Sample.fixBug Sample.dave
       Sample.withReview
     = answer (failure 400 "Access denied - not a project member")
              Sample.withReview
  /\ TaskRoutes.addComment false 13 "Hello" Sample.dave Sample.withReview
     = answer (failure 500 "Server error adding comment") Sample.withReview.
Proof.
  destruct (task_routes_answer_outsiders Sample.withReview Sample.dave)
    as (Hproject & Htask).
  destruct (Hproject Sqlite Sample.sprintId
              (TaskService.mkFilters None None None None) Sample.fixBug)
    as (Hlist & Hcreate); [reflexivity|].
  destruct (Htask 13 Sample.commentId "Hello") as (Hadd & _).
  - right. exists Sample.review. split; reflexivity.
  - auto.
Defined.
